(** * gopv: progress tracker, scheduler and text reporter

    A shallow embedding of the Go package [gopv] (the tracker of
    [gopv.go], its revision with [StartChan] and [Done], and the text
    reporter) together with the properties of its specification.

    Conventions of the embedding:
    - Go's [int] and [int64] are 64-bit two's complement integers, carried
      as [Z] with the wrap-around written out ([Int64.wrap]);
    - [float64] is IEEE 754 binary64, carried as [spec_float] with the
      operations of [SpecFloat] at precision 53 and maximal exponent 1024
      (round to nearest, ties to even);
    - [time.Duration] is an [int64] count of nanoseconds; a [time.Time] is
      an instant with an optional monotonic reading and a zone offset;
    - the wall clock read by [time.Now()] is an explicit argument;
    - Go strings are byte strings, carried as [string]. *)

From stdpp Require Import base gmap strings list.
From Stdlib Require Import ZArith List Bool Lia Ascii String DecimalString.
From Stdlib Require Import Floats.SpecFloat.
Import ListNotations.

Local Open Scope string_scope.
Local Open Scope Z_scope.

(* ===================================================================== *)
(** ** 64-bit integers *)
(* ===================================================================== *)

Module Int64.

Definition modulus : Z := 2 ^ 64.
Definition min_int : Z := - 2 ^ 63.
Definition max_int : Z := 2 ^ 63 - 1.

(** Reduction of a mathematical integer to the two's complement range. *)
Definition wrap (z : Z) : Z := (z + 2 ^ 63) mod modulus - 2 ^ 63.

Definition in_range (z : Z) : bool := (min_int <=? z) && (z <=? max_int).

Definition add (a b : Z) : Z := wrap (a + b).
Definition sub (a b : Z) : Z := wrap (a - b).
Definition mul (a b : Z) : Z := wrap (a * b).

(** Go's [/] and [%] on integers truncate toward zero (the one
    overflowing quotient, [min_int / -1], wraps). *)
Definition quot (a b : Z) : Z := wrap (Z.quot a b).
Definition rem (a b : Z) : Z := Z.rem a b.

(** Clamp to the representable range (used by [time.Time.Sub]). *)
Definition saturate (z : Z) : Z :=
  if z <? min_int then min_int else if max_int <? z then max_int else z.

End Int64.

(* ===================================================================== *)
(** ** float64 *)
(* ===================================================================== *)

Module F64.

Definition prec : Z := 53.
Definition emax : Z := 1024.

Definition float64 : Type := spec_float.

Definition add : float64 -> float64 -> float64 := SFadd prec emax.
Definition mul : float64 -> float64 -> float64 := SFmul prec emax.
Definition div : float64 -> float64 -> float64 := SFdiv prec emax.
Definition ltb : float64 -> float64 -> bool := SFltb.
Definition eqb : float64 -> float64 -> bool := SFeqb.

Definition zero : float64 := S754_zero false.

(** The conversion [float64(n)] of an integer: the nearest binary64. *)
Definition of_int (z : Z) : float64 := binary_normalize prec emax z 0 false.

(** The exact integer part of a finite float, rounded toward zero;
    [None] for NaN and the infinities. *)
Definition trunc (f : float64) : option Z :=
  match f with
  | S754_zero _ => Some 0
  | S754_finite s m e =>
      Some (cond_Zopp s (if 0 <=? e then Zpos m * 2 ^ e else Zpos m / 2 ^ (- e)))
  | S754_infinity _ | S754_nan => None
  end.

(** The conversion [int(f)] / [int64(f)] / [time.Duration(f)]: the
    fractional part is discarded.  When the integer part does not fit
    (or [f] is NaN or infinite) Go leaves the result to the
    implementation; the value below is the one of the gc compiler on
    amd64 (the "integer indefinite" value of CVTTSD2SQ). *)
Definition to_int (f : float64) : Z :=
  match trunc f with
  | Some z => if Int64.in_range z then z else Int64.min_int
  | None => Int64.min_int
  end.

(** [convertible f]: the conversion of [f] to an integer is defined by
    the language, i.e. [f] is finite and its integer part fits. *)
Definition convertible (f : float64) : bool :=
  match trunc f with
  | Some z => Int64.in_range z
  | None => false
  end.

(** The mathematical floor of a finite float (used to state properties;
    the program itself only truncates). *)
Definition floor (f : float64) : option Z :=
  match f with
  | S754_zero _ => Some 0
  | S754_finite s m e =>
      Some (if 0 <=? e then cond_Zopp s (Zpos m) * 2 ^ e
            else cond_Zopp s (Zpos m) / 2 ^ (- e))
  | S754_infinity _ | S754_nan => None
  end.


(** The sign bit. *)
Definition signbit (f : float64) : bool :=
  match f with
  | S754_zero s | S754_infinity s | S754_finite s _ _ => s
  | S754_nan => false
  end.

(** [le_val w m e]: the integer [w] is at most [m * 2^e]. *)
Definition le_val (w m e : Z) : Prop :=
  w * 2 ^ Z.max 0 (- e) <= m * 2 ^ Z.max 0 e.

(** [ge_int f w]: the value of [f] is at least the integer [w]
    ([+Inf] included). *)
Definition ge_int (f : float64) (w : Z) : Prop :=
  match f with
  | S754_infinity false => True
  | S754_finite false m e => le_val w (Zpos m) e
  | _ => False
  end.

(** [at_most f w]: [f] is zero, or positive and finite with an exponent
    that is not positive (its grid is at least as fine as the integers),
    and its value is at most the integer [w]. *)
Definition at_most (f : float64) (w : Z) : Prop :=
  match f with
  | S754_zero _ => 0 <= w
  | S754_finite false m e => e <= 0 /\ Zpos m <= w * 2 ^ (- e)
  | _ => False
  end.

(** A shift record that has lost no bit: its location is exact. *)
Definition lossless (mrs : shr_record) : Prop :=
  shr_r mrs = false /\ shr_s mrs = false.


Definition one : float64 := of_int 1.

End F64.

Abbreviation float64 := F64.float64.

(* ===================================================================== *)
(** ** package time: durations and instants *)
(* ===================================================================== *)

Module Time.

(** [time.Duration]: nanoseconds in an [int64]. *)
Definition Duration : Type := Z.

Definition Nanosecond : Duration := 1.
Definition Microsecond : Duration := 1000 * Nanosecond.
Definition Millisecond : Duration := 1000 * Microsecond.
Definition Second : Duration := 1000 * Millisecond.
Definition Minute : Duration := 60 * Second.
Definition Hour : Duration := 60 * Minute.

Definition minDuration : Duration := Int64.min_int.
Definition maxDuration : Duration := Int64.max_int.

(** [Duration.Seconds]:
    [sec := d / Second; nsec := d % Second;
     return float64(sec) + float64(nsec)/1e9]. *)
Definition Seconds (d : Duration) : float64 :=
  let sec := Int64.quot d Second in
  let nsec := Int64.rem d Second in
  F64.add (F64.of_int sec) (F64.div (F64.of_int nsec) (F64.of_int (10 ^ 9))).

(** [Duration.Minutes]:
    [min := d / Minute; nsec := d % Minute;
     return float64(min) + float64(nsec)/(60*1e9)]. *)
Definition Minutes (d : Duration) : float64 :=
  let min := Int64.quot d Minute in
  let nsec := Int64.rem d Minute in
  F64.add (F64.of_int min) (F64.div (F64.of_int nsec) (F64.of_int (60 * 10 ^ 9))).

(** [lessThanHalf x y] is [uint64(x)+uint64(x) < uint64(y)]. *)
Definition lessThanHalf (x y : Duration) : bool :=
  ((x mod Int64.modulus + x mod Int64.modulus) mod Int64.modulus)
    <? (y mod Int64.modulus).

(** [Duration.Round]: the multiple of [m] nearest to [d], halves away
    from zero; [d] itself when [m <= 0]; saturating on overflow. *)
Definition Round (d m : Duration) : Duration :=
  if m <=? 0 then d
  else
    let r := Int64.rem d m in
    if d <? 0 then
      let r := Int64.wrap (- r) in
      if lessThanHalf r m then Int64.add d r
      else
        let d1 := Int64.add (Int64.sub d m) r in
        if d1 <? d then d1 else minDuration
    else
      if lessThanHalf r m then Int64.sub d r
      else
        let d1 := Int64.sub (Int64.add d m) r in
        if d <? d1 then d1 else maxDuration.

(** An instant.  [wall] counts nanoseconds since the Unix epoch, [mono]
    is the monotonic clock reading that [time.Now()] attaches, [zone] is
    the offset (seconds east of UTC) of the instant's location. *)
Record Time : Type := mkTime {
  wall : Z;
  mono : option Z;
  zone : Z
}.

(** The zero [time.Time]: January 1, year 1, 00:00:00 UTC. *)
Definition zeroTime : Time :=
  {| wall := - 62135596800 * 10 ^ 9; mono := None; zone := 0 |}.

(** [subMono t u]: difference of two monotonic readings, saturating. *)
Definition subMono (t u : Z) : Duration :=
  let d := Int64.sub t u in
  if (d <? 0) && (u <? t) then maxDuration
  else if (0 <? d) && (t <? u) then minDuration
  else d.

(** [t.Sub(u)]: the monotonic readings are used when both instants
    carry one, the wall clock otherwise; the result saturates at
    [minDuration] / [maxDuration]. *)
Definition Sub (t u : Time) : Duration :=
  match mono t, mono u with
  | Some mt, Some mu => subMono mt mu
  | _, _ => Int64.saturate (wall t - wall u)
  end.

End Time.

Abbreviation Duration := Time.Duration.
Abbreviation Time := Time.Time.

(* ===================================================================== *)
(** ** packages strings and strconv *)
(* ===================================================================== *)

Module Strings.

(** [len(s)]: the number of bytes. *)
Definition len (s : string) : Z := Z.of_nat (String.length s).

(** [strconv.Itoa]: decimal representation, with a leading [-] for
    negative numbers. *)
Definition Itoa (z : Z) : string := NilZero.string_of_int (Z.to_int z).

Fixpoint repeat_nat (s : string) (n : nat) : string :=
  match n with
  | O => EmptyString
  | S k => s ++ repeat_nat s k
  end.

(** [strings.Repeat(s, count)]: panics ([None]) on a negative count. *)
Definition Repeat (s : string) (count : Z) : option string :=
  if count <? 0 then None else Some (repeat_nat s (Z.to_nat count)).

(** Scan of [strings.ReplaceAll] for a non-empty [old]: matches are
    taken leftmost first and do not overlap; [skip] counts the bytes of
    the current match still to be dropped. *)
Fixpoint replaceFrom (skip : nat) (old new s : string) : string :=
  match s with
  | EmptyString => EmptyString
  | String c s' =>
      match skip with
      | S k => replaceFrom k old new s'
      | O =>
          if String.prefix old s
          then new ++ replaceFrom (Nat.pred (String.length old)) old new s'
          else String c (replaceFrom O old new s')
      end
  end.

(** [strings.ReplaceAll(s, old, new)].  The program only passes
    non-empty patterns; the empty pattern (which Go expands between
    runes) is left out of the model and returns [s]. *)
Definition ReplaceAll (s old new : string) : string :=
  match old with
  | EmptyString => s
  | _ => replaceFrom O old new s
  end.



(** Decimal digits of [v], left-padded with zeros to [width] digits. *)
Definition pad_zeros (width : nat) (s : string) : string :=
  repeat_nat "0" (width - String.length s) ++ s.

End Strings.

(* ===================================================================== *)
(** ** package time: formatting *)
(* ===================================================================== *)

Module TimeFmt.

(** *** [Duration.String] *)

(** [fmtFrac v prec]: the fraction of [v/10^prec] without trailing
    zeros (with its decimal point, empty when the fraction is zero) and
    the quotient [v/10^prec]. *)
Fixpoint fmtFrac (v : Z) (prec : nat) (print : bool) (acc : string)
  : string * Z :=
  match prec with
  | O => (if print then "." ++ acc else acc, v)
  | S k =>
      let digit := v mod 10 in
      let print := print || negb (digit =? 0) in
      fmtFrac (v / 10) k print
              (if print then Strings.Itoa digit ++ acc else acc)
  end.

(** [fmtInt v]: decimal digits of the unsigned [v]. *)
Definition fmtInt (v : Z) : string := Strings.Itoa v.

(** [Duration.String]: e.g. ["72h3m0.5s"], ["1.5ms"], ["0s"]. *)
Definition DurationString (d : Duration) : string :=
  let neg := d <? 0 in
  let u := if neg then (- d) mod Int64.modulus else d in
  let body :=
    if u <? Time.Second then
      if u =? 0 then "0s"
      else if u <? Time.Microsecond then
        fmtInt u ++ "ns"
      else if u <? Time.Millisecond then
        let '(frac, q) := fmtFrac u 3 false "" in
        (* the micro sign, U+00B5, is the two bytes C2 B5 *)
        fmtInt q ++ frac ++ String (ascii_of_nat 194) (String (ascii_of_nat 181) "s")
      else
        let '(frac, q) := fmtFrac u 6 false "" in
        fmtInt q ++ frac ++ "ms"
    else
      let '(frac, u1) := fmtFrac u 9 false "" in
      let secs := fmtInt (u1 mod 60) ++ frac ++ "s" in
      let u2 := u1 / 60 in
      if 0 <? u2 then
        let mins := fmtInt (u2 mod 60) ++ "m" in
        let u3 := u2 / 60 in
        if 0 <? u3 then fmtInt u3 ++ "h" ++ mins ++ secs
        else mins ++ secs
      else secs in
  if neg then "-" ++ body else body.

(** *** [Time.Format] *)

(** The civil date of a day number counted from the Unix epoch
    (proleptic Gregorian calendar). *)
Definition civil_from_days (days : Z) : Z * Z * Z :=
  let z := days + 719468 in
  let era := z / 146097 in
  let doe := z - era * 146097 in
  let yoe := (doe - doe / 1460 + doe / 36524 - doe / 146096) / 365 in
  let y := yoe + era * 400 in
  let doy := doe - (365 * yoe + yoe / 4 - yoe / 100) in
  let mp := (5 * doy + 2) / 153 in
  let d := doy - (153 * mp + 2) / 5 + 1 in
  let m := if mp <? 10 then mp + 3 else mp - 9 in
  (if m <=? 2 then y + 1 else y, m, d).

(** The pieces of a layout: the reference time is
    [01/02 03:04:05PM '06 -0700]; [15] is the hour on the 24-hour clock
    and [03] the hour on the 12-hour clock. *)
Inductive chunk : Type :=
| stdLongYear      (* "2006" *)
| stdZeroMonth     (* "01" *)
| stdZeroDay       (* "02" *)
| stdHour          (* "15" *)
| stdZeroHour12    (* "03" *)
| stdZeroMinute    (* "04" *)
| stdZeroSecond    (* "05" *)
| literal (c : ascii).

(** Bytes that can start a piece of the reference time which this
    model does not cover. *)
Definition starts_other_chunk (c : ascii) : bool :=
  existsb (Ascii.eqb c)
          ["J"; "M"; "P"; "p"; "Z"; "_"; "."; ","; "0"; "1"; "2"; "3"; "4"; "5"; "-"]%char.

(** [nextStdChunk], restricted to the pieces above; [None] when the
    layout uses another piece of the reference time.  [skip] counts the
    bytes of the current piece still to be dropped. *)
Fixpoint chunks (skip : nat) (layout : string) : option (list chunk) :=
  match layout with
  | EmptyString => Some []
  | String c rest =>
      match skip with
      | S k => chunks k rest
      | O =>
          let next (ch : chunk) (n : nat) :=
            option_map (cons ch) (chunks n rest) in
          if String.prefix "2006" layout then next stdLongYear 3%nat
          else if String.prefix "01" layout then next stdZeroMonth 1%nat
          else if String.prefix "02" layout then next stdZeroDay 1%nat
          else if String.prefix "03" layout then next stdZeroHour12 1%nat
          else if String.prefix "04" layout then next stdZeroMinute 1%nat
          else if String.prefix "05" layout then next stdZeroSecond 1%nat
          else if String.prefix "15" layout then next stdHour 1%nat
          else if Ascii.eqb c "-" && negb (String.prefix "-07" layout)
               then next (literal c) 0%nat
          else if starts_other_chunk c then None
          else next (literal c) 0%nat
      end
  end.

(** [appendInt(b, x, width)]: decimal digits, zero-padded. *)
Definition appendInt (x : Z) (width : nat) : string :=
  if x <? 0 then "-" ++ Strings.pad_zeros width (Strings.Itoa (- x))
  else Strings.pad_zeros width (Strings.Itoa x).

Definition format_chunk (t : Time) (ch : chunk) : string :=
  let secs := Time.wall t / 10 ^ 9 + Time.zone t in
  let '(year, month, day) := civil_from_days (secs / 86400) in
  let sod := secs mod 86400 in
  let hour := sod / 3600 in
  let min := (sod mod 3600) / 60 in
  let sec := sod mod 60 in
  match ch with
  | stdLongYear => appendInt year 4
  | stdZeroMonth => appendInt month 2
  | stdZeroDay => appendInt day 2
  | stdHour => appendInt hour 2
  | stdZeroHour12 =>
      (* hr := hour % 12; if hr == 0 { hr = 12 } *)
      let hr := hour mod 12 in
      appendInt (if hr =? 0 then 12 else hr) 2
  | stdZeroMinute => appendInt min 2
  | stdZeroSecond => appendInt sec 2
  | literal c => String c EmptyString
  end.

(** [t.Format(layout)]. *)
Definition Format (t : Time) (layout : string) : option string :=
  option_map (fun cs => String.concat "" (map (format_chunk t) cs))
             (chunks O layout).

End TimeFmt.

(* ===================================================================== *)
(** ** package fmt: the part of [Sprintf] that compiled legends use *)
(* ===================================================================== *)

Module Fmt.

(** The operands a legend is rendered from, with their Go types. *)
Inductive arg : Type :=
| ArgString (s : string)
| ArgInt (z : Z)
| ArgFloat (f : float64)
| ArgDuration (d : Duration).

(** Rounding of the quotient [num/den] ([den > 0]) to the nearest
    integer, ties to even, as [strconv] rounds decimal digits. *)
Definition round_half_even (num den : Z) : Z :=
  let q := num / den in
  let r := num mod den in
  if (den <? 2 * r) || ((2 * r =? den) && Z.odd q) then q + 1 else q.

(** The verb [%.<prec>f] on a [float64]: fixed notation with [prec]
    digits after the point, the exact binary value being rounded to
    nearest even; [NaN], [+Inf] and [-Inf] for the special values. *)
Definition FormatFloatF (f : float64) (prec : Z) : string :=
  match f with
  | S754_nan => "NaN"
  | S754_infinity s => if s then "-Inf" else "+Inf"
  | _ =>
      let n :=
        match f with
        | S754_finite _ m e =>
            if 0 <=? e then Zpos m * 2 ^ e * 10 ^ prec
            else round_half_even (Zpos m * 10 ^ prec) (2 ^ (- e))
        | _ => 0
        end in
      (if F64.signbit f then "-" else "")
        ++ Strings.Itoa (n / 10 ^ prec)
        ++ (if 0 <? prec
            then "." ++ Strings.pad_zeros (Z.to_nat prec)
                                          (Strings.Itoa (n mod 10 ^ prec))
            else "")
  end.

(** [printArg]: the pairs of operand type and verb that a compiled
    legend produces; [None] for the others (bad verbs and the verbs
    that need [%v]-style printing are outside the model). *)
Definition printArg (a : arg) (verb : ascii) (prec : option Z) : option string :=
  match a, prec with
  | ArgString s, None => if Ascii.eqb verb "s" then Some s else None
  | ArgDuration d, None =>
      (* time.Duration is a Stringer *)
      if Ascii.eqb verb "s" then Some (TimeFmt.DurationString d) else None
  | ArgInt z, None => if Ascii.eqb verb "d" then Some (Strings.Itoa z) else None
  | ArgFloat f, _ =>
      if Ascii.eqb verb "f"
      then Some (FormatFloatF f (match prec with Some p => p | None => 6 end))
      else None
  | _, _ => None
  end.

(** Where the scan of the format stands. *)
Inductive pstate : Type :=
| PText                                   (* plain text *)
| PPercent                                (* after [%] *)
| PPrec (p : option Z)                    (* after [%.] and its digits *)
| PIndex (prec : option Z) (n : option Z) (* inside [[ ]] *)
| PVerb (prec : option Z) (idx : nat).    (* after [[n]], before the verb *)

Definition digit_of (c : ascii) : option Z :=
  let n := Z.of_nat (nat_of_ascii c) in
  if (48 <=? n) && (n <=? 57) then Some (n - 48) else None.

(** [parsenum] gives up above this bound. *)
Definition tooLarge (n : Z) : bool := 1000000 <? n.

(** [doPrintf]: one byte at a time.  The directives covered are [%%],
    [%[n]verb] and [%.p[n]verb]; the result is [None] as soon as the
    format leaves them (flags, widths, [*], verbs without an index, a
    bad index, a missing verb) and when Go would append its
    [%!(EXTRA ...)] report, which it does when operands are left over
    and no [[n]] index was seen ([reordered] is false). *)
Fixpoint doPrintf (a : list arg) (st : pstate) (reordered : bool)
         (format : string) : option string :=
  match format with
  | EmptyString =>
      match st with
      | PText =>
          if reordered || Nat.eqb (List.length a) 0 then Some EmptyString
          else None
      | _ => None
      end
  | String c rest =>
      match st with
      | PText =>
          if Ascii.eqb c "%" then doPrintf a PPercent reordered rest
          else option_map (String c) (doPrintf a PText reordered rest)
      | PPercent =>
          if Ascii.eqb c "%"
          then option_map (String "%") (doPrintf a PText reordered rest)
          else if Ascii.eqb c "[" then doPrintf a (PIndex None None) true rest
          else if Ascii.eqb c "." then doPrintf a (PPrec None) reordered rest
          else None
      | PPrec p =>
          match digit_of c with
          | Some d =>
              let n := 10 * (match p with Some n => n | None => 0 end) + d in
              if tooLarge n then None
              else doPrintf a (PPrec (Some n)) reordered rest
          | None =>
              if Ascii.eqb c "["
              then doPrintf a
                     (PIndex (Some (match p with Some n => n | None => 0 end)) None)
                     true rest
              else None
          end
      | PIndex prec n =>
          match digit_of c with
          | Some d =>
              let k := 10 * (match n with Some k => k | None => 0 end) + d in
              if tooLarge k then None
              else doPrintf a (PIndex prec (Some k)) reordered rest
          | None =>
              if Ascii.eqb c "]"
              then match n with
                   | Some k =>
                       if (1 <=? k) && (k <=? Z.of_nat (List.length a))
                       then doPrintf a (PVerb prec (Z.to_nat (k - 1))) reordered rest
                       else None
                   | None => None
                   end
              else None
          end
      | PVerb prec idx =>
          match nth_error a idx with
          | Some x =>
              match printArg x c prec with
              | Some out =>
                  option_map (String.append out) (doPrintf a PText reordered rest)
              | None => None
              end
          | None => None
          end
      end
  end.

(** [fmt.Sprintf(format, a...)]. *)
Definition Sprintf (format : string) (a : list arg) : option string :=
  doPrintf a PText false format.

End Fmt.

(* ===================================================================== *)
(** ** The report snapshot *)
(* ===================================================================== *)

(** [type Report struct]: one point-in-time snapshot of a tracker. *)
Record Report : Type := mkReport {
  Now : Time;               (* current time *)
  StartedAt : Time;         (* time when progress was started *)
  DT : Duration;            (* time since last report *)
  Total : Z;                (* total number of items *)
  Done : Z;                 (* number of items done *)
  Left : Z;                 (* number of items left *)
  Ratio : float64;          (* ratio of done items to total *)
  PercentInt : Z;           (* percent of done items to total *)
  PercentFloat : float64;   (* percent of done items to total *)
  Elapsed : Duration;       (* time elapsed since start *)
  ETA : Duration;           (* estimated time to finish *)
  RPSAvg : float64;         (* average done items per second *)
  RPSInst : float64;        (* rps since last report *)
  RPMAvg : float64          (* average done items per minute *)
}.

(** The zero value [Report{}]. *)
Definition zeroReport : Report :=
  {| Now := Time.zeroTime; StartedAt := Time.zeroTime; DT := 0;
     Total := 0; Done := 0; Left := 0; Ratio := F64.zero;
     PercentInt := 0; PercentFloat := F64.zero; Elapsed := 0; ETA := 0;
     RPSAvg := F64.zero; RPSInst := F64.zero; RPMAvg := F64.zero |}.

(** [DefaultReportTime = time.Second]. *)
Definition DefaultReportTime : Duration := Time.Second.

(* ===================================================================== *)
(** ** The tracker of [gopv.go] (scheduler [Start]) *)
(* ===================================================================== *)

Module ProgressStart.
Section WithReporter.
(** The reporter object the tracker points to. *)
Variable R : Type.

Record Progress : Type := mkProgress {
  total : Z;
  done : Z;
  startedAt : Time;
  reportTime : Duration;
  lastReportedDone : Z;
  lastReportedAt : Time;
  reporter : R
}.

(** [New(total)]: panics ([None]) unless [total > 0]; the reporter
    installed by default is passed in as [r]. *)
Definition New (total : Z) (r : R) : option Progress :=
  if total <=? 0 then None
  else Some {| total := total; done := 0; startedAt := Time.zeroTime;
               reportTime := DefaultReportTime; lastReportedDone := 0;
               lastReportedAt := Time.zeroTime; reporter := r |}.

(** [WithReporter]: [cp := *p; cp.reporter = r]. *)
Definition WithReporter (p : Progress) (r : R) : Progress :=
  {| total := total p; done := done p; startedAt := startedAt p;
     reportTime := reportTime p; lastReportedDone := lastReportedDone p;
     lastReportedAt := lastReportedAt p; reporter := r |}.

(** [Add]: [atomic.AddInt64(&p.done, int64(done))]. *)
Definition Add (p : Progress) (n : Z) : Progress :=
  {| total := total p; done := Int64.add (done p) n;
     startedAt := startedAt p; reportTime := reportTime p;
     lastReportedDone := lastReportedDone p;
     lastReportedAt := lastReportedAt p; reporter := reporter p |}.

(** [Report], lines 72-109 of [gopv.go]; [now] is the value of
    [time.Now()].  Returns the snapshot and the tracker after the
    deferred update of the bookkeeping fields. *)
Definition Report (p : Progress) (now : Time) : Report * Progress :=
  if total p =? 0 then (zeroReport, p)
  else
    let dt := Time.Sub now (lastReportedAt p) in
    let done_ := done p in
    let ratio := F64.div (F64.of_int done_) (F64.of_int (total p)) in
    let elapsed := Time.Sub now (startedAt p) in
    let rps := F64.div (F64.of_int done_)
                       (Time.Seconds (Time.Sub now (startedAt p))) in
    let eta :=
      if negb (F64.eqb rps F64.zero)
      then Int64.mul
             (F64.to_int (F64.div (F64.of_int (Int64.sub (total p) done_)) rps))
             Time.Second
      else 0 in
    ({| Now := now;
        StartedAt := startedAt p;
        DT := dt;
        Total := total p;
        Done := done_;
        Left := Int64.sub (total p) done_;
        Ratio := ratio;
        PercentInt := F64.to_int (F64.mul ratio (F64.of_int 100));
        PercentFloat := F64.mul ratio (F64.of_int 100);
        Elapsed := elapsed;
        ETA := eta;
        RPSAvg := rps;
        RPSInst := F64.div (F64.of_int (Int64.sub done_ (lastReportedDone p)))
                           (Time.Seconds dt);
        RPMAvg := F64.div (F64.of_int done_)
                          (Time.Minutes (Time.Sub now (startedAt p))) |},
     {| total := total p; done := done p; startedAt := startedAt p;
        reportTime := reportTime p;
        lastReportedDone := done_;
        lastReportedAt := now;
        reporter := reporter p |}).

End WithReporter.

Arguments mkProgress {R}.
Arguments total {R}.
Arguments done {R}.
Arguments startedAt {R}.
Arguments reportTime {R}.
Arguments lastReportedDone {R}.
Arguments lastReportedAt {R}.
Arguments reporter {R}.
Arguments New {R}.
Arguments WithReporter {R}.
Arguments Add {R}.
Arguments Report {R}.

End ProgressStart.

(* ===================================================================== *)
(** ** The tracker of the revision with [StartChan] and [Done] *)
(* ===================================================================== *)

Module Progress.
Section WithReporter.
Variable R : Type.

(** [doneCh] is the completion channel; the flag records whether it has
    been closed. *)
Record Progress : Type := mkProgress {
  total : Z;
  done : Z;
  startedAt : Time;
  reportTime : Duration;
  lastReportedDone : Z;
  lastReportedAt : Time;
  reporter : R;
  doneCh : bool
}.

Definition New (total : Z) (r : R) : option Progress :=
  if total <=? 0 then None
  else Some {| total := total; done := 0; startedAt := Time.zeroTime;
               reportTime := DefaultReportTime; lastReportedDone := 0;
               lastReportedAt := Time.zeroTime; reporter := r;
               doneCh := false |}.

(** [WithReporter]: [cp := *p; cp.reporter = r]. *)
Definition WithReporter (p : Progress) (r : R) : Progress :=
  {| total := total p; done := done p; startedAt := startedAt p;
     reportTime := reportTime p; lastReportedDone := lastReportedDone p;
     lastReportedAt := lastReportedAt p; reporter := r;
     doneCh := doneCh p |}.

Definition Add (p : Progress) (n : Z) : Progress :=
  {| total := total p; done := Int64.add (done p) n;
     startedAt := startedAt p; reportTime := reportTime p;
     lastReportedDone := lastReportedDone p;
     lastReportedAt := lastReportedAt p; reporter := reporter p;
     doneCh := doneCh p |}.

(** [Report], lines 82-119 of the revision. *)
Definition Report (p : Progress) (now : Time) : Report * Progress :=
  if total p =? 0 then (zeroReport, p)
  else
    let dt := Time.Sub now (lastReportedAt p) in
    let done_ := done p in
    let ratio := F64.div (F64.of_int done_) (F64.of_int (total p)) in
    let elapsed := Time.Sub now (startedAt p) in
    let rps := F64.div (F64.of_int done_)
                       (Time.Seconds (Time.Sub now (startedAt p))) in
    let eta :=
      if negb (F64.eqb rps F64.zero)
      then Int64.mul
             (F64.to_int (F64.div (F64.of_int (Int64.sub (total p) done_)) rps))
             Time.Second
      else 0 in
    ({| Now := now;
        StartedAt := startedAt p;
        DT := dt;
        Total := total p;
        Done := done_;
        Left := Int64.sub (total p) done_;
        Ratio := ratio;
        PercentInt := F64.to_int (F64.mul ratio (F64.of_int 100));
        PercentFloat := F64.mul ratio (F64.of_int 100);
        Elapsed := elapsed;
        ETA := eta;
        RPSAvg := rps;
        RPSInst := F64.div (F64.of_int (Int64.sub done_ (lastReportedDone p)))
                           (Time.Seconds dt);
        RPMAvg := F64.div (F64.of_int done_)
                          (Time.Minutes (Time.Sub now (startedAt p))) |},
     {| total := total p; done := done p; startedAt := startedAt p;
        reportTime := reportTime p;
        lastReportedDone := done_;
        lastReportedAt := now;
        reporter := reporter p;
        doneCh := doneCh p |}).

(** [Done()]: the completion channel. *)
Definition Done (p : Progress) : bool := doneCh p.

End WithReporter.

Arguments mkProgress {R}.
Arguments total {R}.
Arguments done {R}.
Arguments startedAt {R}.
Arguments reportTime {R}.
Arguments lastReportedDone {R}.
Arguments lastReportedAt {R}.
Arguments reporter {R}.
Arguments doneCh {R}.
Arguments New {R}.
Arguments WithReporter {R}.
Arguments Add {R}.
Arguments Report {R}.
Arguments Done {R}.

End Progress.


(* ===================================================================== *)
(** ** Calls that may panic *)
(* ===================================================================== *)

Module Run.

(** The result of a call on a state [S]: it returns, it panics (the
    state is the one reached when the panic started), or it leaves the
    part of the libraries covered by this development. *)
Inductive result (S A : Type) : Type :=
| Ok (a : A) (s : S)
| Panic (s : S)
| Unmodelled.

Arguments Ok {S A}.
Arguments Panic {S A}.
Arguments Unmodelled {S A}.

Definition M (S A : Type) : Type := S -> result S A.

Definition ret {S A} (a : A) : M S A := fun s => Ok a s.

Definition bind {S A B} (c : M S A) (k : A -> M S B) : M S B :=
  fun s =>
    match c s with
    | Ok a s' => k a s'
    | Panic s' => Panic s'
    | Unmodelled => Unmodelled
    end.

(** A library call that panics on [None]. *)
Definition orPanic {S A} (o : option A) : M S A :=
  fun s => match o with Some a => Ok a s | None => Panic s end.

(** A library call that is outside the model on [None]. *)
Definition orUnmodelled {S A} (o : option A) : M S A :=
  fun s => match o with Some a => Ok a s | None => Unmodelled end.

Definition when {S} (b : bool) (c : M S unit) : M S unit :=
  if b then c else ret tt.

End Run.

(** [Run.M S] with stdpp's monad notation [x ← c; k] and [c;; k]. *)
#[global] Instance run_ret {S} : MRet (Run.M S) := fun A => @Run.ret S A.
#[global] Instance run_bind {S} : MBind (Run.M S) :=
  fun A B k c => @Run.bind S A B c k.

(* ===================================================================== *)
(** ** The text reporter *)
(* ===================================================================== *)

Module TextReporter.

(** *** Output sinks and buffered writers *)

(** A [*bufio.Writer]: the sink it wraps and the bytes not yet flushed.
    (The fixed buffer size only decides how early bytes reach the sink;
    each call of the reporter ends with a flush.) *)
Record bufioWriter : Type := mkWriter {
  wr : nat;
  buf : string
}.

(** The objects a reporter points to: the writers allocated so far,
    addressed by their index, and the bytes received by each sink.
    Sinks accept every write. *)
Record World : Type := mkWorld {
  writers : list bufioWriter;
  outputs : gmap nat string
}.

Definition emptyWorld : World := {| writers := []; outputs := ∅ |}.

(** The sink handle of [os.Stderr]. *)
Definition Stderr : nat := 2%nat.

(** The bytes a sink has received. *)
Definition written (w : World) (o : nat) : string :=
  default "" (outputs w !! o).

Definition CR : string := String (ascii_of_nat 13) EmptyString.
Definition LF : string := String (ascii_of_nat 10) EmptyString.

(** *** The reporter *)

Record TextReporter : Type := mkTextReporter {
  (* config - should be copied in clone() *)
  legend : string;
  floatPrecision : Z;
  output : nat;
  pbWidth : Z;
  (* runtime vars. should not be copied in clone() *)
  legendCompiled : string;
  writer : option nat;
  lastLegendLength : Z
}.

Definition TextReporterLegendDefault : string :=
  "[{now}] - working ({done}/{total}) done {percent_int}%%, RPS {rps_avg}, elapsed {elapsed}, ETA {eta}"
    ++ CR.
Definition TextReporterLegendProgressBar : string :=
  "{progress_bar} {percent_int}%%, {rps_avg} RPS, {eta} ETA" ++ CR.
Definition TextReporterDefaultFloatPrecision : Z := 2.
Definition TextReporterDefaultProgressBarWidth : Z := 80.

Definition NewTextReporter : TextReporter :=
  {| legend := TextReporterLegendDefault;
     floatPrecision := TextReporterDefaultFloatPrecision;
     output := Stderr;
     pbWidth := TextReporterDefaultProgressBarWidth;
     legendCompiled := "";
     writer := None;
     lastLegendLength := 0 |}.

(** [clone]: [cp := *r; return &cp].  The struct assignment copies
    every field, the runtime ones included. *)
Definition clone (r : TextReporter) : TextReporter :=
  {| legend := legend r;
     floatPrecision := floatPrecision r;
     output := output r;
     pbWidth := pbWidth r;
     legendCompiled := legendCompiled r;
     writer := writer r;
     lastLegendLength := lastLegendLength r |}.

Definition set_legend (r : TextReporter) (l : string) : TextReporter :=
  {| legend := l; floatPrecision := floatPrecision r; output := output r;
     pbWidth := pbWidth r; legendCompiled := legendCompiled r;
     writer := writer r; lastLegendLength := lastLegendLength r |}.
Definition set_floatPrecision (r : TextReporter) (p : Z) : TextReporter :=
  {| legend := legend r; floatPrecision := p; output := output r;
     pbWidth := pbWidth r; legendCompiled := legendCompiled r;
     writer := writer r; lastLegendLength := lastLegendLength r |}.
Definition set_output (r : TextReporter) (o : nat) : TextReporter :=
  {| legend := legend r; floatPrecision := floatPrecision r; output := o;
     pbWidth := pbWidth r; legendCompiled := legendCompiled r;
     writer := writer r; lastLegendLength := lastLegendLength r |}.
Definition set_pbWidth (r : TextReporter) (w : Z) : TextReporter :=
  {| legend := legend r; floatPrecision := floatPrecision r; output := output r;
     pbWidth := w; legendCompiled := legendCompiled r;
     writer := writer r; lastLegendLength := lastLegendLength r |}.
Definition set_compiled (r : TextReporter) (c : string) (w : option nat)
  : TextReporter :=
  {| legend := legend r; floatPrecision := floatPrecision r; output := output r;
     pbWidth := pbWidth r; legendCompiled := c;
     writer := w; lastLegendLength := lastLegendLength r |}.
Definition set_lastLegendLength (r : TextReporter) (n : Z) : TextReporter :=
  {| legend := legend r; floatPrecision := floatPrecision r; output := output r;
     pbWidth := pbWidth r; legendCompiled := legendCompiled r;
     writer := writer r; lastLegendLength := n |}.

(** The builder methods: [ret := r.clone(); ret.<field> = ...; return ret]. *)
Definition WithLegend (r : TextReporter) (legend : string) : TextReporter :=
  set_legend (clone r) legend.
Definition WithFloatPrecision (r : TextReporter) (floatPrecision : Z) : TextReporter :=
  set_floatPrecision (clone r) floatPrecision.
Definition WithOutput (r : TextReporter) (output : nat) : TextReporter :=
  set_output (clone r) output.
Definition WithProgressBarWidth (r : TextReporter) (width : Z) : TextReporter :=
  set_pbWidth (clone r) width.

(** [compileLegend]: placeholders become indexed format directives. *)
Definition compileLegend (format : string) (floatPrecision : Z) : string :=
  let format := Strings.ReplaceAll format "{now}" "%[1]s" in
  let format := Strings.ReplaceAll format "{started_at}" "%[2]s" in
  let format := Strings.ReplaceAll format "{dt}" "%[3]s" in
  let format := Strings.ReplaceAll format "{total}" "%[4]d" in
  let format := Strings.ReplaceAll format "{done}" "%[5]d" in
  let format := Strings.ReplaceAll format "{left}" "%[6]d" in
  let format := Strings.ReplaceAll format "{ratio}" "%.{float_precision}[7]f" in
  let format := Strings.ReplaceAll format "{percent_int}" "%[8]d" in
  let format := Strings.ReplaceAll format "{percent_float}" "%.{float_precision}[9]f" in
  let format := Strings.ReplaceAll format "{elapsed}" "%[10]s" in
  let format := Strings.ReplaceAll format "{eta}" "%[11]s" in
  let format := Strings.ReplaceAll format "{rps_avg}" "%.{float_precision}[12]f" in
  let format := Strings.ReplaceAll format "{rps_inst}" "%.{float_precision}[13]f" in
  let format := Strings.ReplaceAll format "{rpm}" "%.{float_precision}[14]f" in
  let format := Strings.ReplaceAll format "{progress_bar}" "%[15]s" in
  let format := Strings.ReplaceAll format "{float_precision}"
                                   (Strings.Itoa floatPrecision) in
  format.


(** The token that [compileLegend] uses between its two passes. *)
Definition precisionToken : string := "{float_precision}".


(** The format directive each placeholder stands for, in the order of
    [placeholders], at float precision [p]. *)
Definition directives (p : Z) : list string :=
  [ "%[1]s"; "%[2]s"; "%[3]s"; "%[4]d"; "%[5]d"; "%[6]d";
    "%." ++ Strings.Itoa p ++ "[7]f"; "%[8]d";
    "%." ++ Strings.Itoa p ++ "[9]f"; "%[10]s"; "%[11]s";
    "%." ++ Strings.Itoa p ++ "[12]f"; "%." ++ Strings.Itoa p ++ "[13]f";
    "%." ++ Strings.Itoa p ++ "[14]f"; "%[15]s" ].

(** [renderProgressBar]; [None] when [strings.Repeat] panics. *)
Definition renderProgressBar (r : TextReporter) (report : Report)
  : option string :=
  let ratio := Ratio report in
  let ratio := if F64.ltb ratio F64.zero then F64.zero else ratio in
  let progressBarWidth := Int64.sub (pbWidth r) 2 in
  if progressBarWidth <=? 0 then Some ""
  else
    let fillChars := F64.to_int (F64.mul ratio (F64.of_int progressBarWidth)) in
    let fillChars :=
      if progressBarWidth <? fillChars then progressBarWidth else fillChars in
    let fillSpaces := Int64.sub progressBarWidth fillChars in
    let fillSpaces := if fillSpaces <? 0 then 0 else fillSpaces in
    match Strings.Repeat "#" fillChars, Strings.Repeat "-" fillSpaces with
    | Some hashes, Some dashes => Some ("[" ++ hashes ++ dashes ++ "]")
    | _, _ => None
    end.

(** The bar as the specification words it: [fill] times [#], then [-]
    up to the interior width [w], between brackets. *)
Definition spec_bar (w fill : Z) : string :=
  "[" ++ Strings.repeat_nat "#" (Z.to_nat fill)
      ++ Strings.repeat_nat "-" (Z.to_nat (w - fill)) ++ "]".

(** The ETA handed to the formatter (lines 142-145 of [Report]):
    [eta := report.ETA.Round(time.Second); if eta <= 0 { eta = 0 }]. *)
Definition displayedETA (report : Report) : Duration :=
  let eta := Time.Round (ETA report) Time.Second in
  if eta <=? 0 then 0 else eta.

(** The layout both timestamps are formatted with. *)
Definition timeLayout : string := "2006-01-02 03:04:05".

(** The operands of the [Sprintf] call of [Report], in order. *)
Definition legendArgs (report : Report) (now started progressBar : string)
  : list Fmt.arg :=
  [ Fmt.ArgString now;
    Fmt.ArgString started;
    Fmt.ArgDuration (Time.Round (DT report) Time.Millisecond);
    Fmt.ArgInt (Total report);
    Fmt.ArgInt (Done report);
    Fmt.ArgInt (Left report);
    Fmt.ArgFloat (Ratio report);
    Fmt.ArgInt (PercentInt report);
    Fmt.ArgFloat (PercentFloat report);
    Fmt.ArgDuration (Time.Round (Elapsed report) Time.Second);
    Fmt.ArgDuration (displayedETA report);
    Fmt.ArgFloat (RPSAvg report);
    Fmt.ArgFloat (RPSInst report);
    Fmt.ArgFloat (RPMAvg report);
    Fmt.ArgString progressBar ].

(** *** Methods with effects: the state is the reporter and the world *)

Definition St : Type := (TextReporter * World)%type.

Definition getR : Run.M St TextReporter := fun s => Run.Ok (fst s) s.
Definition putR (r : TextReporter) : Run.M St unit :=
  fun s => Run.Ok tt (r, snd s).

(** [bufio.NewWriter(output)]: a fresh writer with an empty buffer. *)
Definition NewWriter (o : nat) : Run.M St nat :=
  fun s =>
    let w := snd s in
    Run.Ok (List.length (writers w))
           (fst s, {| writers := writers w ++ [ {| wr := o; buf := "" |} ];
                      outputs := outputs w |}).

(** [writeString]: [r.writer.WriteString(str)], errors discarded; a nil
    writer panics. *)
Definition writeString (str : string) : Run.M St unit :=
  fun s =>
    let w := snd s in
    match writer (fst s) with
    | None => Run.Panic s
    | Some h =>
        match writers w !! h with
        | None => Run.Panic s
        | Some bw =>
            Run.Ok tt
              (fst s,
               {| writers := <[ h := {| wr := wr bw; buf := buf bw ++ str |} ]> (writers w);
                  outputs := outputs w |})
        end
    end.

(** [flush]: [r.writer.Flush()], error discarded. *)
Definition flush : Run.M St unit :=
  fun s =>
    let w := snd s in
    match writer (fst s) with
    | None => Run.Panic s
    | Some h =>
        match writers w !! h with
        | None => Run.Panic s
        | Some bw =>
            Run.Ok tt
              (fst s,
               {| writers := <[ h := {| wr := wr bw; buf := "" |} ]> (writers w);
                  outputs := <[ wr bw := written w (wr bw) ++ buf bw ]> (outputs w) |})
        end
    end.

(** [Report]: renders one snapshot. *)
Definition Report (report : Report) : Run.M St unit :=
  r ← getR;
  Run.when (String.eqb (legendCompiled r) "")
    (w ← NewWriter (output r);
     putR (set_compiled r (compileLegend (legend r) (floatPrecision r)) (Some w)));;
  r ← getR;
  progressBar ← Run.orPanic (renderProgressBar r report);
  now ← Run.orUnmodelled (TimeFmt.Format (Now report) timeLayout);
  started ← Run.orUnmodelled (TimeFmt.Format (StartedAt report) timeLayout);
  legend ← Run.orUnmodelled
             (Fmt.Sprintf (legendCompiled r)
                          (legendArgs report now started progressBar));
  let lineLength := Strings.len legend in
  writeString legend;;
  Run.when (lineLength <? lastLegendLength r)
    (spaces ← Run.orPanic
                (Strings.Repeat " " (Int64.sub (lastLegendLength r) lineLength));
     writeString spaces);;
  r ← getR;
  putR (set_lastLegendLength r lineLength);;
  flush.

(** [Finalize]: a line break, then a flush. *)
Definition Finalize : Run.M St unit :=
  writeString LF;; flush.

(** The world once [text] has been written to the writer [h] (which held
    [bw]) and the writer flushed: its buffer is empty and its sink has
    received the buffered bytes and [text]. *)
Definition flushed (w : World) (h : nat) (bw : bufioWriter) (text : string) : World :=
  {| writers := <[ h := {| wr := wr bw; buf := "" |} ]> (writers w);
     outputs := <[ wr bw := written w (wr bw) ++ buf bw ++ text ]> (outputs w) |}.

(** The blanks written after a line of [len] bytes when the previous line
    had [last] bytes (lines 170-173 of [Report]). *)
Definition padding (last len : Z) : string :=
  Strings.repeat_nat " " (Z.to_nat (last - len)).

(** The reporter and the world after the first statement of [Report]
    (lines 137-140): an empty compiled legend makes the reporter compile
    its legend and allocate a writer on its output. *)
Definition prepared (s : St) : St :=
  let '(r, w) := s in
  if String.eqb (legendCompiled r) ""
  then (set_compiled r (compileLegend (legend r) (floatPrecision r))
                     (Some (List.length (writers w))),
        {| writers := (writers w ++ [ {| wr := output r; buf := "" |} ])%list;
           outputs := outputs w |})
  else (r, w).

End TextReporter.

(* ===================================================================== *)
(** ** Legends as placeholders and literal text *)
(* ===================================================================== *)

Module Legend.

(** A legend cut into pieces: literal text and placeholders (by their
    position in [TextReporter.placeholders]). *)
Inductive segment : Type :=
| Lit (s : string)
| Tok (i : nat).

Definition directive (p : Z) (i : nat) : string :=
  nth i (TextReporter.directives p) "".

Definition compiled_piece (p : Z) (seg : segment) : string :=
  match seg with Lit s => s | Tok i => directive p i end.
Definition compiled (p : Z) (segs : list segment) : string :=
  String.concat "" (map (compiled_piece p) segs).













End Legend.

(* ===================================================================== *)
(** ** The reporter interface and the scheduler goroutine *)
(* ===================================================================== *)

(** How a call of an interface method ends: it returns or it panics; the
    reporter is left in the state [r]. *)
Inductive outcome (R : Type) : Type :=
| Returned (r : R)
| Panicked (r : R).

Arguments Returned {R}.
Arguments Panicked {R}.

Definition outcome_state {R} (o : outcome R) : R :=
  match o with Returned r | Panicked r => r end.

Definition outcome_panicked {R} (o : outcome R) : bool :=
  match o with Returned _ => false | Panicked _ => true end.

(** [type Reporter interface { Report(report Report); Finalize() }]. *)
Class Reporter (R : Type) : Type := {
  reporter_Report : R -> Report -> outcome R;
  reporter_Finalize : R -> outcome R
}.

(** A reporter that only counts the calls it receives. *)
Record CallCounter : Type := mkCallCounter {
  reports : nat;
  finalizes : nat
}.

#[global] Instance CallCounter_Reporter : Reporter CallCounter := {
  reporter_Report c _ :=
    Returned {| reports := S (reports c); finalizes := finalizes c |};
  reporter_Finalize c :=
    Returned {| reports := reports c; finalizes := S (finalizes c) |}
}.

(** What an observer of a tracker and its goroutine sees. *)
Inductive event : Type :=
| EvStart (now : Time)
| EvAdd (n : Z)
| EvReport (snapshot : Report)
| EvCancel
| EvFinalize
| EvClose.

Definition is_finalize (e : event) : bool :=
  match e with EvFinalize => true | _ => false end.
Definition is_close (e : event) : bool :=
  match e with EvClose => true | _ => false end.

(** Number of calls of [Finalize] in a run, and of closes of the
    completion channel. *)
Definition finalize_calls (tr : list event) : nat :=
  List.length (List.filter is_finalize tr).
Definition close_calls (tr : list event) : nat :=
  List.length (List.filter is_close tr).

Definition is_report (e : event) : bool :=
  match e with EvReport _ => true | _ => false end.

(** Number of snapshots handed to the reporter in a run. *)
Definition report_calls (tr : list event) : nat :=
  List.length (List.filter is_report tr).

(** What an event does to the reporter: a report and the final call
    reach it, nothing else does. *)
Definition deliver {R} `{Reporter R} (r : R) (e : event) : R :=
  match e with
  | EvReport snapshot => outcome_state (reporter_Report r snapshot)
  | EvFinalize => outcome_state (reporter_Finalize r)
  | _ => r
  end.

(** The reporter after the events of a run, in their order. *)
Definition replay {R} `{Reporter R} (tr : list event) (r : R) : R :=
  fold_left deliver tr r.

(** The sum of the amounts added during a run. *)
Fixpoint trace_added (tr : list event) : Z :=
  match tr with
  | [] => 0
  | EvAdd n :: tr => n + trace_added tr
  | _ :: tr => trace_added tr
  end.

(** Runs of a transition system, with the events in the order they
    happen. *)
Inductive exec {C : Type} (step : C -> event -> C -> Prop)
  : C -> list event -> C -> Prop :=
| exec_nil c : exec step c [] c
| exec_step c1 e c2 tr c3 :
    step c1 e c2 -> exec step c2 tr c3 -> exec step c1 (e :: tr) c3.

(** *** The goroutine of [StartChan] *)

Module Scheduler.
Section WithReporter.
Context {R : Type} `{Reporter R}.

Abbreviation Progress := (Progress.Progress R).

(** Where the goroutine launched by [StartChan] stands.  The
    specification's [Idle], [Running] and [Stopped] are [Idle], the
    phases from [FirstReport] to [Closing], and [Stopped].  A goroutine
    that panicked ends in [Crashed] when a report panicked (the deferred
    function has then run to its end) and in [Aborted] when [Finalize]
    itself panicked: the statement [defer close(p.doneCh)] comes after
    the call of [Finalize] and is then never reached. *)
Inductive phase : Type :=
| Idle                          (* [StartChan] not called yet *)
| FirstReport                   (* launched, before the first report *)
| Select                        (* blocked in [select] *)
| Deferred (panicking : bool)   (* in the deferred function, before [Finalize] *)
| Closing (panicking : bool)    (* [Finalize] has returned, before [close(p.doneCh)] *)
| Stopped
| Crashed
| Aborted.

Definition config : Type := (Progress * phase)%type.

Definition set_started (p : Progress) (now : Time) : Progress :=
  {| Progress.total := Progress.total p; Progress.done := Progress.done p;
     Progress.startedAt := now;
     Progress.reportTime := Progress.reportTime p;
     Progress.lastReportedDone := Progress.lastReportedDone p;
     Progress.lastReportedAt := now;
     Progress.reporter := Progress.reporter p;
     Progress.doneCh := Progress.doneCh p |}.

Definition set_closed (p : Progress) : Progress :=
  {| Progress.total := Progress.total p; Progress.done := Progress.done p;
     Progress.startedAt := Progress.startedAt p;
     Progress.reportTime := Progress.reportTime p;
     Progress.lastReportedDone := Progress.lastReportedDone p;
     Progress.lastReportedAt := Progress.lastReportedAt p;
     Progress.reporter := Progress.reporter p;
     Progress.doneCh := true |}.

(** [p.reporter.Report(p.Report())] at time [now]: the snapshot, and
    the configuration the goroutine continues from. *)
Definition emit (p : Progress) (now : Time) : Report * config :=
  let '(snapshot, p1) := Progress.Report p now in
  let o := reporter_Report (Progress.reporter p1) snapshot in
  (snapshot,
   (Progress.WithReporter p1 (outcome_state o),
    if outcome_panicked o then Deferred true else Select)).

(** The call [p.reporter.Finalize()] of the deferred function. *)
Definition finalize (p : Progress) (panicking : bool) : config :=
  let o := reporter_Finalize (Progress.reporter p) in
  (Progress.WithReporter p (outcome_state o),
   if outcome_panicked o then Aborted else Closing panicking).

(** One step of the system: the caller starts the tracker, a producer
    adds, the timer or the cancellation signal wins the [select], or
    the goroutine runs its next statement. *)
Inductive step : config -> event -> config -> Prop :=
| step_start p now :
    step (p, Idle) (EvStart now) (set_started p now, FirstReport)
| step_add p ph n :
    step (p, ph) (EvAdd n) (Progress.Add p n, ph)
| step_first p now :
    step (p, FirstReport) (EvReport (fst (emit p now))) (snd (emit p now))
| step_tick p now :
    step (p, Select) (EvReport (fst (emit p now))) (snd (emit p now))
| step_cancel p :
    step (p, Select) EvCancel (p, Deferred false)
| step_finalize p panicking :
    step (p, Deferred panicking) EvFinalize (finalize p panicking)
| step_close p panicking :
    step (p, Closing panicking) EvClose
         (set_closed p, if panicking then Crashed else Stopped).




(** The goroutine has left its loop (it is in the deferred function or
    beyond). *)
Definition stopping (ph : phase) : bool :=
  match ph with
  | Idle | FirstReport | Select => false
  | _ => true
  end.

(** The goroutine is past its first report. *)
Definition reported (ph : phase) : bool :=
  match ph with
  | Idle | FirstReport => false
  | _ => true
  end.

End WithReporter.
End Scheduler.

(** *** The goroutine of [Start] in [gopv.go] *)

Module SchedulerStart.
Section WithReporter.
Context {R : Type} `{Reporter R}.

Abbreviation Progress := (ProgressStart.Progress R).

(** This goroutine has no deferred function: it is launched, reports,
    waits, and returns on cancellation (or dies in a panicking report). *)
Inductive phase : Type :=
| Idle
| FirstReport
| Select
| Stopped
| Crashed.

Definition config : Type := (Progress * phase)%type.

Definition set_started (p : Progress) (now : Time) : Progress :=
  {| ProgressStart.total := ProgressStart.total p;
     ProgressStart.done := ProgressStart.done p;
     ProgressStart.startedAt := now;
     ProgressStart.reportTime := ProgressStart.reportTime p;
     ProgressStart.lastReportedDone := ProgressStart.lastReportedDone p;
     ProgressStart.lastReportedAt := now;
     ProgressStart.reporter := ProgressStart.reporter p |}.

(** [p.reporter.Report(p.Report())] at time [now]. *)
Definition emit (p : Progress) (now : Time) : Report * config :=
  let '(snapshot, p1) := ProgressStart.Report p now in
  let o := reporter_Report (ProgressStart.reporter p1) snapshot in
  (snapshot,
   (ProgressStart.WithReporter p1 (outcome_state o),
    if outcome_panicked o then Crashed else Select)).

Inductive step : config -> event -> config -> Prop :=
| step_start p now :
    step (p, Idle) (EvStart now) (set_started p now, FirstReport)
| step_add p ph n :
    step (p, ph) (EvAdd n) (ProgressStart.Add p n, ph)
| step_first p now :
    step (p, FirstReport) (EvReport (fst (emit p now))) (snd (emit p now))
| step_tick p now :
    step (p, Select) (EvReport (fst (emit p now))) (snd (emit p now))
| step_cancel p :
    step (p, Select) EvCancel (p, Stopped).

(** The goroutine is past its first report. *)
Definition reported (ph : phase) : bool :=
  match ph with
  | Idle | FirstReport => false
  | _ => true
  end.

(** The goroutine has returned or died. *)
Definition over (ph : phase) : bool :=
  match ph with
  | Stopped | Crashed => true
  | _ => false
  end.

End WithReporter.
End SchedulerStart.

(** *** The tracker under a sequence of calls *)

Module Calls.

(** The calls a client can make on a tracker. *)
Inductive op : Type :=
| OpAdd (n : Z)
| OpReport (now : Time).

Definition apply {R} (p : Progress.Progress R) (o : op) : Progress.Progress R :=
  match o with
  | OpAdd n => Progress.Add p n
  | OpReport now => snd (Progress.Report p now)
  end.

Definition run {R} (p : Progress.Progress R) (ops : list op)
  : Progress.Progress R :=
  fold_left apply ops p.

(** The sum of the amounts added. *)
Fixpoint added (ops : list op) : Z :=
  match ops with
  | [] => 0
  | OpAdd n :: ops => n + added ops
  | OpReport _ :: ops => added ops
  end.

(** Every amount added is non-negative. *)
Fixpoint adds_nonneg (ops : list op) : bool :=
  match ops with
  | [] => true
  | OpAdd n :: ops => (0 <=? n) && adds_nonneg ops
  | OpReport _ :: ops => adds_nonneg ops
  end.

End Calls.

(* ===================================================================== *)
(** ** Constructors of the package and a rendering helper *)
(* ===================================================================== *)

(** [New(total)] of the package: the default reporter is a fresh text
    reporter. *)
Definition New (total : Z) : option (Progress.Progress TextReporter.TextReporter) :=
  Progress.New total TextReporter.NewTextReporter.

(** [NewTextWithLegend(total, legend)]:
    [New(total).WithReporter(NewTextReporter().WithLegend(legend))]. *)
Definition NewTextWithLegend (total : Z) (legend : string)
  : option (Progress.Progress TextReporter.TextReporter) :=
  option_map
    (fun p => Progress.WithReporter p
                (TextReporter.WithLegend TextReporter.NewTextReporter legend))
    (New total).

(** [p.reporter.Report(p.Report())] for a tracker whose reporter is a
    text reporter, at time [now], in the world [w]: what the call does,
    and the tracker after its bookkeeping update. *)
Definition render (p : Progress.Progress TextReporter.TextReporter)
           (now : Time) (w : TextReporter.World)
  : Run.result TextReporter.St unit * Progress.Progress TextReporter.TextReporter :=
  let '(snapshot, p1) := Progress.Report p now in
  (TextReporter.Report snapshot (Progress.reporter p1, w), p1).

(** The bytes that a call leaves in the sink [o], when it returns. *)
Definition output_of (res : Run.result TextReporter.St unit) (o : nat)
  : option string :=
  match res with
  | Run.Ok _ s => Some (TextReporter.written (snd s) o)
  | _ => None
  end.

(** The reporter a call leaves behind, when it returns. *)
Definition reporter_of (res : Run.result TextReporter.St unit)
  : option TextReporter.TextReporter :=
  match res with
  | Run.Ok _ s => Some (fst s)
  | _ => None
  end.

(** The two revisions of the tracker hold the same counters and
    timestamps. *)
Definition same_state {R} (a : ProgressStart.Progress R) (b : Progress.Progress R)
  : Prop :=
  ProgressStart.total a = Progress.total b /\
  ProgressStart.done a = Progress.done b /\
  ProgressStart.startedAt a = Progress.startedAt b /\
  ProgressStart.lastReportedDone a = Progress.lastReportedDone b /\
  ProgressStart.lastReportedAt a = Progress.lastReportedAt b.

(** *** Sample values *)

Module Sample.

(** 2023-12-02 13:01:21 UTC, read from the clock with a monotonic
    reading. *)
Definition afternoon : Time :=
  {| Time.wall := 1701522081 * 10 ^ 9; Time.mono := Some 5000; Time.zone := 0 |}.

(** [secs] seconds and [ns] nanoseconds after [afternoon]. *)
Definition after (secs ns : Z) : Time :=
  {| Time.wall := 1701522081 * 10 ^ 9 + secs * 10 ^ 9 + ns;
     Time.mono := Some (5000 + secs * 10 ^ 9 + ns);
     Time.zone := 0 |}.

(** A tracker started at [afternoon] with [done] items out of [total],
    not reported yet. *)
Definition tracker {R} (r : R) (total done : Z) : Progress.Progress R :=
  {| Progress.total := total; Progress.done := done;
     Progress.startedAt := afternoon;
     Progress.reportTime := DefaultReportTime;
     Progress.lastReportedDone := 0;
     Progress.lastReportedAt := afternoon;
     Progress.reporter := r;
     Progress.doneCh := false |}.

Definition tracker_start {R} (r : R) (total done : Z) : ProgressStart.Progress R :=
  {| ProgressStart.total := total; ProgressStart.done := done;
     ProgressStart.startedAt := afternoon;
     ProgressStart.reportTime := DefaultReportTime;
     ProgressStart.lastReportedDone := 0;
     ProgressStart.lastReportedAt := afternoon;
     ProgressStart.reporter := r |}.

(** A snapshot with the given ratio, all other fields zero. *)
Definition with_ratio (ratio : float64) : Report :=
  {| Now := Time.zeroTime; StartedAt := Time.zeroTime; DT := 0;
     Total := 0; Done := 0; Left := 0; Ratio := ratio;
     PercentInt := 0; PercentFloat := F64.zero; Elapsed := 0; ETA := 0;
     RPSAvg := F64.zero; RPSInst := F64.zero; RPMAvg := F64.zero |}.

Definition half : float64 := F64.div (F64.of_int 1) (F64.of_int 2).

(** A tracker at 25 of 50 whose text reporter has the legend [l]. *)
Definition halfway (l : string) : Progress.Progress TextReporter.TextReporter :=
  tracker (TextReporter.WithLegend TextReporter.NewTextReporter l) 50 25.

(** The bytes on standard error after [halfway l] has rendered once, one
    second after the start. *)
Definition rendered (l : string) : option string :=
  output_of (fst (render (halfway l) (after 1 0) TextReporter.emptyWorld))
            TextReporter.Stderr.

(** A reporter with the default legend that has rendered once, rebuilt
    with [WithLegend l], renders a second time: the bytes on standard
    error and the rebuilt reporter afterwards. *)
Definition rebuilt_after_use (l : string)
  : option (option string * option TextReporter.TextReporter) :=
  let p := tracker TextReporter.NewTextReporter 50 25 in
  let first := render p (after 1 0) TextReporter.emptyWorld in
  match fst first with
  | Run.Ok _ (r1, w1) =>
      let p2 := Progress.WithReporter (snd first) (TextReporter.WithLegend r1 l) in
      let second := render p2 (after 2 0) w1 in
      Some (output_of (fst second) TextReporter.Stderr, reporter_of (fst second))
  | _ => None
  end.

(** The same with [WithOutput o] in place of [WithLegend l]: the bytes
    on standard error and in the sink [o] after the second rendering. *)
Definition redirected_after_use (o : nat) : option (option string * option string) :=
  let p := tracker TextReporter.NewTextReporter 50 25 in
  let first := render p (after 1 0) TextReporter.emptyWorld in
  match fst first with
  | Run.Ok _ (r1, w1) =>
      let p2 := Progress.WithReporter (snd first) (TextReporter.WithOutput r1 o) in
      let second := render p2 (after 2 0) w1 in
      Some (output_of (fst second) TextReporter.Stderr, output_of (fst second) o)
  | _ => None
  end.

(** The first line printed with the default legend by the scenarios
    above, and the second. *)
Definition default_line_1 : string :=
  "[2023-12-02 01:01:22] - working (25/50) done 50%, RPS 25.00, elapsed 1s, ETA 1s"
    ++ TextReporter.CR.
Definition default_line_2 : string :=
  "[2023-12-02 01:01:23] - working (25/50) done 50%, RPS 12.50, elapsed 2s, ETA 2s"
    ++ TextReporter.CR.


(** A tracker as [New(50)] leaves it, with a counting reporter. *)
Definition fresh : Progress.Progress CallCounter :=
  {| Progress.total := 50; Progress.done := 0;
     Progress.startedAt := Time.zeroTime;
     Progress.reportTime := DefaultReportTime;
     Progress.lastReportedDone := 0;
     Progress.lastReportedAt := Time.zeroTime;
     Progress.reporter := {| reports := 0; finalizes := 0 |};
     Progress.doneCh := false |}.

(** A run of [StartChan] on it: the tracker is started at [afternoon],
    producers add 3 and 4, the goroutine makes its first report, the
    run is cancelled and the deferred function runs. *)
Definition fresh_added : Progress.Progress CallCounter :=
  Progress.Add (Progress.Add (Scheduler.set_started fresh afternoon) 3) 4.
Definition first_snapshot : Report :=
  fst (Scheduler.emit fresh_added (after 0 10)).
Definition fresh_reported : Progress.Progress CallCounter :=
  fst (snd (Scheduler.emit fresh_added (after 0 10))).
Definition fresh_finished : Progress.Progress CallCounter :=
  Scheduler.set_closed (fst (Scheduler.finalize fresh_reported false)).
Definition run_start : list event := [EvStart afternoon; EvAdd 3; EvAdd 4].
Definition run_stop : list event := [EvCancel; EvFinalize; EvClose].

(** The same run for [Start] of [gopv.go], up to the cancellation. *)
Definition fresh_start : ProgressStart.Progress CallCounter :=
  {| ProgressStart.total := 50; ProgressStart.done := 0;
     ProgressStart.startedAt := Time.zeroTime;
     ProgressStart.reportTime := DefaultReportTime;
     ProgressStart.lastReportedDone := 0;
     ProgressStart.lastReportedAt := Time.zeroTime;
     ProgressStart.reporter := {| reports := 0; finalizes := 0 |} |}.
Definition start_added : ProgressStart.Progress CallCounter :=
  ProgressStart.Add
    (ProgressStart.Add (SchedulerStart.set_started fresh_start afternoon) 3) 4.
Definition start_snapshot : Report :=
  fst (SchedulerStart.emit start_added (after 0 10)).
Definition start_reported : ProgressStart.Progress CallCounter :=
  fst (snd (SchedulerStart.emit start_added (after 0 10))).

(** Two snapshots, at 25 and at 5 of 50, and a text reporter with the
    legend [l] before and after it has rendered the first of them. *)
Definition snapshot : Report :=
  fst (Progress.Report (tracker tt 50 25) (after 1 0)).
Definition snapshot_5 : Report :=
  fst (Progress.Report (tracker tt 50 5) (after 2 0)).
Definition unused (l : string) : TextReporter.St :=
  (TextReporter.WithLegend TextReporter.NewTextReporter l, TextReporter.emptyWorld).
Definition state_after (res : Run.result TextReporter.St unit) (s0 : TextReporter.St)
  : TextReporter.St :=
  match res with Run.Ok _ s => s | _ => s0 end.
Definition used_once (l : string) : TextReporter.St :=
  state_after (TextReporter.Report snapshot (unused l)) (unused l).
Definition used_twice (l : string) : TextReporter.St :=
  state_after (TextReporter.Report snapshot_5 (used_once l)) (used_once l).

End Sample.

(* ===================================================================== *)
(** * Properties *)
(* ===================================================================== *)

(** *** 64-bit integers *)
Lemma wrap_in_range z : Int64.min_int <= z <= Int64.max_int -> Int64.wrap z = z.
Proof.
  unfold Int64.wrap, Int64.min_int, Int64.max_int, Int64.modulus. intros Hz.
  rewrite Z.mod_small; lia.
Qed.

Lemma in_range_spec z : Int64.in_range z = true <-> Int64.min_int <= z <= Int64.max_int.
Proof. unfold Int64.in_range. rewrite andb_true_iff, !Z.leb_le. tauto. Qed.

(** *** The two revisions of [Report] *)
(** C10: the [Report] of [gopv.go] and the [Report] of the revision with
    [StartChan] agree.  From trackers holding the same [total], [done],
    [startedAt], [lastReportedDone] and [lastReportedAt], and at the same
    current time, both return the same snapshot, both leave trackers that
    again hold the same values, and the bookkeeping fields are updated to
    the [done] and the time just used (or left alone when [total] is 0). *)
Theorem Report_revisions_agree {R} (a : ProgressStart.Progress R)
        (b : Progress.Progress R) (now : Time) :
  same_state a b ->
  fst (ProgressStart.Report a now) = fst (Progress.Report b now) /\
  same_state (snd (ProgressStart.Report a now)) (snd (Progress.Report b now)) /\
  ProgressStart.lastReportedDone (snd (ProgressStart.Report a now))
    = (if ProgressStart.total a =? 0 then ProgressStart.lastReportedDone a
       else ProgressStart.done a) /\
  ProgressStart.lastReportedAt (snd (ProgressStart.Report a now))
    = (if ProgressStart.total a =? 0 then ProgressStart.lastReportedAt a else now).
Proof.
  destruct a as [ta da sa rta lda laa ra], b as [tb db sb rtb ldb lab rb dcb].
  unfold same_state; cbn [ProgressStart.total ProgressStart.done ProgressStart.startedAt
    ProgressStart.lastReportedDone ProgressStart.lastReportedAt
    Progress.total Progress.done Progress.startedAt
    Progress.lastReportedDone Progress.lastReportedAt].
  intros (-> & -> & -> & -> & ->).
  unfold ProgressStart.Report, Progress.Report; cbn [ProgressStart.total Progress.total].
  destruct (tb =? 0); cbn; repeat split; reflexivity.
Qed.

(** *** The counter under a sequence of calls *)
Lemma Report_done {R} (p : Progress.Progress R) now :
  Progress.done (snd (Progress.Report p now)) = Progress.done p.
Proof. unfold Progress.Report. destruct (Progress.total p =? 0); reflexivity. Qed.

Lemma added_nonneg ops : Calls.adds_nonneg ops = true -> 0 <= Calls.added ops.
Proof.
  induction ops as [|[n|t] ops IH]; cbn; intros Hn; try lia; auto.
  apply andb_true_iff in Hn as [Hn1 Hn2]. apply Z.leb_le in Hn1. specialize (IH Hn2). lia.
Qed.

Lemma run_done {R} ops : forall (p : Progress.Progress R),
  Calls.adds_nonneg ops = true ->
  Int64.min_int <= Progress.done p ->
  Progress.done p + Calls.added ops <= Int64.max_int ->
  Progress.done (Calls.run p ops) = Progress.done p + Calls.added ops.
Proof.
  induction ops as [|[n|t] ops IH]; intros p Hn Hlo Hhi; cbn in *.
  - lia.
  - apply andb_true_iff in Hn as [Hn1 Hn2]. apply Z.leb_le in Hn1.
    pose proof (added_nonneg _ Hn2) as Hr.
    assert (Hd : Progress.done (Progress.Add p n) = Progress.done p + n).
    { cbn. unfold Int64.add. apply wrap_in_range. lia. }
    unfold Calls.run in *. rewrite IH; rewrite ?Hd; auto; lia.
  - unfold Calls.run in *. rewrite IH; rewrite ?Report_done; auto.
Qed.

Lemma run_app {R} (p : Progress.Progress R) ops1 ops2 :
  Calls.run p (ops1 ++ ops2) = Calls.run (Calls.run p ops1) ops2.
Proof. unfold Calls.run. apply fold_left_app. Qed.

Lemma added_app ops1 ops2 : Calls.added (ops1 ++ ops2) = Calls.added ops1 + Calls.added ops2.
Proof. induction ops1 as [|[n|t] ops1 IH]; cbn; lia. Qed.

Lemma adds_nonneg_app ops1 ops2 :
  Calls.adds_nonneg (ops1 ++ ops2) = Calls.adds_nonneg ops1 && Calls.adds_nonneg ops2.
Proof. induction ops1 as [|[n|t] ops1 IH]; cbn; auto. rewrite IH. apply andb_assoc. Qed.

(** C8, as amended: over a sequence of [Add] and [Report] calls in which
    every amount added is non-negative and the sum stays within [int64],
    [done] never decreases: after any prefix [ops1] of the calls it is at
    most what it is after all of them, and [Report] leaves it unchanged
    (the final value is the initial one plus the amounts added).  Nothing
    clamps it to [total]. *)
Theorem done_monotone {R} (p : Progress.Progress R) (ops1 ops2 : list Calls.op) :
  Calls.adds_nonneg (ops1 ++ ops2) = true ->
  Int64.min_int <= Progress.done p ->
  Progress.done p + Calls.added (ops1 ++ ops2) <= Int64.max_int ->
  Progress.done (Calls.run p ops1) <= Progress.done (Calls.run p (ops1 ++ ops2)) /\
  Progress.done (Calls.run p (ops1 ++ ops2)) = Progress.done p + Calls.added (ops1 ++ ops2).
Proof.
  intros Hn Hlo Hhi.
  pose proof Hn as Hn'. rewrite adds_nonneg_app in Hn'. apply andb_true_iff in Hn' as [H1 H2].
  pose proof (added_nonneg _ H1). pose proof (added_nonneg _ H2).
  rewrite added_app in Hhi.
  rewrite (run_done (ops1 ++ ops2)) by (auto; rewrite added_app; lia).
  rewrite (run_done ops1) by (auto; lia).
  rewrite added_app. lia.
Qed.

(** *** The scheduler *)
Section SchedulerFacts.
Context {R : Type} `{Reporter R}.
Import Scheduler.

Lemma emit_phase (p : Progress.Progress R) now :
  snd (snd (emit p now)) = Select \/ snd (snd (emit p now)) = Deferred true.
Proof.
  unfold emit. destruct (Progress.Report p now) as [snap p1]. cbn.
  destruct (outcome_panicked _); auto.
Qed.













(** The goroutine of [Start] in [gopv.go] never calls [Finalize] and has
    no completion channel to close. *)
Lemma Start_never_finalizes (c c' : @SchedulerStart.config R) (tr : list event) :
  exec SchedulerStart.step c tr c' ->
  finalize_calls tr = 0%nat /\ close_calls tr = 0%nat.
Proof.
  induction 1 as [c|c1 e c2 tr c3 Hs He [IHf IHc]]; [split; reflexivity|].
  unfold finalize_calls, close_calls in *.
  inversion Hs; subst; cbn; auto.
Qed.

End SchedulerFacts.


(** *** Binary rounding *)

Lemma digits2_pos_bounds (p : positive) :
  2 ^ (Zpos (digits2_pos p) - 1) <= Zpos p < 2 ^ Zpos (digits2_pos p).
Proof.
  induction p as [p IH|p IH|]; cbn [digits2_pos].
  - rewrite Pos2Z.inj_succ. replace (Z.succ (Zpos (digits2_pos p)) - 1)
      with (Z.succ (Zpos (digits2_pos p) - 1)) by lia.
    rewrite !Z.pow_succ_r by lia. lia.
  - rewrite Pos2Z.inj_succ. replace (Z.succ (Zpos (digits2_pos p)) - 1)
      with (Z.succ (Zpos (digits2_pos p) - 1)) by lia.
    rewrite !Z.pow_succ_r by lia. lia.
  - cbn. lia.
Qed.

Lemma shr_1_m (mrs : shr_record) :
  0 <= shr_m mrs -> shr_m (shr_1 mrs) = shr_m mrs / 2.
Proof.
  destruct mrs as [m r s]; cbn [shr_m]. intros Hm.
  destruct m as [|[p|p|]|p]; cbn [shr_1 shr_m]; try lia.
  - reflexivity.
  - rewrite Pos2Z.inj_xI. apply Z.div_unique with (r := 1); lia.
  - rewrite Pos2Z.inj_xO. apply Z.div_unique with (r := 0); lia.
  - reflexivity.
Qed.

Lemma iter_shr_1_m (n : positive) : forall mrs : shr_record,
  0 <= shr_m mrs -> shr_m (iter_pos shr_1 n mrs) = shr_m mrs / 2 ^ Zpos n.
Proof.
  induction n as [n IH|n IH|]; intros mrs Hm; cbn [iter_pos].
  - assert (Hp : 0 < 2 ^ Zpos n) by (apply Z.pow_pos_nonneg; lia).
    assert (H1 : 0 <= shr_m (shr_1 mrs)) by (rewrite shr_1_m by lia; apply Z.div_pos; lia).
    assert (H2 : 0 <= shr_m (iter_pos shr_1 n (shr_1 mrs)))
      by (rewrite IH by lia; apply Z.div_pos; lia).
    rewrite IH, IH, shr_1_m by lia.
    rewrite !Z.div_div by lia.
    f_equal. rewrite <- !Z.pow_add_r by lia. change 2 with (2 ^ 1) at 1.
    rewrite <- Z.pow_add_r by lia. f_equal. lia.
  - assert (Hp : 0 < 2 ^ Zpos n) by (apply Z.pow_pos_nonneg; lia).
    assert (H2 : 0 <= shr_m (iter_pos shr_1 n mrs))
      by (rewrite IH by lia; apply Z.div_pos; lia).
    rewrite IH, IH by lia.
    rewrite !Z.div_div by lia.
    f_equal. rewrite <- Z.pow_add_r by lia. f_equal. lia.
  - rewrite shr_1_m by lia. reflexivity.
Qed.

Lemma shr_record_of_loc_m m l : shr_m (shr_record_of_loc m l) = m.
Proof. destruct l as [|[]]; reflexivity. Qed.

(** The mantissa and exponent after [shr_fexp]. *)
Lemma shr_fexp_spec (m e : Z) (l : location) :
  0 <= m ->
  let n := fexp F64.prec F64.emax (Zdigits2 m + e) - e in
  shr_m (fst (shr_fexp F64.prec F64.emax m e l)) = (if 0 <? n then m / 2 ^ n else m) /\
  snd (shr_fexp F64.prec F64.emax m e l) = (if 0 <? n then e + n else e).
Proof.
  intros Hm n. unfold shr_fexp. fold n. unfold shr.
  destruct n as [|p|p]; cbn [fst snd].
  - rewrite shr_record_of_loc_m. auto.
  - rewrite iter_shr_1_m by (rewrite shr_record_of_loc_m; lia).
    rewrite shr_record_of_loc_m. auto.
  - rewrite shr_record_of_loc_m. auto.
Qed.

Lemma le_val_mono w m m' e : m <= m' -> F64.le_val w m e -> F64.le_val w m' e.
Proof.
  unfold F64.le_val. intros Hm Hl.
  assert (0 < 2 ^ Z.max 0 e) by (apply Z.pow_pos_nonneg; lia). nia.
Qed.

Lemma le_val_pos w m e : 1 <= w -> F64.le_val w m e -> 0 < m.
Proof.
  unfold F64.le_val. intros Hw Hl.
  assert (0 < 2 ^ Z.max 0 e) by (apply Z.pow_pos_nonneg; lia).
  assert (0 < 2 ^ Z.max 0 (- e)) by (apply Z.pow_pos_nonneg; lia). nia.
Qed.

Lemma fexp_eq e : fexp F64.prec F64.emax e = Z.max (e - 53) (-1074).
Proof. reflexivity. Qed.

(** One right shift to the format's exponent keeps an integer below
    [2^53] under the value. *)
Lemma le_val_shr (w m e : Z) :
  0 < m -> 1 <= w < 2 ^ 53 -> F64.le_val w m e ->
  let n := fexp F64.prec F64.emax (Zdigits2 m + e) - e in
  0 < n -> F64.le_val w (m / 2 ^ n) (e + n).
Proof.
  intros Hm Hw Hl n Hn.
  destruct m as [|p|p]; try lia.
  pose proof (digits2_pos_bounds p) as Hd.
  cbn [Zdigits2] in n. set (d := Zpos (digits2_pos p)) in *.
  assert (Hd0 : 0 < d) by (unfold d; lia).
  assert (HE : e + n = Z.max (d + e - 53) (-1074)) by (unfold n; rewrite fexp_eq; lia).
  assert (Hpn : 0 < 2 ^ n) by (apply Z.pow_pos_nonneg; lia).
  unfold F64.le_val in *.
  destruct (Z.le_gt_cases (e + n) 0) as [HE0 | HE0].
  - (* the target exponent is not positive: [w] is on the grid *)
    rewrite (Z.max_l 0 (e + n)), Z.pow_0_r, Z.mul_1_r by lia.
    rewrite (Z.max_r 0 (- (e + n))) by lia.
    rewrite (Z.max_r 0 (- e)), (Z.max_l 0 e), Z.pow_0_r, Z.mul_1_r in Hl by lia.
    apply Z.div_le_lower_bound; [lia|].
    replace (- e) with (n + - (e + n)) in Hl by lia.
    rewrite Z.pow_add_r in Hl by lia. lia.
  - (* the target exponent is positive: the result is at least 2^53 *)
    rewrite (Z.max_r 0 (e + n)) by lia.
    rewrite (Z.max_l 0 (- (e + n))), Z.pow_0_r, Z.mul_1_r by lia.
    assert (Hn52 : n + 52 = d - 1) by lia.
    assert (H52 : 2 ^ 52 <= Zpos p / 2 ^ n).
    { apply Z.div_le_lower_bound; [lia|]. rewrite <- Z.pow_add_r by lia.
      rewrite Hn52. lia. }
    assert (H2 : 2 ^ 1 <= 2 ^ (e + n)) by (apply Z.pow_le_mono_r; lia).
    change (2 ^ 53) with (2 ^ 52 * 2 ^ 1) in Hw. nia.
Qed.

Lemma round_nearest_even_ge m l : m <= round_nearest_even m l.
Proof. destruct l as [|[]]; cbn; try destruct (Z.even m); lia. Qed.

(** Rounding a value that is at least the integer [w < 2^53] gives a
    float that is at least [w]. *)
Lemma binary_round_aux_ge (w : Z) (m : positive) (e : Z) :
  1 <= w < 2 ^ 53 -> F64.le_val w (Zpos m) e ->
  F64.ge_int (binary_round_aux F64.prec F64.emax false (Zpos m) e loc_Exact) w.
Proof.
  intros Hw Hl. unfold binary_round_aux.
  pose proof (shr_fexp_spec (Zpos m) e loc_Exact ltac:(lia)) as [H1m H1e].
  destruct (shr_fexp F64.prec F64.emax (Zpos m) e loc_Exact) as [mrs1 e1].
  cbn [fst snd] in H1m, H1e.
  assert (Hl1 : F64.le_val w (shr_m mrs1) e1).
  { rewrite H1m, H1e.
    destruct (0 <? fexp F64.prec F64.emax (Zdigits2 (Zpos m) + e) - e) eqn:En.
    - apply Z.ltb_lt in En. apply le_val_shr; auto; try lia.
    - assumption. }
  set (m2 := round_nearest_even (shr_m mrs1) (loc_of_shr_record mrs1)).
  assert (Hl2 : F64.le_val w m2 e1)
    by (eapply le_val_mono; [apply round_nearest_even_ge | exact Hl1]).
  assert (Hm2 : 0 < m2) by (apply (le_val_pos w m2 e1); [lia | exact Hl2]).
  pose proof (shr_fexp_spec m2 e1 loc_Exact ltac:(lia)) as [H2m H2e].
  destruct (shr_fexp F64.prec F64.emax m2 e1 loc_Exact) as [mrs2 e2].
  cbn [fst snd] in H2m, H2e.
  assert (Hl3 : F64.le_val w (shr_m mrs2) e2).
  { rewrite H2m, H2e.
    destruct (0 <? fexp F64.prec F64.emax (Zdigits2 m2 + e1) - e1) eqn:En.
    - apply Z.ltb_lt in En. apply le_val_shr; auto; try lia.
    - assumption. }
  assert (Hm3 : 0 < shr_m mrs2) by (apply (le_val_pos w _ e2); [lia | exact Hl3]).
  destruct (shr_m mrs2) as [|m3|m3]; try lia.
  destruct (e2 <=? F64.emax - F64.prec); cbn; auto.
Qed.

Lemma le_val_intro (w m e a b : Z) :
  0 <= a -> 0 <= b -> b - a = e -> w * 2 ^ a <= m * 2 ^ b -> F64.le_val w m e.
Proof.
  intros Ha Hb He Hl. unfold F64.le_val.
  set (k := Z.min a b).
  assert (Hk : 0 <= k) by (unfold k; lia).
  replace a with (Z.max 0 (- e) + k) in Hl by (unfold k; lia).
  replace b with (Z.max 0 e + k) in Hl by (unfold k; lia).
  rewrite !Z.pow_add_r in Hl by lia.
  assert (0 < 2 ^ k) by (apply Z.pow_pos_nonneg; lia). nia.
Qed.

Lemma le_val_elim (w m e a b : Z) :
  0 <= a -> 0 <= b -> b - a = e -> F64.le_val w m e -> w * 2 ^ a <= m * 2 ^ b.
Proof.
  intros Ha Hb He Hl. unfold F64.le_val in Hl.
  set (k := Z.min a b).
  assert (Hk : 0 <= k) by (unfold k; lia).
  replace a with (Z.max 0 (- e) + k) by (unfold k; lia).
  replace b with (Z.max 0 e + k) by (unfold k; lia).
  rewrite !Z.pow_add_r by lia.
  assert (0 < 2 ^ k) by (apply Z.pow_pos_nonneg; lia). nia.
Qed.


Lemma iter_xO (d : positive) (m : positive) :
  Zpos (Pos.iter xO m d) = Zpos m * 2 ^ Zpos d.
Proof.
  revert m. induction d as [|d IH] using Pos.peano_ind; intros m.
  - cbn. lia.
  - rewrite Pos.iter_succ, Pos2Z.inj_xO, IH, Pos2Z.inj_succ, Z.pow_succ_r by lia. lia.
Qed.

Lemma shl_align_le_val (w : Z) (m : positive) (e e' : Z) :
  F64.le_val w (Zpos m) e ->
  F64.le_val w (Zpos (fst (shl_align m e e'))) (snd (shl_align m e e')).
Proof.
  intros Hl. unfold shl_align. destruct (e' - e) as [|d|d] eqn:Ed; cbn [fst snd]; auto.
  rewrite iter_xO.
  apply (le_val_intro _ _ _ (Z.max 0 (- e) + Zpos d) (Z.max 0 e)); try lia.
  unfold F64.le_val in Hl. rewrite Z.pow_add_r by lia.
  assert (0 < 2 ^ Zpos d) by (apply Z.pow_pos_nonneg; lia). nia.
Qed.

(** [float64(w)] is at least [w] for [1 <= w < 2^53]. *)
Lemma of_int_ge (w : Z) : 1 <= w < 2 ^ 53 -> F64.ge_int (F64.of_int w) w.
Proof.
  intros Hw. unfold F64.of_int, binary_normalize.
  destruct w as [|p|p]; try lia.
  unfold binary_round.
  pose proof (shl_align_le_val (Zpos p) p 0
                (fexp F64.prec F64.emax (Zpos (digits2_pos p) + 0))) as Hs.
  destruct (shl_align p 0 (fexp F64.prec F64.emax (Zpos (digits2_pos p) + 0)))
    as [mz ez]. cbn [fst snd] in Hs.
  apply binary_round_aux_ge; [lia|]. apply Hs. unfold F64.le_val. apply Z.le_refl.
Qed.



(** The sign of a rounded result is the sign it was given. *)
Lemma binary_round_aux_sign (s : bool) (m e : Z) (l : location) :
  F64.signbit (binary_round_aux F64.prec F64.emax s m e l) = s \/
  binary_round_aux F64.prec F64.emax s m e l = S754_nan.
Proof.
  unfold binary_round_aux.
  destruct (shr_fexp F64.prec F64.emax m e l) as [mrs1 e1].
  destruct (shr_fexp _ _ _ _ _) as [mrs2 e2].
  destruct (shr_m mrs2); auto.
  destruct (e2 <=? F64.emax - F64.prec); auto.
Qed.

Lemma binary_round_aux_signbit_false (m e : Z) (l : location) :
  F64.signbit (binary_round_aux F64.prec F64.emax false m e l) = false.
Proof.
  destruct (binary_round_aux_sign false m e l) as [Hs | ->]; auto.
Qed.

Lemma of_int_signbit (z : Z) : 0 <= z -> F64.signbit (F64.of_int z) = false.
Proof.
  intros Hz. unfold F64.of_int, binary_normalize. destruct z as [|p|p]; try lia; auto.
  unfold binary_round. destruct (shl_align _ _ _) as [mz ez].
  apply binary_round_aux_signbit_false.
Qed.

Lemma div_signbit (x y : float64) :
  F64.signbit x = false -> F64.signbit y = false -> F64.signbit (F64.div x y) = false.
Proof.
  unfold F64.div, SFdiv.
  destruct x as [sx|sx| |sx mx ex], y as [sy|sy| |sy my ey]; cbn [F64.signbit];
    intros Hx Hy; subst; auto.
  destruct (SFdiv_core_binary _ _ _ _ _ _) as [[mz ez] lz].
  apply binary_round_aux_signbit_false.
Qed.

Lemma mul_signbit (x y : float64) :
  F64.signbit x = false -> F64.signbit y = false -> F64.signbit (F64.mul x y) = false.
Proof.
  unfold F64.mul, SFmul.
  destruct x as [sx|sx| |sx mx ex], y as [sy|sy| |sy my ey]; cbn [F64.signbit];
    intros Hx Hy; subst; auto.
  apply binary_round_aux_signbit_false.
Qed.

(** On a float whose sign bit is clear, truncation is the floor. *)
Lemma floor_trunc_signbit (f : float64) :
  F64.signbit f = false -> F64.floor f = F64.trunc f.
Proof. destruct f as [s|s| |s m e]; cbn; intros Hs; subst; reflexivity. Qed.

Lemma trunc_nonneg_signbit (f : float64) (k : Z) :
  F64.signbit f = false -> F64.trunc f = Some k -> 0 <= k.
Proof.
  destruct f as [s|s| |s m e]; cbn; intros Hs Hk; inversion Hk; subst; try lia.
  destruct (Z.leb_spec 0 e).
  - pose proof (Z.pow_nonneg 2 e). cbn [cond_Zopp]. nia.
  - cbn [cond_Zopp]. apply Z.div_pos; [lia|]. apply Z.pow_pos_nonneg; lia.
Qed.

Lemma to_int_convertible (f : float64) :
  F64.convertible f = true -> F64.trunc f = Some (F64.to_int f).
Proof.
  unfold F64.convertible, F64.to_int. destruct (F64.trunc f); [|discriminate].
  intros ->. reflexivity.
Qed.

Lemma sub_in_range a b :
  Int64.in_range (a - b) = true -> Int64.sub a b = a - b.
Proof. intros H. apply wrap_in_range, in_range_spec, H. Qed.

(** C4, as amended: for a tracker with [total > 0], the snapshot of
    [Report] has [Ratio] equal to the float64 quotient of [done] by
    [total]; [Left] equal to [total - done] whenever that difference fits
    an [int] (always when [done >= 0]; it is negative when [done > total]);
    and [PercentInt] equal to [Ratio * 100] truncated toward zero whenever
    the product converts to an [int], which is the floor of [Ratio * 100]
    when [done >= 0]. *)
Theorem report_fields {R} (p : Progress.Progress R) (now : Time) :
  0 < Progress.total p ->
  Int64.in_range (Progress.total p) = true ->
  Int64.in_range (Progress.done p) = true ->
  let r := fst (Progress.Report p now) in
  let percent := F64.mul (Ratio r) (F64.of_int 100) in
  Ratio r = F64.div (F64.of_int (Progress.done p)) (F64.of_int (Progress.total p)) /\
  (Int64.in_range (Progress.total p - Progress.done p) = true ->
   Left r = Progress.total p - Progress.done p) /\
  (F64.convertible percent = true -> F64.trunc percent = Some (PercentInt r)) /\
  (0 <= Progress.done p ->
   Left r = Progress.total p - Progress.done p /\
   (F64.convertible percent = true -> F64.floor percent = Some (PercentInt r))).
Proof.
  intros Ht Hrt Hrd. unfold Progress.Report.
  destruct (Z.eqb_spec (Progress.total p) 0) as [H0|_]; [lia|].
  cbn [fst Ratio Left PercentInt].
  apply in_range_spec in Hrt, Hrd. unfold Int64.min_int, Int64.max_int in *.
  split; [reflexivity|].
  split; [apply sub_in_range|].
  split; [apply to_int_convertible|].
  intros Hd. split.
  - apply sub_in_range, in_range_spec. unfold Int64.min_int, Int64.max_int. lia.
  - intros Hc. rewrite floor_trunc_signbit; [apply to_int_convertible, Hc|].
    apply mul_signbit; [apply div_signbit|]; apply of_int_signbit; lia.
Qed.

Lemma report_fields_negative_done :
  let p := Sample.tracker tt 3 (-1) in
  let r := fst (Progress.Report p (Sample.after 1 0)) in
  0 < Progress.total p /\
  F64.floor (F64.mul (Ratio r) (F64.of_int 100)) = Some (-34) /\
  PercentInt r = -33.
Proof. vm_compute. repeat split; reflexivity. Qed.




(** The product computed by [TextReporter.renderProgressBar] is never negative. *)
Lemma clamped_product (ratio y : float64) :
  F64.signbit y = false ->
  let ratio' := if F64.ltb ratio F64.zero then F64.zero else ratio in
  F64.convertible (F64.mul ratio' y) = true ->
  F64.floor (F64.mul ratio' y) = Some (F64.to_int (F64.mul ratio' y)) /\
  0 <= F64.to_int (F64.mul ratio' y).
Proof.
  intros Hy ratio' Hc.
  assert (Hz : forall s, F64.convertible (F64.mul (S754_zero s) y) = true ->
             F64.floor (F64.mul (S754_zero s) y) = Some (F64.to_int (F64.mul (S754_zero s) y)) /\
             0 <= F64.to_int (F64.mul (S754_zero s) y)).
  { intros s. destruct y as [sy|sy| |sy my ey]; cbn; try discriminate; intros _; split;
      (reflexivity || lia). }
  destruct ratio as [s|s| |s m e]; subst ratio'.
  - apply Hz, Hc.
  - destruct s; cbn [F64.ltb SFltb SFcompare F64.zero] in *.
    + apply Hz, Hc.
    + destruct y as [sy|sy| |sy my ey]; discriminate.
  - cbn [F64.ltb SFltb SFcompare F64.zero] in *. discriminate.
  - destruct s; cbn [F64.ltb SFltb SFcompare F64.zero] in *.
    + apply Hz, Hc.
    + assert (Hs : F64.signbit (F64.mul (S754_finite false m e) y) = false)
        by (apply mul_signbit; auto).
      rewrite floor_trunc_signbit by exact Hs.
      pose proof (to_int_convertible _ Hc) as Ht. split; [exact Ht|].
      eapply trunc_nonneg_signbit; eauto.
Qed.

Lemma repeat_nonneg (s : string) (n : Z) :
  0 <= n -> Strings.Repeat s n = Some (Strings.repeat_nat s (Z.to_nat n)).
Proof.
  intros Hn. unfold Strings.Repeat. destruct (Z.ltb_spec n 0); [lia | reflexivity].
Qed.

(** What [TextReporter.renderProgressBar] returns once the fill count is known. *)
Lemma renderProgressBar_fill (r : TextReporter.TextReporter) (report : Report) :
  Int64.min_int + 2 <= TextReporter.pbWidth r <= Int64.max_int ->
  let w := TextReporter.pbWidth r - 2 in
  let ratio := if F64.ltb (Ratio report) F64.zero then F64.zero else Ratio report in
  let k := F64.to_int (F64.mul ratio (F64.of_int w)) in
  0 < w -> 0 <= k ->
  TextReporter.renderProgressBar r report = Some (TextReporter.spec_bar w (Z.min k w)).
Proof.
  intros Hr w ratio k Hw Hk. unfold TextReporter.renderProgressBar.
  assert (Hsub : Int64.sub (TextReporter.pbWidth r) 2 = w).
  { unfold Int64.sub. apply wrap_in_range. unfold Int64.min_int, Int64.max_int in *. lia. }
  rewrite Hsub. fold ratio. fold k.
  destruct (Z.leb_spec w 0) as [|_]; [lia|].
  assert (Hmin : (if w <? k then w else k) = Z.min k w)
    by (destruct (Z.ltb_spec w k); lia).
  rewrite Hmin.
  assert (Hsp : Int64.sub w (Z.min k w) = w - Z.min k w).
  { unfold Int64.sub. apply wrap_in_range.
    unfold Int64.min_int, Int64.max_int in *. unfold w. lia. }
  rewrite Hsp.
  destruct (Z.ltb_spec (w - Z.min k w) 0) as [|_]; [lia|].
  rewrite !repeat_nonneg by lia. reflexivity.
Qed.






(** *** Legends *)






Lemma append_empty (s : string) : s ++ "" = s.
Proof.
  induction s as [|c s IH]; [reflexivity|].
  change (String c s ++ "") with (String c (s ++ "")). rewrite IH. reflexivity.
Qed.

Lemma compile_precision (p : Z) :
  TextReporter.compileLegend TextReporter.precisionToken p = Strings.Itoa p.
Proof.
  transitivity (Strings.Itoa p ++ ""); [reflexivity | apply append_empty].
Qed.

(** *** Legends piece by piece *)

Lemma append_assoc (a b c : string) : (a ++ b) ++ c = a ++ (b ++ c).
Proof.
  induction a as [|x a IH]; [reflexivity|].
  change (String x (a ++ b) ++ c = String x (a ++ (b ++ c))).
  change (String x ((a ++ b) ++ c) = String x (a ++ (b ++ c))). rewrite IH. reflexivity.
Qed.



























(** *** Rendering *)

(** C1, as amended: a tracker with total 50 and a text reporter with
    the legend [{percent_int}], after [Add(25)], renders exactly ["50"]
    (25 of 50 is 50 percent), whatever the time of the report. *)
Theorem render_percent_int (now : Time) :
  exists p,
    NewTextWithLegend 50 "{percent_int}" = Some p /\
    output_of (fst (render (Progress.Add p 25) now TextReporter.emptyWorld))
              TextReporter.Stderr = Some "50".
Proof. eexists. split; [reflexivity|]. vm_compute. reflexivity. Qed.

Lemma render_percent_int_not_25 :
  exists p,
    NewTextWithLegend 50 "{percent_int}" = Some p /\
    output_of (fst (render (Progress.Add p 25) Sample.afternoon
                           TextReporter.emptyWorld))
              TextReporter.Stderr = Some "50" /\
    output_of (fst (render (Progress.Add p 25) Sample.afternoon
                           TextReporter.emptyWorld))
              TextReporter.Stderr <> Some "25".
Proof.
  eexists. split; [reflexivity|]. vm_compute. split; [reflexivity | discriminate].
Qed.

(** C5, on the code: the layout of the reporter, [2006-01-02 03:04:05],
    prints the hour on the 12-hour clock: at 13:01:21 the timestamp reads
    [01:01:21], where the 24-hour layout [2006-01-02 15:04:05] reads
    [13:01:21]. *)
Theorem timestamp_hour_is_12_hour_clock :
  TimeFmt.Format Sample.afternoon TextReporter.timeLayout
    = Some "2023-12-02 01:01:21" /\
  TimeFmt.Format Sample.afternoon "2006-01-02 15:04:05"
    = Some "2023-12-02 13:01:21" /\
  output_of (fst (render (Sample.halfway "{now}") Sample.afternoon
                         TextReporter.emptyWorld))
            TextReporter.Stderr = Some "2023-12-02 01:01:21".
Proof. vm_compute. repeat split; reflexivity. Qed.

(** C6, on the code: the builder methods copy the runtime fields too
    (compiled legend, writer, length of the last line), because [clone]
    copies the whole struct.  A reporter rebuilt with [WithLegend] after
    it has rendered once keeps the old compiled legend and the old
    writer, and goes on printing the old legend, where a fresh reporter
    with the legend [{done}] prints ["25"]; rebuilt with [WithOutput] it
    goes on writing to the old sink and leaves the new one empty. *)
Theorem builders_copy_runtime_state (r : TextReporter.TextReporter)
        (l : string) (fp : Z) (o : nat) (w : Z) :
  let runtime x := (TextReporter.legendCompiled x, TextReporter.writer x,
                    TextReporter.lastLegendLength x) in
  runtime (TextReporter.WithLegend r l) = runtime r /\
  runtime (TextReporter.WithFloatPrecision r fp) = runtime r /\
  runtime (TextReporter.WithOutput r o) = runtime r /\
  runtime (TextReporter.WithProgressBarWidth r w) = runtime r /\
  exists r2,
    Sample.rebuilt_after_use "{done}"
      = Some (Some (Sample.default_line_1 ++ Sample.default_line_2), Some r2) /\
    TextReporter.legend r2 = "{done}" /\
    TextReporter.legendCompiled r2
      = TextReporter.compileLegend TextReporter.TextReporterLegendDefault 2 /\
    TextReporter.writer r2 = Some 0%nat /\
    Sample.rendered "{done}" = Some "25" /\
    Sample.redirected_after_use 7
      = Some (Some (Sample.default_line_1 ++ Sample.default_line_2), Some "").
Proof.
  cbn zeta. repeat (split; [reflexivity|]).
  eexists. split; [vm_compute; reflexivity|]. vm_compute. repeat split; reflexivity.
Qed.

(** The second pass of [compileLegend] also rewrites a
    [{float_precision}] that the legend itself contains. *)
Lemma precision_token_is_rewritten :
  Sample.rendered "{float_precision}/{done}" = Some "2/25".
Proof. vm_compute. reflexivity. Qed.





Lemma done_decreases :
  let p := Sample.tracker tt 50 25 in
  Progress.done (Calls.run p [Calls.OpAdd (-1)]) < Progress.done p.
Proof. vm_compute. reflexivity. Qed.

(** *** The properties at sample inputs *)

Lemma Report_revisions_agree_witness :
  same_state (Sample.tracker_start tt 50 25) (Sample.tracker tt 50 25) /\
  fst (ProgressStart.Report (Sample.tracker_start tt 50 25) (Sample.after 1 0))
  = fst (Progress.Report (Sample.tracker tt 50 25) (Sample.after 1 0)).
Proof.
  assert (H : same_state (Sample.tracker_start tt 50 25) (Sample.tracker tt 50 25))
    by (repeat split; reflexivity).
  split; [exact H|].
  exact (proj1 (Report_revisions_agree _ _ (Sample.after 1 0) H)).
Defined.

Lemma done_monotone_witness :
  let p := Sample.tracker tt 50 25 in
  let ops1 := [Calls.OpAdd 3; Calls.OpReport (Sample.after 1 0)] in
  let ops2 := [Calls.OpAdd 4] in
  Calls.adds_nonneg (ops1 ++ ops2) = true /\
  Int64.min_int <= Progress.done p /\
  Progress.done p + Calls.added (ops1 ++ ops2) <= Int64.max_int /\
  Progress.done (Calls.run p ops1) <= Progress.done (Calls.run p (ops1 ++ ops2)).
Proof.
  intros p ops1 ops2.
  assert (H1 : Calls.adds_nonneg (ops1 ++ ops2) = true) by reflexivity.
  assert (H2 : Int64.min_int <= Progress.done p) by (vm_compute; discriminate).
  assert (H3 : Progress.done p + Calls.added (ops1 ++ ops2) <= Int64.max_int)
    by (vm_compute; discriminate).
  repeat (split; [assumption|]).
  exact (proj1 (done_monotone p ops1 ops2 H1 H2 H3)).
Defined.


Lemma report_fields_witness :
  let p := Sample.tracker tt 50 25 in
  let r := fst (Progress.Report p (Sample.after 1 0)) in
  0 < Progress.total p /\
  Int64.in_range (Progress.total p) = true /\
  Int64.in_range (Progress.done p) = true /\
  F64.floor (F64.mul (Ratio r) (F64.of_int 100)) = Some (PercentInt r) /\
  Left r = 25.
Proof.
  intros p r.
  assert (H1 : 0 < Progress.total p) by (vm_compute; reflexivity).
  assert (H2 : Int64.in_range (Progress.total p) = true) by reflexivity.
  assert (H3 : Int64.in_range (Progress.done p) = true) by reflexivity.
  assert (H4 : 0 <= Progress.done p) by (vm_compute; discriminate).
  repeat (split; [assumption|]).
  destruct (proj2 (proj2 (proj2 (report_fields p (Sample.after 1 0) H1 H2 H3))) H4)
    as [Hl Hf].
  split; [exact (Hf eq_refl) | exact Hl].
Defined.




(* ===================================================================== *)
(** * Further properties of the code *)
(* ===================================================================== *)

(** *** The counter *)

Lemma wrap_range z : Int64.in_range (Int64.wrap z) = true.
Proof.
  apply in_range_spec. unfold Int64.wrap, Int64.modulus, Int64.min_int, Int64.max_int.
  pose proof (Z.mod_pos_bound (z + 2 ^ 63) (2 ^ 64) ltac:(lia)). lia.
Qed.

Lemma wrap_add_l a b : Int64.wrap (Int64.wrap a + b) = Int64.wrap (a + b).
Proof.
  unfold Int64.wrap, Int64.modulus.
  replace ((a + 2 ^ 63) mod 2 ^ 64 - 2 ^ 63 + b + 2 ^ 63)
    with ((a + 2 ^ 63) mod 2 ^ 64 + b) by lia.
  rewrite Z.add_mod_idemp_l by lia.
  replace (a + 2 ^ 63 + b) with (a + b + 2 ^ 63) by lia. reflexivity.
Qed.

Lemma wrap_sub_l a b : Int64.wrap (Int64.wrap a - b) = Int64.wrap (a - b).
Proof. replace (Int64.wrap a - b) with (Int64.wrap a + - b) by lia. rewrite wrap_add_l. reflexivity. Qed.

Lemma wrap_high (z : Z) : Int64.max_int < z < 2 ^ 64 -> Int64.wrap z = z - 2 ^ 64.
Proof.
  intros Hz. unfold Int64.wrap, Int64.modulus, Int64.max_int in *.
  rewrite <- (Z.mod_unique (z + 2 ^ 63) (2 ^ 64) 1 (z - 2 ^ 63)) by lia. lia.
Qed.

Lemma run_done_wrap {R} ops : forall (p : Progress.Progress R),
  Int64.in_range (Progress.done p) = true ->
  Progress.done (Calls.run p ops) = Int64.wrap (Progress.done p + Calls.added ops).
Proof.
  induction ops as [|[n|t] ops IH]; intros p Hr; cbn [Calls.added].
  - cbn. rewrite Z.add_0_r. symmetry. apply wrap_in_range, in_range_spec, Hr.
  - change (Calls.run p (Calls.OpAdd n :: ops)) with (Calls.run (Progress.Add p n) ops).
    rewrite IH by (cbn; apply wrap_range).
    cbn [Progress.Add Progress.done]. unfold Int64.add. rewrite wrap_add_l. f_equal. lia.
  - change (Calls.run p (Calls.OpReport t :: ops))
      with (Calls.run (snd (Progress.Report p t)) ops).
    rewrite IH by (rewrite Report_done; exact Hr). rewrite Report_done. reflexivity.
Qed.

Lemma added_perm ops ops' : Permutation ops ops' -> Calls.added ops = Calls.added ops'.
Proof.
  induction 1 as [|x l l' _ IH|x y l|l l' l'' _ IH1 _ IH2]; cbn [Calls.added].
  - reflexivity.
  - destruct x; lia.
  - destruct x, y; lia.
  - lia.
Qed.

(** X1: the counter after a sequence of [Add] and [Report] calls is the
    initial value plus the sum of the amounts added, reduced to [int64];
    it does not depend on the order in which the calls are made. *)
Theorem Add_order_independent {R} (p : Progress.Progress R) (ops ops' : list Calls.op) :
  Int64.in_range (Progress.done p) = true ->
  Permutation ops ops' ->
  Progress.done (Calls.run p ops) = Int64.wrap (Progress.done p + Calls.added ops) /\
  Progress.done (Calls.run p ops') = Progress.done (Calls.run p ops).
Proof.
  intros Hr Hp. rewrite !run_done_wrap by exact Hr.
  rewrite (added_perm _ _ Hp). split; reflexivity.
Qed.

(** *** Snapshots of the tracker *)

Lemma Report_frame {R} (p : Progress.Progress R) now :
  let p1 := snd (Progress.Report p now) in
  Progress.total p1 = Progress.total p /\
  Progress.done p1 = Progress.done p /\
  Progress.startedAt p1 = Progress.startedAt p /\
  Progress.reportTime p1 = Progress.reportTime p /\
  Progress.reporter p1 = Progress.reporter p /\
  Progress.doneCh p1 = Progress.doneCh p.
Proof.
  unfold Progress.Report. destruct (Progress.total p =? 0); cbn; repeat split; reflexivity.
Qed.

Lemma run_adds_frame {R} (ns : list Z) : forall (q : Progress.Progress R),
  let q' := Calls.run q (map Calls.OpAdd ns) in
  Progress.total q' = Progress.total q /\
  Progress.startedAt q' = Progress.startedAt q /\
  Progress.lastReportedAt q' = Progress.lastReportedAt q /\
  Progress.lastReportedDone q' = Progress.lastReportedDone q.
Proof.
  induction ns as [|n ns IH]; intros q; cbn [map]; [repeat split; reflexivity|].
  change (Calls.run q (Calls.OpAdd n :: map Calls.OpAdd ns))
    with (Calls.run (Progress.Add q n) (map Calls.OpAdd ns)).
  destruct (IH (Progress.Add q n)) as (H1 & H2 & H3 & H4).
  cbn zeta. rewrite H1, H2, H3, H4. repeat split; reflexivity.
Qed.

Lemma run_total {R} (ops : list Calls.op) : forall (p : Progress.Progress R),
  Progress.total (Calls.run p ops) = Progress.total p.
Proof.
  induction ops as [|[n|t] ops IH]; intros p; [reflexivity| |].
  - change (Calls.run p (Calls.OpAdd n :: ops)) with (Calls.run (Progress.Add p n) ops).
    rewrite IH. reflexivity.
  - change (Calls.run p (Calls.OpReport t :: ops))
      with (Calls.run (snd (Progress.Report p t)) ops).
    rewrite IH. apply Report_frame.
Qed.

(** X2: after a report at [t1] and any number of [Add] calls, the next
    report, at [t2], has [DT] equal to [t2.Sub(t1)] and [RPSInst] equal
    to the sum of the amounts added in between (as an [int64]) divided by
    the seconds of that interval: the bookkeeping that [Report] defers is
    what the next report measures from. *)
Theorem instant_rate {R} (p : Progress.Progress R) (t1 t2 : Time) (ns : list Z) :
  Progress.total p <> 0 ->
  Int64.in_range (Progress.done p) = true ->
  let p1 := snd (Progress.Report p t1) in
  let r2 := fst (Progress.Report (Calls.run p1 (map Calls.OpAdd ns)) t2) in
  DT r2 = Time.Sub t2 t1 /\
  RPSInst r2 = F64.div (F64.of_int (Int64.wrap (Calls.added (map Calls.OpAdd ns))))
                       (Time.Seconds (Time.Sub t2 t1)).
Proof.
  intros Ht Hr p1 r2.
  assert (Hp1 : Progress.total p1 = Progress.total p /\ Progress.done p1 = Progress.done p
                /\ Progress.lastReportedAt p1 = t1
                /\ Progress.lastReportedDone p1 = Progress.done p).
  { unfold p1, Progress.Report. destruct (Z.eqb_spec (Progress.total p) 0); [contradiction|].
    repeat split; reflexivity. }
  destruct Hp1 as (Ht1 & Hd1 & Ha1 & Hl1).
  pose proof (run_adds_frame ns p1) as (H1 & _ & H3 & H4).
  pose proof (run_done_wrap (map Calls.OpAdd ns) p1 ltac:(rewrite Hd1; exact Hr)) as Hd.
  unfold r2. clearbody p1. set (q := Calls.run p1 (map Calls.OpAdd ns)) in *.
  clearbody q. cbn zeta in *. unfold Progress.Report.
  destruct (Z.eqb_spec (Progress.total q) 0) as [H0|_]; [congruence|].
  cbn [fst DT RPSInst]. rewrite H3, H4, Ha1, Hl1, Hd, Hd1.
  split; [reflexivity|]. do 2 f_equal.
  unfold Int64.sub. rewrite wrap_sub_l. f_equal. lia.
Qed.

(** *** The ratio at both ends *)

Lemma div_self (s : bool) (m : positive) (e : Z) :
  F64.div (S754_finite s m e) (S754_finite s m e) = F64.one.
Proof.
  unfold F64.div, SFdiv, SFdiv_core_binary.
  replace (Zdigits2 (Zpos m) + e - (Zdigits2 (Zpos m) + e)) with 0 by lia.
  replace (e - e) with 0 by lia.
  change (Z.min (fexp F64.prec F64.emax 0) 0) with (-53).
  change (0 - -53) with 53.
  cbv iota beta.
  assert (Hd : Z.div_eucl (Z.shiftl (Zpos m) 53) (Zpos m) = (2 ^ 53, 0)).
  { rewrite Z.shiftl_mul_pow2 by lia.
    pose proof (Z_div_mod (Zpos m * 2 ^ 53) (Zpos m) ltac:(lia)) as Hdm.
    destruct (Z.div_eucl (Zpos m * 2 ^ 53) (Zpos m)) as [q r].
    destruct Hdm as [Heq Hr].
    assert (Hq : q = 2 ^ 53).
    { rewrite (Z.div_unique_pos _ _ q r Hr Heq).
      rewrite Z.mul_comm. apply Z.div_mul. lia. }
    subst q. f_equal. lia. }
  rewrite Hd. rewrite xorb_nilpotent.
  unfold new_location. destruct (Z.even (Zpos m)); reflexivity.
Qed.

Lemma Zdigits2_le (x k : Z) : 0 <= x -> 0 <= k -> x < 2 ^ k -> Zdigits2 x <= k.
Proof.
  intros Hx Hk Hlt. destruct x as [|p|p]; cbn [Zdigits2]; try lia.
  pose proof (digits2_pos_bounds p) as [Hlo _].
  destruct (Z.le_gt_cases (Zpos (digits2_pos p)) k) as [|Hgt]; [assumption|].
  assert (2 ^ k <= 2 ^ (Zpos (digits2_pos p) - 1)) by (apply Z.pow_le_mono_r; lia). lia.
Qed.

Lemma round_nearest_even_le m l : round_nearest_even m l <= m + 1.
Proof. destruct l as [|[]]; cbn; try destruct (Z.even m); lia. Qed.

Lemma fexp_le (x y : Z) : x <= y -> fexp F64.prec F64.emax x <= fexp F64.prec F64.emax y.
Proof. rewrite !fexp_eq. lia. Qed.

(** Rounding a value below [2^1023] does not overflow. *)
Lemma binary_round_aux_no_overflow (m : positive) (e D : Z) :
  0 <= D -> Zpos m < 2 ^ D -> e <= 970 -> D + e <= 1022 ->
  binary_round_aux F64.prec F64.emax false (Zpos m) e loc_Exact <> S754_infinity false.
Proof.
  intros HD Hm He HDe. unfold binary_round_aux.
  pose proof (shr_fexp_spec (Zpos m) e loc_Exact ltac:(lia)) as [H1m H1e].
  destruct (shr_fexp F64.prec F64.emax (Zpos m) e loc_Exact) as [mrs1 e1].
  cbn [fst snd] in H1m, H1e.
  set (n1 := fexp F64.prec F64.emax (Zdigits2 (Zpos m) + e) - e) in *.
  assert (Hdm : Zdigits2 (Zpos m) <= D) by (apply Zdigits2_le; lia).
  assert (Hn1 : n1 <= Z.max (D - 53) (-1074 - e)).
  { unfold n1. rewrite fexp_eq. lia. }
  set (m2 := round_nearest_even (shr_m mrs1) (loc_of_shr_record mrs1)).
  assert (Hm1 : 0 <= shr_m mrs1 /\ shr_m mrs1 + 1 <= 2 ^ Z.max (D - Z.max n1 0) 0
                /\ e1 = e + Z.max n1 0).
  { rewrite H1m, H1e. destruct (Z.ltb_spec 0 n1) as [Hp|Hp].
    - rewrite (Z.max_l n1 0) by lia.
      assert (H2n : 0 < 2 ^ n1) by (apply Z.pow_pos_nonneg; lia).
      split; [apply Z.div_pos; lia|]. split; [|reflexivity].
      destruct (Z.le_gt_cases n1 D) as [Hle|Hgt].
      + rewrite Z.max_l by lia.
        assert (Zpos m / 2 ^ n1 < 2 ^ (D - n1)); [|lia].
        apply Z.div_lt_upper_bound; [lia|]. rewrite <- Z.pow_add_r by lia.
        replace (n1 + (D - n1)) with D by lia. exact Hm.
      + rewrite Z.max_r by lia. change (2 ^ 0) with 1.
        assert (2 ^ D <= 2 ^ n1) by (apply Z.pow_le_mono_r; lia).
        rewrite Z.div_small by lia. lia.
    - rewrite (Z.max_r n1 0), Z.sub_0_r, Z.add_0_r, Z.max_l by lia.
      split; [lia|]. split; [lia | reflexivity]. }
  destruct Hm1 as (Hm1a & Hm1b & He1).
  assert (Hm2 : 0 <= m2 /\ m2 < 2 ^ (Z.max (D - Z.max n1 0) 0 + 1)).
  { unfold m2. pose proof (round_nearest_even_le (shr_m mrs1) (loc_of_shr_record mrs1)).
    pose proof (round_nearest_even_ge (shr_m mrs1) (loc_of_shr_record mrs1)).
    rewrite Z.pow_add_r by lia. change (2 ^ 1) with 2.
    assert (0 < 2 ^ Z.max (D - Z.max n1 0) 0) by (apply Z.pow_pos_nonneg; lia). lia. }
  pose proof (shr_fexp_spec m2 e1 loc_Exact ltac:(lia)) as [H2m H2e].
  destruct (shr_fexp F64.prec F64.emax m2 e1 loc_Exact) as [mrs2 e2].
  cbn [fst snd] in H2m, H2e.
  assert (Hd2 : Zdigits2 m2 <= Z.max (D - Z.max n1 0) 0 + 1)
    by (apply Zdigits2_le; lia).
  assert (He2 : e2 <= 971).
  { rewrite H2e, fexp_eq. destruct (Z.ltb_spec 0 (Z.max (Zdigits2 m2 + e1 - 53) (-1074) - e1)); lia. }
  destruct (shr_m mrs2) as [|m3|m3]; try discriminate.
  destruct (Z.leb_spec e2 (F64.emax - F64.prec)) as [|Hgt]; [discriminate|].
  unfold F64.emax, F64.prec in Hgt. lia.
Qed.

Lemma of_int_finite (z : Z) :
  1 <= z <= Int64.max_int -> exists m e, F64.of_int z = S754_finite false m e.
Proof.
  intros Hz.
  assert (Hge : F64.ge_int (F64.of_int z) 1).
  { unfold F64.of_int, binary_normalize. destruct z as [|p|p]; try lia.
    unfold binary_round.
    pose proof (shl_align_le_val 1 p 0
                  (fexp F64.prec F64.emax (Zpos (digits2_pos p) + 0))) as Hs.
    destruct (shl_align p 0 (fexp F64.prec F64.emax (Zpos (digits2_pos p) + 0)))
      as [mz ez]. cbn [fst snd] in Hs.
    apply binary_round_aux_ge; [lia|]. apply Hs. change (1 * 2 ^ 0 <= Zpos p * 2 ^ 0). lia. }
  assert (Hni : F64.of_int z <> S754_infinity false).
  { unfold F64.of_int, binary_normalize. destruct z as [|p|p]; try lia.
    unfold binary_round.
    assert (Hp : Zpos p < 2 ^ 63) by (unfold Int64.max_int in Hz; lia).
    assert (Hdp : Zdigits2 (Zpos p) <= 63) by (apply Zdigits2_le; lia).
    cbn [Zdigits2] in *.
    unfold shl_align. rewrite fexp_eq.
    destruct (Z.max (Zpos (digits2_pos p) + 0 - 53) (-1074) - 0) as [|d|d] eqn:Ed.
    - apply (binary_round_aux_no_overflow p 0 63); lia.
    - apply (binary_round_aux_no_overflow p 0 63); lia.
    - unfold shift_pos. 
      apply (binary_round_aux_no_overflow _ _ (63 + Zpos d)); try lia.
      rewrite iter_xO. rewrite Z.pow_add_r by lia.
      assert (0 < 2 ^ Zpos d) by (apply Z.pow_pos_nonneg; lia). nia. }
  destruct (F64.of_int z) as [s|s| |s m e]; cbn [F64.ge_int] in Hge; try tauto.
  - destruct s; [tauto | congruence].
  - destruct s; [tauto|]. eauto.
Qed.

Lemma eta_zero_left (rps : float64) :
  rps <> S754_nan ->
  (if negb (F64.eqb rps F64.zero)
   then Int64.mul (F64.to_int (F64.div (F64.of_int 0) rps)) Time.Second
   else 0) = 0.
Proof. destruct rps as [s|s| |s m e]; try congruence; intros _; destruct s; reflexivity. Qed.

(** X3: when [done] equals [total] the snapshot has [Ratio] exactly 1,
    [PercentFloat] exactly 100, [PercentInt] 100 and [Left] 0, and its
    ETA is 0 whenever the average rate is a number. *)
Theorem report_when_complete {R} (p : Progress.Progress R) (now : Time) :
  0 < Progress.total p <= Int64.max_int ->
  Progress.done p = Progress.total p ->
  let r := fst (Progress.Report p now) in
  Ratio r = F64.one /\
  PercentFloat r = F64.of_int 100 /\
  PercentInt r = 100 /\
  Left r = 0 /\
  (RPSAvg r <> S754_nan -> ETA r = 0).
Proof.
  intros Ht Hd. unfold Progress.Report.
  destruct (Z.eqb_spec (Progress.total p) 0) as [|_]; [lia|].
  cbn [fst Ratio PercentFloat PercentInt Left RPSAvg ETA]. rewrite Hd.
  destruct (of_int_finite (Progress.total p) ltac:(lia)) as (m & e & Hf).
  rewrite Hf, div_self.
  split; [reflexivity|]. split; [vm_compute; reflexivity|]. split; [vm_compute; reflexivity|].
  rewrite <- Hf.
  replace (Int64.sub (Progress.total p) (Progress.total p)) with 0
    by (unfold Int64.sub; rewrite Z.sub_diag; reflexivity).
  split; [reflexivity|]. apply eta_zero_left.
Qed.

(** X4: when nothing has been done yet the snapshot has [Ratio] and
    [PercentFloat] exactly 0, [PercentInt] 0 and [Left] equal to [total];
    whenever the average rate is a number it is zero and the ETA is 0. *)
Theorem report_before_progress {R} (p : Progress.Progress R) (now : Time) :
  0 < Progress.total p <= Int64.max_int ->
  Progress.done p = 0 ->
  let r := fst (Progress.Report p now) in
  Ratio r = F64.zero /\
  PercentFloat r = F64.zero /\
  PercentInt r = 0 /\
  Left r = Progress.total p /\
  (RPSAvg r <> S754_nan -> F64.eqb (RPSAvg r) F64.zero = true /\ ETA r = 0).
Proof.
  intros Ht Hd. unfold Progress.Report.
  destruct (Z.eqb_spec (Progress.total p) 0) as [|_]; [lia|].
  cbn [fst Ratio PercentFloat PercentInt Left RPSAvg ETA]. rewrite Hd.
  destruct (of_int_finite (Progress.total p) ltac:(lia)) as (m & e & Hf).
  rewrite Hf.
  split; [reflexivity|]. split; [vm_compute; reflexivity|]. split; [vm_compute; reflexivity|].
  split.
  - unfold Int64.sub. rewrite Z.sub_0_r. apply wrap_in_range.
    unfold Int64.min_int, Int64.max_int in *. lia.
  - intros Hn.
    set (el := Time.Seconds (Time.Sub now (Progress.startedAt p))) in *.
    change (F64.of_int 0) with (S754_zero false) in *.
    destruct el as [s|s| |s me ee]; cbn in Hn |- *; try congruence; split; reflexivity.
Qed.

(** *** The monotonic clock *)

Lemma subMono_forward (a b : Z) :
  Int64.in_range a = true -> Int64.in_range b = true -> b <= a ->
  Time.subMono a b = Z.min (a - b) Int64.max_int.
Proof.
  intros Ha Hb Hle. apply in_range_spec in Ha, Hb.
  unfold Time.subMono, Int64.sub, Time.maxDuration, Time.minDuration.
  unfold Int64.min_int, Int64.max_int in *.
  destruct (Z.le_gt_cases (a - b) (2 ^ 63 - 1)) as [Hfit|Hbig].
  - rewrite wrap_in_range by (unfold Int64.min_int, Int64.max_int; lia).
    destruct (Z.ltb_spec (a - b) 0); [lia|]. cbn [andb].
    destruct (Z.ltb_spec 0 (a - b)), (Z.ltb_spec a b); cbn [andb]; lia.
  - rewrite wrap_high by (unfold Int64.max_int; lia).
    destruct (Z.ltb_spec (a - b - 2 ^ 64) 0); [|lia].
    destruct (Z.ltb_spec b a); [|lia]. cbn [andb]. lia.
Qed.

(** X5: when the start time, the time of the last report and the current
    time carry monotonic readings that do not go backwards, [Elapsed] and
    [DT] are the differences of those readings, capped at the largest
    [Duration]; they are never negative and do not depend on the wall
    clock. *)
Theorem elapsed_from_monotonic_clock {R} (p : Progress.Progress R) (now : Time)
        (a b c : Z) :
  Progress.total p <> 0 ->
  Time.mono now = Some a ->
  Time.mono (Progress.startedAt p) = Some b ->
  Time.mono (Progress.lastReportedAt p) = Some c ->
  Int64.in_range a = true -> Int64.in_range b = true -> Int64.in_range c = true ->
  b <= a -> c <= a ->
  let r := fst (Progress.Report p now) in
  Elapsed r = Z.min (a - b) Int64.max_int /\
  DT r = Z.min (a - c) Int64.max_int /\
  0 <= Elapsed r /\ 0 <= DT r.
Proof.
  intros Ht Hn Hs Hl Ha Hb Hc Hba Hca. unfold Progress.Report.
  destruct (Z.eqb_spec (Progress.total p) 0); [contradiction|].
  cbn [fst Elapsed DT]. unfold Time.Sub. rewrite Hn, Hs, Hl.
  rewrite !subMono_forward by assumption.
  unfold Int64.max_int. repeat split; lia.
Qed.

(** *** Construction, the zero total and copies *)

(** X6: [New] and [NewTextWithLegend] panic exactly when [total <= 0];
    a tracker made by [New] keeps its positive [total] under any calls,
    so that every snapshot of it carries that total; the branch of
    [Report] for a zero total (the zero-valued tracker) returns the zero
    snapshot and leaves the tracker as it is, bookkeeping included. *)
Theorem zero_total_guard {R} (total : Z) (r : R) (legend : string) :
  (Progress.New total r = None <-> total <= 0) /\
  (NewTextWithLegend total legend = None <-> total <= 0) /\
  (forall p ops now,
     Progress.New total r = Some p ->
     0 < Total (fst (Progress.Report (Calls.run p ops) now)) /\
     Total (fst (Progress.Report (Calls.run p ops) now)) = total) /\
  (forall (p : Progress.Progress R) now,
     Progress.total p = 0 -> Progress.Report p now = (zeroReport, p)).
Proof.
  split; [|split; [|split]].
  - unfold Progress.New. destruct (Z.leb_spec total 0); split; intros; try lia; try discriminate.
    reflexivity.
  - unfold NewTextWithLegend, New, Progress.New.
    destruct (Z.leb_spec total 0); split; cbn; intros; try lia; try discriminate. reflexivity.
  - intros p ops now Hn. unfold Progress.New in Hn.
    destruct (Z.leb_spec total 0) as [|Ht]; [discriminate|]. injection Hn as <-.
    unfold Progress.Report. rewrite run_total. cbn [Progress.total].
    destruct (Z.eqb_spec total 0); [lia|]. cbn [fst Total]. lia.
  - intros p now H0. unfold Progress.Report. rewrite H0. reflexivity.
Qed.

Lemma run_WithReporter {R} (ops : list Calls.op) : forall (p : Progress.Progress R) (r : R),
  Calls.run (Progress.WithReporter p r) ops = Progress.WithReporter (Calls.run p ops) r.
Proof.
  induction ops as [|[n|t] ops IH]; intros p r; [reflexivity| |].
  - change (Calls.run ?q (Calls.OpAdd n :: ops)) with (Calls.run (Progress.Add q n) ops).
    rewrite <- IH. reflexivity.
  - change (Calls.run ?q (Calls.OpReport t :: ops))
      with (Calls.run (snd (Progress.Report q t)) ops).
    rewrite <- IH. f_equal. unfold Progress.Report. cbn [Progress.WithReporter Progress.total].
    destruct (Progress.total p =? 0); reflexivity.
Qed.

(** X7: a tracker and its copy made by [WithReporter] give the same
    snapshot after the same calls; the copy keeps the reporter it was
    given and the original keeps its own. *)
Theorem WithReporter_same_snapshots {R} (p : Progress.Progress R) (r : R)
        (ops : list Calls.op) (now : Time) :
  fst (Progress.Report (Calls.run (Progress.WithReporter p r) ops) now)
  = fst (Progress.Report (Calls.run p ops) now) /\
  Progress.reporter (Calls.run (Progress.WithReporter p r) ops) = r /\
  Progress.reporter (Calls.run p ops) = Progress.reporter p.
Proof.
  rewrite run_WithReporter. split; [|split].
  - unfold Progress.Report. cbn [Progress.WithReporter Progress.total].
    destruct (Progress.total (Calls.run p ops) =? 0); reflexivity.
  - reflexivity.
  - induction ops as [|[n|t] ops IH] in p |- *; [reflexivity| |].
    + change (Calls.run p (Calls.OpAdd n :: ops)) with (Calls.run (Progress.Add p n) ops).
      rewrite IH. reflexivity.
    + change (Calls.run p (Calls.OpReport t :: ops))
        with (Calls.run (snd (Progress.Report p t)) ops).
      rewrite IH. apply Report_frame.
Qed.

(** *** Runs of the goroutine of [StartChan] *)

Lemma exec_split {C : Type} (step : C -> event -> C -> Prop) (tr1 tr2 : list event) :
  forall c1 c3, exec step c1 (tr1 ++ tr2) c3 ->
  exists c2, exec step c1 tr1 c2 /\ exec step c2 tr2 c3.
Proof.
  induction tr1 as [|e tr1 IH]; intros c1 c3 He; cbn in He.
  - exists c1. split; [constructor | exact He].
  - inversion He as [|? ? c2 ? ? Hs He']; subst.
    destruct (IH _ _ He') as (c & H1 & H2).
    exists c. split; [econstructor; eauto | exact H2].
Qed.

Section SchedulerRuns.
Context {R : Type} `{Reporter R}.
Import Scheduler.

Lemma step_frame (c1 c2 : @config R) e :
  step c1 e c2 ->
  Progress.total (fst c2) = Progress.total (fst c1) /\
  Progress.reportTime (fst c2) = Progress.reportTime (fst c1) /\
  Progress.reporter (fst c2) = deliver (Progress.reporter (fst c1)) e /\
  Progress.done (fst c2)
  = match e with
    | EvAdd n => Int64.add (Progress.done (fst c1)) n
    | _ => Progress.done (fst c1)
    end.
Proof.
  intros Hs. inversion Hs; subst; cbn [fst deliver]; try (repeat split; reflexivity).
  all: unfold emit; pose proof (Report_frame p now) as (H1 & H2 & H3 & H4 & H5 & H6);
    destruct (Progress.Report p now) as [snap p1];
    cbn [fst snd Progress.WithReporter Progress.total Progress.done
         Progress.reportTime Progress.reporter] in *;
    rewrite H1, H2, H4, H5; repeat split; reflexivity.
Qed.

Lemma replay_cons (e : event) (tr : list event) (r : R) :
  replay (e :: tr) r = replay tr (deliver r e).
Proof. reflexivity. Qed.

Lemma step_done_range (c1 c2 : @config R) e :
  step c1 e c2 ->
  Int64.in_range (Progress.done (fst c1)) = true ->
  Int64.in_range (Progress.done (fst c2)) = true.
Proof.
  intros Hs Hr. destruct (step_frame _ _ _ Hs) as (_ & _ & _ & Hd). rewrite Hd.
  destruct e; try exact Hr. apply wrap_range.
Qed.

Lemma exec_done (c c' : @config R) (tr : list event) :
  exec step c tr c' ->
  Int64.in_range (Progress.done (fst c)) = true ->
  Progress.done (fst c') = Int64.wrap (Progress.done (fst c) + trace_added tr).
Proof.
  induction 1 as [c|c1 e c2 tr c3 Hs He IH]; intros Hr.
  - cbn [trace_added]. rewrite Z.add_0_r. symmetry. apply wrap_in_range, in_range_spec, Hr.
  - destruct (step_frame _ _ _ Hs) as (_ & _ & _ & Hd).
    rewrite IH by (eapply step_done_range; eauto). rewrite Hd.
    destruct e; cbn [trace_added]; try reflexivity.
    unfold Int64.add. rewrite wrap_add_l. f_equal. lia.
Qed.

Lemma idle_total (c c' : @config R) (tr : list event) :
  exec step c tr c' -> Progress.total (fst c') = Progress.total (fst c).
Proof.
  induction 1 as [c|c1 e c2 tr c3 Hs He IH]; [reflexivity|].
  rewrite IH. apply (step_frame _ _ _ Hs).
Qed.

(** X8: over any run of the goroutine of [StartChan] and of the
    producers, the tracker's [total] and [reportTime] do not change, the
    counter is the initial one plus the amounts added (as an [int64]),
    and the reporter is the initial one after exactly the calls of the
    run, [Report] with each snapshot and [Finalize], in their order. *)
Theorem scheduler_frame (c c' : @config R) (tr : list event) :
  exec step c tr c' ->
  Progress.total (fst c') = Progress.total (fst c) /\
  Progress.reportTime (fst c') = Progress.reportTime (fst c) /\
  Progress.reporter (fst c') = replay tr (Progress.reporter (fst c)) /\
  (Int64.in_range (Progress.done (fst c)) = true ->
   Progress.done (fst c') = Int64.wrap (Progress.done (fst c) + trace_added tr)).
Proof.
  induction 1 as [c|c1 e c2 tr c3 Hs He (IHt & IHr & IHp & IHd)].
  - repeat split; try reflexivity. intros Hr. cbn [trace_added]. rewrite Z.add_0_r.
    symmetry. apply wrap_in_range, in_range_spec, Hr.
  - destruct (step_frame _ _ _ Hs) as (Ht & Hrt & Hp & Hd).
    split; [congruence|]. split; [congruence|].
    split; [rewrite replay_cons, <- Hp; exact IHp|].
    intros Hr. rewrite IHd by (eapply step_done_range; eauto). rewrite Hd.
    destruct e; cbn [trace_added]; try reflexivity.
    unfold Int64.add. rewrite wrap_add_l. f_equal. lia.
Qed.

(** Once the goroutine has left its loop it reports no more. *)
Lemma stopping_no_report (c c' : @config R) (tr : list event) :
  exec step c tr c' -> stopping (snd c) = true ->
  report_calls tr = 0%nat /\ stopping (snd c') = true.
Proof.
  induction 1 as [c|c1 e c2 tr c3 Hs He IH]; intros Hst; [split; [reflexivity | exact Hst]|].
  assert (Hs2 : stopping (snd c2) = true /\ is_report e = false).
  { inversion Hs; subst; cbn [snd stopping is_report] in *; try discriminate; auto.
    - unfold finalize. cbn [snd]. destruct (outcome_panicked _); auto.
    - destruct panicking; auto. }
  destruct Hs2 as [Hs2 He2]. destruct (IH Hs2) as [IH1 IH2].
  split; [|exact IH2]. unfold report_calls in *. cbn [List.filter]. rewrite He2. exact IH1.
Qed.

Lemma reported_has_report (c c' : @config R) (tr : list event) :
  exec step c tr c' -> reported (snd c') = true ->
  reported (snd c) = true \/ (1 <= report_calls tr)%nat.
Proof.
  induction 1 as [c|c1 e c2 tr c3 Hs He IH]; intros Hr; [left; exact Hr|].
  destruct (IH Hr) as [H2 | H2].
  - inversion Hs; subst; cbn [snd reported] in *; try discriminate; auto.
    all: right; unfold report_calls; cbn; lia.
  - right. unfold report_calls in *. cbn [List.filter]. destruct (is_report e); cbn; lia.
Qed.

Lemma started_has_start (c c' : @config R) (tr : list event) :
  exec step c tr c' -> snd c' <> Idle ->
  snd c <> Idle \/ exists t, In (EvStart t) tr.
Proof.
  induction 1 as [c|c1 e c2 tr c3 Hs He IH]; intros Hn; [left; exact Hn|].
  destruct (IH Hn) as [H2 | [t Ht]].
  - inversion Hs; subst; cbn [snd] in *; try (left; discriminate); auto.
    right. exists now. left. reflexivity.
  - right. exists t. right. exact Ht.
Qed.

Lemma idle_only_adds (c c' : @config R) (tr : list event) :
  exec step c tr c' -> snd c' = Idle ->
  snd c = Idle /\ Forall (fun e => exists n, e = EvAdd n) tr.
Proof.
  induction 1 as [c|c1 e c2 tr c3 Hs He IH]; intros Hi; [split; [exact Hi | constructor]|].
  destruct (IH Hi) as [H2 Hf].
  inversion Hs; subst; cbn [snd] in *; try discriminate.
  - split; [exact H2|]. constructor; eauto.
  - destruct (emit_phase p now) as [Hp | Hp]; rewrite Hp in H2; discriminate.
  - destruct (emit_phase p now) as [Hp | Hp]; rewrite Hp in H2; discriminate.
  - unfold finalize in H2. cbn [snd] in H2. destruct (outcome_panicked _); discriminate.
  - destruct panicking; discriminate.
Qed.

(** X9: in a run from the idle state no snapshot is reported before
    [StartChan] is called, only [Add] calls can come before the start,
    and no snapshot is reported after the cancellation is taken. *)
Theorem reports_while_running (p p' : Progress.Progress R) (ph' : phase)
        (tr : list event) :
  exec step (p, Idle) tr (p', ph') ->
  (forall tr1 s tr2, tr = (tr1 ++ EvReport s :: tr2)%list ->
     exists t, In (EvStart t) tr1) /\
  (forall tr1 t tr2, tr = (tr1 ++ EvStart t :: tr2)%list ->
     Forall (fun e => exists n, e = EvAdd n) tr1) /\
  (forall tr1 tr2, tr = (tr1 ++ EvCancel :: tr2)%list -> report_calls tr2 = 0%nat).
Proof.
  intros He. split; [|split].
  - intros tr1 s tr2 ->. apply exec_split in He as ([q ph] & H1 & H2).
    inversion H2 as [|? ? ? ? ? Hs _]; subst.
    assert (Hn : ph <> Idle) by (inversion Hs; subst; discriminate).
    destruct (started_has_start _ _ _ H1 Hn) as [Hc | Hc]; [cbn in Hc; congruence | exact Hc].
  - intros tr1 t tr2 ->. apply exec_split in He as ([q ph] & H1 & H2).
    inversion H2 as [|? ? ? ? ? Hs _]; subst.
    assert (Hn : ph = Idle) by (inversion Hs; subst; reflexivity).
    apply (idle_only_adds _ _ _ H1 Hn).
  - intros tr1 tr2 ->. apply exec_split in He as ([q ph] & H1 & H2).
    inversion H2 as [|? ? c2 ? ? Hs He2]; subst.
    assert (Hn : stopping (snd c2) = true) by (inversion Hs; subst; reflexivity).
    apply (stopping_no_report _ _ _ He2 Hn).
Qed.

(** X10: whenever [Finalize] is called, the reporter has received at
    least one snapshot before, and it receives none afterwards. *)
Theorem finalize_after_report (p p' : Progress.Progress R) (ph' : phase)
        (tr1 tr2 : list event) :
  exec step (p, Idle) (tr1 ++ EvFinalize :: tr2) (p', ph') ->
  (1 <= report_calls tr1)%nat /\ report_calls tr2 = 0%nat.
Proof.
  intros He. apply exec_split in He as ([q ph] & H1 & H2).
  inversion H2 as [|? ? c2 ? ? Hs He2]; subst.
  assert (Hn : reported ph = true /\ stopping (snd c2) = true).
  { inversion Hs; subst. split; [reflexivity|]. unfold finalize. cbn [snd].
    destruct (outcome_panicked _); reflexivity. }
  destruct Hn as [Hr Hst]. split.
  - destruct (reported_has_report _ _ _ H1 Hr) as [Hc | Hc]; [discriminate | exact Hc].
  - apply (stopping_no_report _ _ _ He2 Hst).
Qed.

(** Producers adding before the first report leave the goroutine where
    it is and only move the counter. *)
Lemma adds_before_first (ns : list Z) : forall (q : Progress.Progress R) tr (c : @config R),
  exec step (q, FirstReport) (map EvAdd ns ++ tr)%list c ->
  exec step (Calls.run q (map Calls.OpAdd ns), FirstReport) tr c.
Proof.
  induction ns as [|n ns IH]; intros q tr c He; cbn [map app] in *; [exact He|].
  inversion He as [|? ? c2 ? ? Hs He2]; subst. inversion Hs; subst.
  apply IH in He2. exact He2.
Qed.

(** X11: for a tracker made by [New] and started at [t0], the first
    snapshot reported (whatever was added in between) has [StartedAt]
    equal to [t0], the tracker's total, [Done] equal to the sum of the
    amounts added, [DT] equal to [Elapsed] and [RPSInst] equal to
    [RPSAvg]. *)
Theorem first_report (total : Z) (r : R) (p0 : Progress.Progress R) (t0 : Time)
        (ns : list Z) (s : Report) (c : @config R) :
  Progress.New total r = Some p0 ->
  exec step (p0, Idle) (EvStart t0 :: map EvAdd ns ++ [EvReport s])%list c ->
  StartedAt s = t0 /\
  Total s = total /\
  Done s = Int64.wrap (Calls.added (map Calls.OpAdd ns)) /\
  DT s = Elapsed s /\
  RPSInst s = RPSAvg s.
Proof.
  intros Hn He. unfold Progress.New in Hn.
  destruct (Z.leb_spec total 0) as [|Ht]; [discriminate|]. injection Hn as <-.
  inversion He as [|? ? c2 ? ? Hs He2]; subst. inversion Hs; subst.
  apply adds_before_first in He2.
  match type of He2 with exec _ (Calls.run ?q _, _) _ _ => set (q0 := q) in * end.
  inversion He2 as [|? ? c3 ? ? Hs3 _]; subst.
  pose proof (run_adds_frame ns q0) as (H1 & H2 & H3 & H4).
  pose proof (run_done_wrap (map Calls.OpAdd ns) q0 eq_refl) as Hd.
  set (q := Calls.run q0 (map Calls.OpAdd ns)) in *.
  cbn in H1, H2, H3, H4, Hd.
  clearbody q. clear He2 He.
  assert (Hsnap : exists now, s = fst (Progress.Report q now)).
  { inversion Hs3; subst. exists now. unfold emit.
    destruct (Progress.Report _ _); reflexivity. }
  destruct Hsnap as [now Hsnap]. rewrite Hsnap. unfold Progress.Report. rewrite H1.
  destruct (Z.eqb_spec total 0) as [|_]; [lia|].
  cbn [fst StartedAt Total Done DT Elapsed RPSInst RPSAvg].
  rewrite H2, H3, H4, Hd.
  repeat split; try reflexivity.
  unfold Int64.sub. rewrite Z.sub_0_r.
  rewrite (wrap_in_range (Int64.wrap _)) by (apply in_range_spec, wrap_range).
  reflexivity.
Qed.

Lemma step_started (c1 c2 : @config R) e :
  step c1 e c2 -> snd c1 <> Idle ->
  snd c2 <> Idle /\
  Progress.startedAt (fst c2) = Progress.startedAt (fst c1) /\
  Progress.total (fst c2) = Progress.total (fst c1).
Proof.
  intros Hs Hn. inversion Hs; subst; cbn [fst snd] in *; try congruence;
    try (repeat split; [discriminate|..]; reflexivity);
    try (repeat split; [assumption|..]; reflexivity).
  1,2: pose proof (emit_phase p now) as Hp; unfold emit in *;
    pose proof (Report_frame p now) as (H1 & _ & H3 & _);
    destruct (Progress.Report p now) as [snap p1]; cbn [fst snd] in *;
    split; [destruct Hp as [-> | ->]; discriminate | split; assumption].
  - unfold finalize. cbn [fst snd]. split; [|split; reflexivity].
    destruct (outcome_panicked _); discriminate.
  - split; [destruct panicking; discriminate | split; reflexivity].
Qed.

Lemma step_report_fields (c1 c2 : @config R) (s : Report) :
  step c1 (EvReport s) c2 -> Progress.total (fst c1) <> 0 ->
  StartedAt s = Progress.startedAt (fst c1) /\
  Total s = Progress.total (fst c1) /\
  Done s = Progress.done (fst c1).
Proof.
  intros Hs Ht. inversion Hs; subst; cbn [fst] in *.
  all: unfold emit, Progress.Report;
    destruct (Z.eqb_spec (Progress.total p) 0); [contradiction|];
    repeat split; reflexivity.
Qed.

Lemma running_reports (c c' : @config R) (tr : list event) :
  exec step c tr c' -> snd c <> Idle -> Progress.total (fst c) <> 0 ->
  forall s, In (EvReport s) tr ->
    StartedAt s = Progress.startedAt (fst c) /\ Total s = Progress.total (fst c).
Proof.
  induction 1 as [c|c1 e c2 tr c3 Hs He IH]; intros Hn Ht s Hin; [destruct Hin|].
  destruct (step_started _ _ _ Hs Hn) as (Hn2 & Hst & Htot).
  destruct Hin as [-> | Hin].
  - destruct (step_report_fields _ _ _ Hs Ht) as (H1 & H2 & _). split; assumption.
  - rewrite <- Hst, <- Htot. apply IH; auto. congruence.
Qed.

(** X12: every snapshot reported during a run of [StartChan] carries
    the tracker's total, the counter as the calls of [Add] before it
    leave it, and the time at which the tracker was started. *)
Theorem report_in_run (p p' : Progress.Progress R) (ph' : phase) (s : Report)
        (tr1 tr2 : list event) :
  Progress.total p <> 0 ->
  Int64.in_range (Progress.done p) = true ->
  exec step (p, Idle) (tr1 ++ EvReport s :: tr2)%list (p', ph') ->
  Total s = Progress.total p /\
  Done s = Int64.wrap (Progress.done p + trace_added tr1) /\
  (forall t0 tr0 tr0', tr1 = (tr0 ++ EvStart t0 :: tr0')%list -> StartedAt s = t0).
Proof.
  intros Ht Hr He. apply exec_split in He as ([q ph] & H1 & H2).
  pose proof (idle_total _ _ _ H1) as Hq. cbn [fst] in Hq.
  pose proof (exec_done _ _ _ H1 Hr) as Hd. cbn [fst] in Hd.
  inversion H2 as [|? ? c2 ? ? Hs _]; subst.
  destruct (step_report_fields _ _ _ Hs ltac:(cbn [fst]; congruence)) as (_ & HT & HD).
  cbn [fst] in HT, HD. split; [congruence|]. split; [congruence|].
  intros t0 tr0 tr0' ->. apply exec_split in H1 as ([q0 ph0] & H0 & H3).
  pose proof (idle_total _ _ _ H0) as Hq0. cbn [fst] in Hq0.
  inversion H3 as [|? ? c3 ? ? Hs3 He3]; subst. inversion Hs3; subst.
  assert (Hex : exec step (set_started q0 t0, FirstReport) (tr0' ++ [EvReport s])%list c2).
  { clear - He3 Hs. induction He3 as [c|c1 e c2' tr c3 Hs1 He1 IH].
    - eapply exec_step; [exact Hs | apply exec_nil].
    - eapply exec_step; [exact Hs1 | apply IH; exact Hs]. }
  apply (running_reports _ _ _ Hex); cbn [fst snd set_started Progress.total];
    [discriminate | congruence | apply in_or_app; right; left; reflexivity].
Qed.

End SchedulerRuns.

(** *** Runs of the goroutine of [Start] *)

Lemma ReportStart_frame {R} (p : ProgressStart.Progress R) now :
  let p1 := snd (ProgressStart.Report p now) in
  ProgressStart.total p1 = ProgressStart.total p /\
  ProgressStart.done p1 = ProgressStart.done p /\
  ProgressStart.reporter p1 = ProgressStart.reporter p.
Proof.
  unfold ProgressStart.Report. destruct (ProgressStart.total p =? 0); cbn; repeat split; reflexivity.
Qed.

Section StartRuns.
Context {R : Type} `{Reporter R}.
Import SchedulerStart.

Lemma Start_emit_phase (p : ProgressStart.Progress R) now :
  snd (snd (emit p now)) = Select \/ snd (snd (emit p now)) = Crashed.
Proof.
  unfold emit. destruct (ProgressStart.Report p now) as [snap p1]. cbn.
  destruct (outcome_panicked _); auto.
Qed.

Lemma Start_step_frame (c1 c2 : @config R) e :
  step c1 e c2 ->
  ProgressStart.total (fst c2) = ProgressStart.total (fst c1) /\
  ProgressStart.reporter (fst c2) = deliver (ProgressStart.reporter (fst c1)) e.
Proof.
  intros Hs. inversion Hs; subst; cbn [fst deliver]; try (split; reflexivity).
  all: unfold emit; pose proof (ReportStart_frame p now) as (H1 & H2 & H3);
    destruct (ProgressStart.Report p now) as [snap p1];
    cbn [fst snd ProgressStart.WithReporter ProgressStart.total
         ProgressStart.reporter] in *;
    rewrite H1, H3; split; reflexivity.
Qed.

Lemma Start_exec_frame (c c' : @config R) (tr : list event) :
  exec step c tr c' ->
  ProgressStart.total (fst c') = ProgressStart.total (fst c) /\
  ProgressStart.reporter (fst c') = replay tr (ProgressStart.reporter (fst c)).
Proof.
  induction 1 as [c|c1 e c2 tr c3 Hs He [IHt IHr]]; [split; reflexivity|].
  destruct (Start_step_frame _ _ _ Hs) as [Ht Hr].
  split; [congruence|]. cbn [replay fold_left]. rewrite <- Hr. exact IHr.
Qed.

Lemma Start_over_only_adds (c c' : @config R) (tr : list event) :
  exec step c tr c' -> over (snd c) = true ->
  Forall (fun e => exists n, e = EvAdd n) tr.
Proof.
  induction 1 as [c|c1 e c2 tr c3 Hs He IH]; intros Ho; [constructor|].
  inversion Hs; subst; cbn [snd over] in *; try discriminate.
  constructor; eauto.
Qed.

Lemma Start_reported_has_report (c c' : @config R) (tr : list event) :
  exec step c tr c' -> reported (snd c') = true ->
  reported (snd c) = true \/ (1 <= report_calls tr)%nat.
Proof.
  induction 1 as [c|c1 e c2 tr c3 Hs He IH]; intros Hp; [left; exact Hp|].
  destruct (IH Hp) as [H2 | H2].
  - inversion Hs; subst; cbn [snd reported] in *; try discriminate; auto.
    all: right; unfold report_calls; cbn; lia.
  - right. unfold report_calls in *. cbn [List.filter]. destruct (is_report e); cbn; lia.
Qed.

Lemma Start_started_has_start (c c' : @config R) (tr : list event) :
  exec step c tr c' -> snd c' <> Idle ->
  snd c <> Idle \/ exists t, In (EvStart t) tr.
Proof.
  induction 1 as [c|c1 e c2 tr c3 Hs He IH]; intros Hn; [left; exact Hn|].
  destruct (IH Hn) as [H2 | [t Ht]].
  - inversion Hs; subst; cbn [snd] in *; try (left; discriminate); auto.
    right. exists now. left. reflexivity.
  - right. exists t. right. exact Ht.
Qed.

Lemma Start_idle_only_adds (c c' : @config R) (tr : list event) :
  exec step c tr c' -> snd c' = Idle ->
  snd c = Idle /\ Forall (fun e => exists n, e = EvAdd n) tr.
Proof.
  induction 1 as [c|c1 e c2 tr c3 Hs He IH]; intros Hi; [split; [exact Hi | constructor]|].
  destruct (IH Hi) as [H2 Hf].
  inversion Hs; subst; cbn [snd] in *; try discriminate.
  - split; [exact H2|]. constructor; eauto.
  - destruct (Start_emit_phase p now) as [Hp | Hp]; rewrite Hp in H2; discriminate.
  - destruct (Start_emit_phase p now) as [Hp | Hp]; rewrite Hp in H2; discriminate.
Qed.

(** X13: the goroutine of [Start] in [gopv.go]: no snapshot is reported
    before the start, only [Add] calls can come before the start, at
    least one snapshot has been reported when the cancellation is taken
    and only [Add] calls follow it; the tracker's total does not change
    and the reporter is the initial one after the calls of the run. *)
Theorem Start_trace (p p' : ProgressStart.Progress R) (ph' : phase) (tr : list event) :
  exec step (p, Idle) tr (p', ph') ->
  (forall tr1 s tr2, tr = (tr1 ++ EvReport s :: tr2)%list ->
     exists t, In (EvStart t) tr1) /\
  (forall tr1 t tr2, tr = (tr1 ++ EvStart t :: tr2)%list ->
     Forall (fun e => exists n, e = EvAdd n) tr1) /\
  (forall tr1 tr2, tr = (tr1 ++ EvCancel :: tr2)%list ->
     (1 <= report_calls tr1)%nat /\ Forall (fun e => exists n, e = EvAdd n) tr2) /\
  ProgressStart.total p' = ProgressStart.total p /\
  ProgressStart.reporter p' = replay tr (ProgressStart.reporter p).
Proof.
  intros He. split; [|split; [|split]].
  - intros tr1 s tr2 ->. apply exec_split in He as ([q ph] & H1 & H2).
    inversion H2 as [|? ? ? ? ? Hs _]; subst.
    assert (Hn : ph <> Idle) by (inversion Hs; subst; discriminate).
    destruct (Start_started_has_start _ _ _ H1 Hn) as [Hc | Hc];
      [cbn in Hc; congruence | exact Hc].
  - intros tr1 t tr2 ->. apply exec_split in He as ([q ph] & H1 & H2).
    inversion H2 as [|? ? ? ? ? Hs _]; subst.
    assert (Hn : ph = Idle) by (inversion Hs; subst; reflexivity).
    apply (Start_idle_only_adds _ _ _ H1 Hn).
  - intros tr1 tr2 ->. apply exec_split in He as ([q ph] & H1 & H2).
    inversion H2 as [|? ? c2 ? ? Hs He2]; subst.
    assert (Hn : reported ph = true /\ over (snd c2) = true)
      by (inversion Hs; subst; split; reflexivity).
    destruct Hn as [Hr Ho]. split.
    + destruct (Start_reported_has_report _ _ _ H1 Hr) as [Hc | Hc];
        [discriminate | exact Hc].
    + apply (Start_over_only_adds _ _ _ He2 Ho).
  - apply (Start_exec_frame _ _ _ He).
Qed.

End StartRuns.

(** *** The text reporter: builders, writes and the final line feed *)

(** X14: the four builders of the text reporter can be chained in any
    order with the same result, a later [WithLegend] replaces an earlier
    one, and the reporter built has the four values given. *)
Theorem builders_commute (r : TextReporter.TextReporter) (l l' : string) (fp : Z)
        (o : nat) (w : Z) :
  let r4 := TextReporter.WithProgressBarWidth
              (TextReporter.WithOutput
                 (TextReporter.WithFloatPrecision (TextReporter.WithLegend r l) fp) o) w in
  TextReporter.WithLegend
    (TextReporter.WithFloatPrecision
       (TextReporter.WithOutput (TextReporter.WithProgressBarWidth r w) o) fp) l = r4 /\
  TextReporter.WithOutput
    (TextReporter.WithLegend
       (TextReporter.WithProgressBarWidth (TextReporter.WithFloatPrecision r fp) w) l) o = r4 /\
  TextReporter.WithLegend (TextReporter.WithLegend r l') l = TextReporter.WithLegend r l /\
  (TextReporter.legend r4, TextReporter.floatPrecision r4,
   TextReporter.output r4, TextReporter.pbWidth r4) = (l, fp, o, w).
Proof. repeat split; reflexivity. Qed.

Lemma writeString_Ok (str : string) (r : TextReporter.TextReporter)
      (w : TextReporter.World) (h : nat) (bw : TextReporter.bufioWriter) :
  TextReporter.writer r = Some h -> TextReporter.writers w !! h = Some bw ->
  TextReporter.writeString str (r, w)
  = Run.Ok tt (r, {| TextReporter.writers :=
                       <[ h := {| TextReporter.wr := TextReporter.wr bw;
                                  TextReporter.buf := TextReporter.buf bw ++ str |} ]>
                         (TextReporter.writers w);
                     TextReporter.outputs := TextReporter.outputs w |}).
Proof. intros Hw Hl. unfold TextReporter.writeString. cbn [fst snd]. rewrite Hw, Hl. reflexivity. Qed.

Lemma writeString_inv (str : string) (r : TextReporter.TextReporter)
      (w : TextReporter.World) (st' : TextReporter.St) :
  TextReporter.writeString str (r, w) = Run.Ok tt st' ->
  exists h bw, TextReporter.writer r = Some h /\ TextReporter.writers w !! h = Some bw.
Proof.
  unfold TextReporter.writeString. cbn [fst snd].
  destruct (TextReporter.writer r) as [h|]; [|discriminate].
  destruct (TextReporter.writers w !! h) as [bw|] eqn:Hl; [|discriminate].
  intros _. exists h, bw. split; [reflexivity | exact Hl].
Qed.

Lemma flush_Ok (r : TextReporter.TextReporter)
      (w : TextReporter.World) (h : nat) (bw : TextReporter.bufioWriter) :
  TextReporter.writer r = Some h -> TextReporter.writers w !! h = Some bw ->
  TextReporter.flush (r, w)
  = Run.Ok tt (r, {| TextReporter.writers :=
                       <[ h := {| TextReporter.wr := TextReporter.wr bw;
                                  TextReporter.buf := "" |} ]>
                         (TextReporter.writers w);
                     TextReporter.outputs :=
                       <[ TextReporter.wr bw :=
                            TextReporter.written w (TextReporter.wr bw) ++ TextReporter.buf bw ]>
                         (TextReporter.outputs w) |}).
Proof. intros Hw Hl. unfold TextReporter.flush. cbn [fst snd]. rewrite Hw, Hl. reflexivity. Qed.

Lemma lookup_insert_same {A} (l : list A) (h : nat) (x y : A) :
  l !! h = Some x -> <[ h := y ]> l !! h = Some y.
Proof. intros Hl. apply list_lookup_insert_eq. apply lookup_lt_Some in Hl. exact Hl. Qed.

Lemma written_flushed (w : TextReporter.World) (h : nat) (bw : TextReporter.bufioWriter)
      (text : string) (o : nat) :
  TextReporter.written (TextReporter.flushed w h bw text) o
  = if decide (o = TextReporter.wr bw)
    then TextReporter.written w o ++ TextReporter.buf bw ++ text
    else TextReporter.written w o.
Proof.
  unfold TextReporter.written at 1, TextReporter.flushed. cbn [TextReporter.outputs].
  destruct (decide (o = TextReporter.wr bw)) as [->|Hne].
  - rewrite lookup_insert_eq. reflexivity.
  - rewrite lookup_insert_ne by congruence. reflexivity.
Qed.

Lemma padding_Repeat (last len : Z) :
  Int64.in_range last = true -> 0 <= len -> len < last ->
  Strings.Repeat " " (Int64.sub last len) = Some (TextReporter.padding last len).
Proof.
  intros Hr Hl Hlt. apply in_range_spec in Hr.
  unfold Int64.sub. rewrite wrap_in_range
    by (unfold Int64.min_int, Int64.max_int in *; lia).
  apply repeat_nonneg. lia.
Qed.

Lemma padding_none (last len : Z) : last <= len -> TextReporter.padding last len = "".
Proof. intros Hl. unfold TextReporter.padding. replace (Z.to_nat (last - len)) with 0%nat by lia. reflexivity. Qed.

(** The part of [Report] after the line is formatted. *)
Lemma write_line (r : TextReporter.TextReporter) (w : TextReporter.World)
      (h : nat) (bw : TextReporter.bufioWriter) (line : string) (k : Z) :
  TextReporter.writer r = Some h -> TextReporter.writers w !! h = Some bw ->
  Int64.in_range (TextReporter.lastLegendLength r) = true ->
  (TextReporter.writeString line;;
   Run.when (Strings.len line <? TextReporter.lastLegendLength r)
     (spaces ← Run.orPanic
                 (Strings.Repeat " " (Int64.sub (TextReporter.lastLegendLength r)
                                                (Strings.len line)));
      TextReporter.writeString spaces);;
   r ← TextReporter.getR;
   TextReporter.putR (TextReporter.set_lastLegendLength r k);;
   TextReporter.flush) (r, w)
  = Run.Ok tt (TextReporter.set_lastLegendLength r k,
               TextReporter.flushed w h bw
                 (line ++ TextReporter.padding (TextReporter.lastLegendLength r) (Strings.len line))).
Proof.
  intros Hw Hl Hr.
  unfold mbind, run_bind, Run.bind.
  rewrite (writeString_Ok _ _ _ _ _ Hw Hl).
  set (w1 := {| TextReporter.writers := _; TextReporter.outputs := _ |}).
  assert (Hl1 : TextReporter.writers w1 !! h
                = Some {| TextReporter.wr := TextReporter.wr bw;
                          TextReporter.buf := TextReporter.buf bw ++ line |})
    by (apply (lookup_insert_same _ _ _ _ Hl)).
  unfold Run.when.
  destruct (Z.ltb_spec (Strings.len line) (TextReporter.lastLegendLength r)) as [Hlt|Hge].
  - unfold Run.orPanic.
    rewrite padding_Repeat by (auto; unfold Strings.len; lia).
    rewrite (writeString_Ok _ _ _ _ _ Hw Hl1).
    unfold TextReporter.getR, TextReporter.putR. cbn [fst snd].
    erewrite flush_Ok; [|exact Hw|cbn [TextReporter.writers]; eapply lookup_insert_same; exact Hl1].
    unfold TextReporter.flushed, w1. cbn [TextReporter.writers TextReporter.outputs TextReporter.wr TextReporter.buf].
    rewrite !list_insert_insert_eq. unfold TextReporter.written. cbn [TextReporter.outputs].
    rewrite !append_assoc. reflexivity.
  - unfold mret, run_ret, Run.ret.
    unfold TextReporter.getR, TextReporter.putR. cbn [fst snd].
    erewrite flush_Ok; [|exact Hw|exact Hl1].
    unfold TextReporter.flushed, w1. cbn [TextReporter.writers TextReporter.outputs TextReporter.wr TextReporter.buf].
    rewrite !list_insert_insert_eq. unfold TextReporter.written. cbn [TextReporter.outputs].
    rewrite padding_none by lia. rewrite append_empty. reflexivity.
Qed.

Lemma len_append (a b : string) : Strings.len (a ++ b) = Strings.len a + Strings.len b.
Proof.
  unfold Strings.len. rewrite <- Nat2Z.inj_add. f_equal.
  induction a as [|c a IH]; [reflexivity|].
  change (String c a ++ b) with (String c (a ++ b)). cbn [String.length]. rewrite IH. reflexivity.
Qed.

Lemma len_repeat_blank (n : nat) : Strings.len (Strings.repeat_nat " " n) = Z.of_nat n.
Proof.
  unfold Strings.len. f_equal. induction n as [|n IH]; [reflexivity|].
  cbn [Strings.repeat_nat]. change (" " ++ ?s) with (String " " s).
  cbn [String.length]. rewrite IH. reflexivity.
Qed.

Lemma len_padded (line : string) (last : Z) :
  Strings.len (line ++ TextReporter.padding last (Strings.len line)) = Z.max (Strings.len line) last.
Proof.
  rewrite len_append. unfold TextReporter.padding. rewrite len_repeat_blank.
  assert (0 <= Strings.len line) by (unfold Strings.len; lia). lia.
Qed.

(** [Report], with the steps before the line is written laid out. *)
Lemma Report_unfold (rep : Report) (r : TextReporter.TextReporter) (w : TextReporter.World) :
  TextReporter.Report rep (r, w)
  = let s1 := TextReporter.prepared (r, w) in
    match TextReporter.renderProgressBar (fst s1) rep with
    | None => Run.Panic s1
    | Some bar =>
        match TimeFmt.Format (Now rep) TextReporter.timeLayout with
        | None => Run.Unmodelled
        | Some now =>
            match TimeFmt.Format (StartedAt rep) TextReporter.timeLayout with
            | None => Run.Unmodelled
            | Some started =>
                match Fmt.Sprintf (TextReporter.legendCompiled (fst s1))
                                  (TextReporter.legendArgs rep now started bar) with
                | None => Run.Unmodelled
                | Some line =>
                    (TextReporter.writeString line;;
                     Run.when (Strings.len line <? TextReporter.lastLegendLength (fst s1))
                       (spaces ← Run.orPanic
                                   (Strings.Repeat " "
                                      (Int64.sub (TextReporter.lastLegendLength (fst s1))
                                                 (Strings.len line)));
                        TextReporter.writeString spaces);;
                     r ← TextReporter.getR;
                     TextReporter.putR (TextReporter.set_lastLegendLength r (Strings.len line));;
                     TextReporter.flush) s1
                end
            end
        end
    end.
Proof.
  unfold TextReporter.Report, TextReporter.prepared.
  unfold mbind at 1 2 3 4 5 6 7, run_bind at 1 2 3 4 5 6 7, Run.bind at 1 2 3 4 5 6 7.
  unfold TextReporter.getR at 1. cbn [fst snd].
  destruct (String.eqb (TextReporter.legendCompiled r) ""); cbn zeta.
  - unfold Run.when at 1. unfold mbind at 1, run_bind at 1, Run.bind at 1.
    unfold TextReporter.NewWriter, TextReporter.putR at 1, TextReporter.getR at 1.
    cbn [fst snd].
    unfold Run.orPanic at 1, Run.orUnmodelled.
    destruct (TextReporter.renderProgressBar _ rep); [|reflexivity].
    destruct (TimeFmt.Format (Now rep) _); [|reflexivity].
    destruct (TimeFmt.Format (StartedAt rep) _); [|reflexivity].
    destruct (Fmt.Sprintf _ _); reflexivity.
  - unfold Run.when at 1. unfold mret, run_ret, Run.ret, TextReporter.getR at 1.
    cbn [fst snd].
    unfold Run.orPanic at 1, Run.orUnmodelled.
    destruct (TextReporter.renderProgressBar _ rep); [|reflexivity].
    destruct (TimeFmt.Format (Now rep) _); [|reflexivity].
    destruct (TimeFmt.Format (StartedAt rep) _); [|reflexivity].
    destruct (Fmt.Sprintf _ _); reflexivity.
Qed.

(** X15: a call of [Report] on a reporter with no compiled legend, when
    it returns, has compiled the legend at the reporter's precision,
    allocated one writer on the reporter's output, and sent to that
    output the formatted line followed by the blanks for a longer
    previous line; the other outputs are untouched, the writer is left
    empty and [lastLegendLength] is the length of the line. *)
Theorem Report_first_call (rep : Report) (r : TextReporter.TextReporter)
        (w : TextReporter.World) (st' : TextReporter.St) :
  String.eqb (TextReporter.legendCompiled r) "" = true ->
  Int64.in_range (TextReporter.lastLegendLength r) = true ->
  TextReporter.Report rep (r, w) = Run.Ok tt st' ->
  let compiled := TextReporter.compileLegend (TextReporter.legend r)
                                             (TextReporter.floatPrecision r) in
  let h := List.length (TextReporter.writers w) in
  exists bar now started line,
    TextReporter.renderProgressBar r rep = Some bar /\
    TimeFmt.Format (Now rep) TextReporter.timeLayout = Some now /\
    TimeFmt.Format (StartedAt rep) TextReporter.timeLayout = Some started /\
    Fmt.Sprintf compiled (TextReporter.legendArgs rep now started bar) = Some line /\
    fst st' = TextReporter.set_lastLegendLength
                (TextReporter.set_compiled r compiled (Some h)) (Strings.len line) /\
    TextReporter.writers (snd st')
      = (TextReporter.writers w
           ++ [ {| TextReporter.wr := TextReporter.output r; TextReporter.buf := "" |} ])%list /\
    (forall o, TextReporter.written (snd st') o
               = if decide (o = TextReporter.output r)
                 then TextReporter.written w o ++ line
                        ++ TextReporter.padding (TextReporter.lastLegendLength r) (Strings.len line)
                 else TextReporter.written w o).
Proof.
  intros Hc Hr Hrep compiled h. rewrite Report_unfold in Hrep. unfold TextReporter.prepared in Hrep. rewrite Hc in Hrep.
  fold compiled h in Hrep.
  set (r1 := TextReporter.set_compiled r compiled (Some h)) in *.
  set (new := {| TextReporter.wr := TextReporter.output r; TextReporter.buf := "" |}) in *.
  set (w1 := {| TextReporter.writers := (TextReporter.writers w ++ [new])%list;
                TextReporter.outputs := TextReporter.outputs w |}) in *.
  cbn zeta in Hrep. cbn [fst] in Hrep.
  change (TextReporter.renderProgressBar r1 rep)
    with (TextReporter.renderProgressBar r rep) in Hrep.
  destruct (TextReporter.renderProgressBar r rep) as [bar|] eqn:Hbar; [|discriminate].
  destruct (TimeFmt.Format (Now rep) TextReporter.timeLayout) as [now|] eqn:Hnow;
    [|discriminate].
  destruct (TimeFmt.Format (StartedAt rep) TextReporter.timeLayout) as [started|] eqn:Hst;
    [|discriminate].
  change (TextReporter.legendCompiled r1) with compiled in Hrep.
  destruct (Fmt.Sprintf _ _) as [line|] eqn:Hline; [|discriminate].
  assert (Hw : TextReporter.writer r1 = Some h) by reflexivity.
  assert (Hl : TextReporter.writers w1 !! h = Some new).
  { unfold w1, h. cbn [TextReporter.writers]. apply list_lookup_middle. reflexivity. }
  rewrite (write_line r1 w1 h new line (Strings.len line) Hw Hl Hr) in Hrep.
  injection Hrep as <-.
  exists bar, now, started, line.
  repeat (split; [first [assumption | reflexivity]|]).
  split.
  - cbn [snd TextReporter.flushed TextReporter.writers TextReporter.wr].
    apply list_insert_id. exact Hl.
  - intros o. cbn [snd]. rewrite written_flushed. reflexivity.
Qed.

(** X16: a later call of [Report], when it returns, formats the line
    with the legend compiled before, sends it through the writer it
    already has, followed by as many blanks as the previous line was
    longer, so that the bytes sent are as many as the longer of the two
    lines; it changes nothing in the reporter but [lastLegendLength]. *)
Theorem Report_overwrites_line (rep : Report) (r : TextReporter.TextReporter)
        (w : TextReporter.World) (st' : TextReporter.St) :
  String.eqb (TextReporter.legendCompiled r) "" = false ->
  Int64.in_range (TextReporter.lastLegendLength r) = true ->
  TextReporter.Report rep (r, w) = Run.Ok tt st' ->
  exists h bw bar now started line,
    TextReporter.writer r = Some h /\
    TextReporter.writers w !! h = Some bw /\
    TextReporter.renderProgressBar r rep = Some bar /\
    TimeFmt.Format (Now rep) TextReporter.timeLayout = Some now /\
    TimeFmt.Format (StartedAt rep) TextReporter.timeLayout = Some started /\
    Fmt.Sprintf (TextReporter.legendCompiled r)
                (TextReporter.legendArgs rep now started bar) = Some line /\
    let text := line ++ TextReporter.padding (TextReporter.lastLegendLength r) (Strings.len line) in
    fst st' = TextReporter.set_lastLegendLength r (Strings.len line) /\
    TextReporter.writers (snd st')
      = <[ h := {| TextReporter.wr := TextReporter.wr bw; TextReporter.buf := "" |} ]>
          (TextReporter.writers w) /\
    (forall o, TextReporter.written (snd st') o
               = if decide (o = TextReporter.wr bw)
                 then TextReporter.written w o ++ TextReporter.buf bw ++ text
                 else TextReporter.written w o) /\
    Strings.len text = Z.max (Strings.len line) (TextReporter.lastLegendLength r).
Proof.
  intros Hc Hr Hrep. rewrite Report_unfold in Hrep. unfold TextReporter.prepared in Hrep. rewrite Hc in Hrep. cbn zeta in Hrep. cbn [fst] in Hrep.
  destruct (TextReporter.renderProgressBar r rep) as [bar|] eqn:Hbar; [|discriminate].
  destruct (TimeFmt.Format (Now rep) TextReporter.timeLayout) as [now|] eqn:Hnow;
    [|discriminate].
  destruct (TimeFmt.Format (StartedAt rep) TextReporter.timeLayout) as [started|] eqn:Hst;
    [|discriminate].
  destruct (Fmt.Sprintf _ _) as [line|] eqn:Hline; [|discriminate].
  assert (Hw : exists h bw, TextReporter.writer r = Some h /\
                            TextReporter.writers w !! h = Some bw).
  { unfold mbind at 1, run_bind at 1, Run.bind at 1 in Hrep.
    destruct (TextReporter.writeString line (r, w)) as [[] s1| |] eqn:Hws;
      try discriminate.
    eapply writeString_inv; eauto. }
  destruct Hw as (h & bw & Hw & Hl).
  rewrite (write_line r w h bw line (Strings.len line) Hw Hl Hr) in Hrep.
  injection Hrep as <-.
  exists h, bw, bar, now, started, line.
  repeat (split; [first [assumption | reflexivity]|]).
  split; [intros o; cbn [snd]; rewrite written_flushed; reflexivity | apply len_padded].
Qed.

Lemma renderProgressBar_returns (r : TextReporter.TextReporter) (report : Report) :
  Int64.min_int + 2 <= TextReporter.pbWidth r <= Int64.max_int ->
  let w := TextReporter.pbWidth r - 2 in
  let ratio := if F64.ltb (Ratio report) F64.zero then F64.zero else Ratio report in
  (0 < w -> F64.convertible (F64.mul ratio (F64.of_int w)) = true) ->
  exists bar, TextReporter.renderProgressBar r report = Some bar.
Proof.
  intros Hr w ratio Hc. destruct (Z.le_gt_cases w 0) as [Hw|Hw].
  - exists "". unfold TextReporter.renderProgressBar.
    replace (Int64.sub (TextReporter.pbWidth r) 2) with w
      by (symmetry; apply wrap_in_range; unfold Int64.min_int, Int64.max_int, w in *; lia).
    destruct (Z.leb_spec w 0); [reflexivity | lia].
  - assert (Hw' : 0 < w) by lia. specialize (Hc Hw').
    assert (Hy : F64.signbit (F64.of_int w) = false) by (apply of_int_signbit; lia).
    destruct (clamped_product (Ratio report) (F64.of_int w) Hy Hc) as [_ Hk].
    pose proof (renderProgressBar_fill r report Hr Hw' Hk) as Hbar.
    eexists. exact Hbar.
Qed.

(** X17: [Report] does not panic when the progress bar can be built
    (its width is in range and the product of the ratio by the inner
    width converts to an [int]) and the reporter either has no compiled
    legend yet or holds a writer. *)
Theorem Report_does_not_panic (rep : Report) (r : TextReporter.TextReporter)
        (w : TextReporter.World) :
  Int64.in_range (TextReporter.lastLegendLength r) = true ->
  Int64.min_int + 2 <= TextReporter.pbWidth r <= Int64.max_int ->
  (0 < TextReporter.pbWidth r - 2 ->
   F64.convertible
     (F64.mul (if F64.ltb (Ratio rep) F64.zero then F64.zero else Ratio rep)
              (F64.of_int (TextReporter.pbWidth r - 2))) = true) ->
  (String.eqb (TextReporter.legendCompiled r) "" = false ->
   exists h bw, TextReporter.writer r = Some h /\ TextReporter.writers w !! h = Some bw) ->
  forall s, TextReporter.Report rep (r, w) <> Run.Panic s.
Proof.
  intros Hlast Hpb Hconv Hwf s. rewrite Report_unfold. cbn zeta.
  assert (Hp : exists r1 w1 h bw,
             TextReporter.prepared (r, w) = (r1, w1) /\
             TextReporter.pbWidth r1 = TextReporter.pbWidth r /\
             TextReporter.lastLegendLength r1 = TextReporter.lastLegendLength r /\
             TextReporter.writer r1 = Some h /\ TextReporter.writers w1 !! h = Some bw).
  { unfold TextReporter.prepared.
    destruct (String.eqb (TextReporter.legendCompiled r) "") eqn:Hc.
    - do 4 eexists. split; [reflexivity|]. split; [reflexivity|]. split; [reflexivity|].
      split; [reflexivity|]. cbn [TextReporter.writers]. apply list_lookup_middle. reflexivity.
    - destruct (Hwf eq_refl) as (h & bw & Hw & Hl).
      exists r, w, h, bw. repeat split; assumption. }
  destruct Hp as (r1 & w1 & h & bw & -> & Hpb1 & Hl1 & Hw & Hl). cbn [fst].
  destruct (renderProgressBar_returns r rep Hpb Hconv) as [bar Hbar].
  assert (Hbar1 : TextReporter.renderProgressBar r1 rep = Some bar).
  { rewrite <- Hbar. unfold TextReporter.renderProgressBar. rewrite Hpb1. reflexivity. }
  cbn zeta. rewrite Hbar1.
  destruct (TimeFmt.Format (Now rep) _); [|discriminate].
  destruct (TimeFmt.Format (StartedAt rep) _); [|discriminate].
  destruct (Fmt.Sprintf _ _) as [line|]; [|discriminate].
  rewrite (write_line r1 w1 h bw line (Strings.len line) Hw Hl) by (rewrite Hl1; exact Hlast).
  discriminate.
Qed.

Lemma Finalize_Ok (r : TextReporter.TextReporter) (w : TextReporter.World)
      (h : nat) (bw : TextReporter.bufioWriter) :
  TextReporter.writer r = Some h -> TextReporter.writers w !! h = Some bw ->
  TextReporter.Finalize (r, w) = Run.Ok tt (r, TextReporter.flushed w h bw TextReporter.LF).
Proof.
  intros Hw Hl. unfold TextReporter.Finalize, mbind, run_bind, Run.bind.
  rewrite (writeString_Ok _ _ _ _ _ Hw Hl).
  erewrite flush_Ok; [|exact Hw|cbn [TextReporter.writers]; eapply lookup_insert_same; exact Hl].
  unfold TextReporter.flushed. cbn [TextReporter.writers TextReporter.outputs TextReporter.wr TextReporter.buf].
  rewrite list_insert_insert_eq. reflexivity.
Qed.

(** A report that returns leaves a writer with an empty buffer. *)
Lemma Report_leaves_writer (rep : Report) (r : TextReporter.TextReporter)
      (w : TextReporter.World) (st' : TextReporter.St) :
  Int64.in_range (TextReporter.lastLegendLength r) = true ->
  TextReporter.Report rep (r, w) = Run.Ok tt st' ->
  exists h o,
    TextReporter.writer (fst st') = Some h /\
    TextReporter.writers (snd st') !! h
    = Some {| TextReporter.wr := o; TextReporter.buf := "" |}.
Proof.
  intros Hr Hrep. rewrite Report_unfold in Hrep. unfold TextReporter.prepared in Hrep.
  cbn zeta in Hrep.
  set (s1 := if String.eqb (TextReporter.legendCompiled r) "" then _ else _) in Hrep.
  assert (Hlast : Int64.in_range (TextReporter.lastLegendLength (fst s1)) = true)
    by (unfold s1; destruct (String.eqb _ _); exact Hr).
  clearbody s1. destruct s1 as [r1 w1]. cbn [fst] in *.
  destruct (TextReporter.renderProgressBar r1 rep) as [bar|]; [|discriminate].
  destruct (TimeFmt.Format (Now rep) TextReporter.timeLayout) as [now|]; [|discriminate].
  destruct (TimeFmt.Format (StartedAt rep) TextReporter.timeLayout) as [started|];
    [|discriminate].
  destruct (Fmt.Sprintf _ _) as [line|]; [|discriminate].
  assert (Hw : exists h bw, TextReporter.writer r1 = Some h /\
                            TextReporter.writers w1 !! h = Some bw).
  { unfold mbind at 1, run_bind at 1, Run.bind at 1 in Hrep.
    destruct (TextReporter.writeString line (r1, w1)) as [[] s2| |] eqn:Hws;
      try discriminate.
    eapply writeString_inv; eauto. }
  destruct Hw as (h & bw & Hw & Hl).
  rewrite (write_line r1 w1 h bw line (Strings.len line) Hw Hl Hlast) in Hrep.
  injection Hrep as <-. exists h, (TextReporter.wr bw). cbn [fst snd]. split; [exact Hw|].
  unfold TextReporter.flushed. cbn [TextReporter.writers]. eapply lookup_insert_same. exact Hl.
Qed.

(** X18: [Finalize] panics on a reporter that has no writer (one that
    never reported); after a [Report] that returned it returns, adds one
    line feed to the output the writer is on, and leaves the reporter,
    the writers and the other outputs as they were. *)
Theorem Finalize_ends_the_line :
  (forall r w, TextReporter.writer r = None ->
     TextReporter.Finalize (r, w) = Run.Panic (r, w)) /\
  (forall rep r w st',
     Int64.in_range (TextReporter.lastLegendLength r) = true ->
     TextReporter.Report rep (r, w) = Run.Ok tt st' ->
     exists o st'',
       TextReporter.Finalize st' = Run.Ok tt st'' /\
       fst st'' = fst st' /\
       TextReporter.writers (snd st'') = TextReporter.writers (snd st') /\
       forall o', TextReporter.written (snd st'') o'
                  = if decide (o' = o)
                    then TextReporter.written (snd st') o' ++ TextReporter.LF
                    else TextReporter.written (snd st') o').
Proof.
  split.
  - intros r w Hw. unfold TextReporter.Finalize, mbind, run_bind, Run.bind,
      TextReporter.writeString. cbn [fst snd]. rewrite Hw. reflexivity.
  - intros rep r w st' Hr Hrep.
    destruct (Report_leaves_writer _ _ _ _ Hr Hrep) as (h & o & Hw & Hl).
    destruct st' as [r' w']. cbn [fst snd] in *.
    exists o. eexists. split; [apply (Finalize_Ok _ _ _ _ Hw Hl)|].
    cbn [fst snd]. split; [reflexivity|]. split.
    + unfold TextReporter.flushed. cbn [TextReporter.writers TextReporter.wr]. apply list_insert_id. exact Hl.
    + intros o'. rewrite written_flushed. cbn [TextReporter.wr TextReporter.buf]. reflexivity.
Qed.

(** *** The text reporter: what is printed *)

(** X19: what the two legends of the package print, for every snapshot,
    at the default precision: [TextReporterLegendDefault] gives
    [[now] - working (done/total) done P%, RPS r, elapsed e, ETA t] and
    [TextReporterLegendProgressBar] gives [bar P%, r RPS, t ETA], each
    ended by a carriage return, with one [%] for each [%%]. *)
Theorem default_legends (report : Report) (now started bar : string) :
  Fmt.Sprintf (TextReporter.compileLegend TextReporter.TextReporterLegendDefault
                 TextReporter.TextReporterDefaultFloatPrecision)
              (TextReporter.legendArgs report now started bar)
  = Some ("[" ++ now ++ "] - working (" ++ Strings.Itoa (Done report) ++ "/"
          ++ Strings.Itoa (Total report) ++ ") done "
          ++ Strings.Itoa (PercentInt report) ++ "%, RPS "
          ++ Fmt.FormatFloatF (RPSAvg report) 2 ++ ", elapsed "
          ++ TimeFmt.DurationString (Time.Round (Elapsed report) Time.Second)
          ++ ", ETA " ++ TimeFmt.DurationString (TextReporter.displayedETA report)
          ++ TextReporter.CR) /\
  Fmt.Sprintf (TextReporter.compileLegend TextReporter.TextReporterLegendProgressBar
                 TextReporter.TextReporterDefaultFloatPrecision)
              (TextReporter.legendArgs report now started bar)
  = Some (bar ++ " " ++ Strings.Itoa (PercentInt report) ++ "%, "
          ++ Fmt.FormatFloatF (RPSAvg report) 2 ++ " RPS, "
          ++ TimeFmt.DurationString (TextReporter.displayedETA report)
          ++ " ETA" ++ TextReporter.CR).
Proof. split; reflexivity. Qed.

Lemma Round_whole_seconds (k : Z) :
  Int64.in_range (k * Time.Second) = true ->
  Time.Round (k * Time.Second) Time.Second = k * Time.Second.
Proof.
  intros Hr. apply in_range_spec in Hr. unfold Time.Round.
  change (Time.Second <=? 0) with false. cbv iota.
  assert (Hrem : Int64.rem (k * Time.Second) Time.Second = 0).
  { unfold Int64.rem. apply Z.rem_mul. discriminate. }
  rewrite Hrem. change (Int64.wrap (- 0)) with 0.
  change (Time.lessThanHalf 0 Time.Second) with true. cbv iota.
  unfold Int64.add, Int64.sub. rewrite Z.add_0_r, Z.sub_0_r.
  rewrite wrap_in_range by exact Hr. destruct (k * Time.Second <? 0); reflexivity.
Qed.

(** X20: the ETA of a snapshot of [Report] is a whole number of seconds
    (when that fits a [Duration]), so that the rounding made before it
    is displayed changes nothing: the reporter displays the ETA itself,
    or 0 when it is negative. *)
Theorem displayed_eta_is_clamped_eta {R} (p : Progress.Progress R) (now : Time) :
  Progress.total p <> 0 ->
  let r := fst (Progress.Report p now) in
  let k := if F64.eqb (RPSAvg r) F64.zero then 0
           else F64.to_int (F64.div (F64.of_int (Int64.sub (Progress.total p)
                                                          (Progress.done p)))
                                    (RPSAvg r)) in
  Int64.in_range (k * Time.Second) = true ->
  ETA r = k * Time.Second /\
  TextReporter.displayedETA r = Z.max 0 (ETA r).
Proof.
  intros Ht r k Hk.
  assert (He : ETA r = k * Time.Second).
  { unfold r, k, Progress.Report in *.
    destruct (Z.eqb_spec (Progress.total p) 0) as [|_]; [contradiction|].
    cbn [fst ETA RPSAvg] in *.
    destruct (F64.eqb _ F64.zero); cbn [negb]; [reflexivity|].
    unfold Int64.mul. apply wrap_in_range, in_range_spec, Hk. }
  split; [exact He|].
  unfold TextReporter.displayedETA. rewrite He, Round_whole_seconds by exact Hk.
  destruct (Z.leb_spec (k * Time.Second) 0); lia.
Qed.

Lemma length_repeat_byte (c : ascii) (n : nat) :
  String.length (Strings.repeat_nat (String c "") n) = n.
Proof.
  induction n as [|n IH]; [reflexivity|]. cbn [Strings.repeat_nat].
  change (String c "" ++ ?s) with (String c s). cbn [String.length]. rewrite IH. reflexivity.
Qed.

Lemma length_append (a b : string) :
  String.length (a ++ b) = (String.length a + String.length b)%nat.
Proof.
  induction a as [|c a IH]; [reflexivity|].
  change (String c a ++ b) with (String c (a ++ b)). cbn [String.length]. rewrite IH. reflexivity.
Qed.

Lemma len_spec_bar (w fill : Z) :
  0 <= fill <= w -> Strings.len (TextReporter.spec_bar w fill) = w + 2.
Proof.
  intros Hf. unfold Strings.len, TextReporter.spec_bar.
  change ("[" ++ ?s) with (String "[" s). cbn [String.length].
  rewrite !length_append, !length_repeat_byte. cbn [String.length]. lia.
Qed.

(** X21: for a width above 2, when the product of the ratio by the
    inner width converts to an [int], the bar is built and has exactly
    the configured number of bytes. *)
Theorem progress_bar_width (r : TextReporter.TextReporter) (report : Report) :
  2 < TextReporter.pbWidth r <= Int64.max_int ->
  let w := TextReporter.pbWidth r - 2 in
  let ratio := if F64.ltb (Ratio report) F64.zero then F64.zero else Ratio report in
  F64.convertible (F64.mul ratio (F64.of_int w)) = true ->
  exists bar,
    TextReporter.renderProgressBar r report = Some bar /\
    Strings.len bar = TextReporter.pbWidth r.
Proof.
  intros Hw w ratio Hc.
  assert (Hy : F64.signbit (F64.of_int w) = false) by (apply of_int_signbit; unfold w; lia).
  destruct (clamped_product (Ratio report) (F64.of_int w) Hy Hc) as [_ Hk].
  assert (Hr : Int64.min_int + 2 <= TextReporter.pbWidth r <= Int64.max_int)
    by (unfold Int64.min_int; lia).
  pose proof (renderProgressBar_fill r report Hr ltac:(lia) Hk) as Hbar.
  cbn zeta in Hbar, Hk. fold w ratio in Hbar, Hk.
  eexists. split; [exact Hbar|]. rewrite len_spec_bar; unfold w in *; lia.
Qed.

(** *** The ratio within its bounds *)

Lemma loc_of_record_of_loc m l : loc_of_shr_record (shr_record_of_loc m l) = l.
Proof. destruct l as [|[]]; reflexivity. Qed.

Lemma shr_1_lossless (mrs : shr_record) (k : Z) :
  F64.lossless mrs -> 0 <= k -> shr_m mrs = k * 2 ->
  F64.lossless (shr_1 mrs) /\ shr_m (shr_1 mrs) = k.
Proof.
  destruct mrs as [m r s]. unfold F64.lossless. cbn [shr_m shr_r shr_s].
  intros [-> ->] Hk Hm.
  destruct m as [|[p|p|]|p]; cbn [shr_1 shr_m shr_r shr_s orb]; try lia;
    (split; [auto | lia]).
Qed.

Lemma pow_xI (n : positive) : 2 ^ Zpos n~1 = 2 ^ Zpos n * 2 ^ Zpos n * 2.
Proof. rewrite (Pos2Z.inj_xI n), Z.pow_add_r, Z.pow_twice_r by lia. reflexivity. Qed.

Lemma pow_xO (n : positive) : 2 ^ Zpos n~0 = 2 ^ Zpos n * 2 ^ Zpos n.
Proof. rewrite (Pos2Z.inj_xO n), Z.pow_twice_r by lia. reflexivity. Qed.

Lemma iter_shr_1_lossless (n : positive) : forall (mrs : shr_record) (k : Z),
  F64.lossless mrs -> 0 <= k -> shr_m mrs = k * 2 ^ Zpos n ->
  F64.lossless (iter_pos shr_1 n mrs) /\ shr_m (iter_pos shr_1 n mrs) = k.
Proof.
  induction n as [n IH|n IH|]; intros mrs k Hl Hk Hm; cbn [iter_pos].
  - assert (Hp : 0 < 2 ^ Zpos n) by (apply Z.pow_pos_nonneg; lia).
    destruct (shr_1_lossless mrs (k * 2 ^ Zpos n * 2 ^ Zpos n) Hl ltac:(nia))
      as [Hl0 Hm0].
    { rewrite Hm, pow_xI. ring. }
    destruct (IH _ (k * 2 ^ Zpos n) Hl0 ltac:(nia) Hm0) as [Hl1 Hm1].
    apply (IH _ k Hl1 Hk Hm1).
  - assert (Hp : 0 < 2 ^ Zpos n) by (apply Z.pow_pos_nonneg; lia).
    destruct (IH mrs (k * 2 ^ Zpos n) Hl ltac:(nia)) as [Hl1 Hm1].
    { rewrite Hm, pow_xO. ring. }
    apply (IH _ k Hl1 Hk Hm1).
  - apply (shr_1_lossless _ k Hl Hk). rewrite Hm. reflexivity.
Qed.

Lemma lossless_loc (mrs : shr_record) : F64.lossless mrs -> loc_of_shr_record mrs = loc_Exact.
Proof. destruct mrs as [m r s]. intros [Hr Hs]. cbn in Hr, Hs. subst. reflexivity. Qed.

(** One shift to the format's exponent keeps a value under an integer
    below [2^53]: what is rounded afterwards is still at most that
    integer, which lies on the grid. *)
Lemma shr_fexp_upper (m e : Z) (l : location) (W : Z) :
  0 <= m -> e <= 0 -> 0 <= W < 2 ^ 53 ->
  m + (match l with loc_Exact => 0 | _ => 1 end) <= W * 2 ^ (- e) ->
  let res := shr_fexp F64.prec F64.emax m e l in
  snd res <= 0 /\ 0 <= shr_m (fst res) /\
  round_nearest_even (shr_m (fst res)) (loc_of_shr_record (fst res)) <= W * 2 ^ (- snd res).
Proof.
  intros Hm He HW Hub. unfold shr_fexp.
  set (n := fexp F64.prec F64.emax (Zdigits2 m + e) - e).
  assert (Hpe : 0 < 2 ^ (- e)) by (apply Z.pow_pos_nonneg; lia).
  assert (Hdig : Zdigits2 m <= 53 - e).
  { apply Zdigits2_le; try lia.
    replace (53 - e) with (53 + - e) by lia. rewrite Z.pow_add_r by lia.
    assert (m <= W * 2 ^ (- e)) by (destruct l; lia). nia. }
  assert (Hn : e + n <= 0) by (unfold n; rewrite fexp_eq; lia).
  unfold shr. destruct n as [|p|p] eqn:En; cbn [fst snd].
  - rewrite shr_record_of_loc_m, loc_of_record_of_loc.
    split; [lia|]. split; [lia|].
    pose proof (round_nearest_even_le m l). destruct l; cbn [round_nearest_even] in *; lia.
  - split; [lia|].
    assert (Hpn : 0 < 2 ^ Zpos p) by (apply Z.pow_pos_nonneg; lia).
    set (W1 := W * 2 ^ (- (e + Zpos p))).
    assert (HW1 : W * 2 ^ (- e) = W1 * 2 ^ Zpos p).
    { unfold W1. rewrite <- Z.mul_assoc, <- Z.pow_add_r by lia. do 2 f_equal. lia. }
    assert (Hshm : shr_m (iter_pos shr_1 p (shr_record_of_loc m l)) = m / 2 ^ Zpos p)
      by (rewrite iter_shr_1_m by (rewrite shr_record_of_loc_m; lia);
          rewrite shr_record_of_loc_m; reflexivity).
    split; [rewrite Hshm; apply Z.div_pos; lia|].
    destruct (Z.lt_ge_cases m (W1 * 2 ^ Zpos p)) as [Hlt|Hge].
    + pose proof (round_nearest_even_le
                    (shr_m (iter_pos shr_1 p (shr_record_of_loc m l)))
                    (loc_of_shr_record (iter_pos shr_1 p (shr_record_of_loc m l)))) as Hr.
      rewrite Hshm in *.
      assert (m / 2 ^ Zpos p < W1) by (apply Z.div_lt_upper_bound; lia). lia.
    + assert (Hex : l = loc_Exact) by (destruct l; [reflexivity | lia]).
      subst l. assert (Hmeq : m = W1 * 2 ^ Zpos p) by lia.
      assert (HW1n : 0 <= W1) by (unfold W1; apply Z.mul_nonneg_nonneg; [lia|]; apply Z.pow_nonneg; lia).
      destruct (iter_shr_1_lossless p (shr_record_of_loc m loc_Exact) W1)
        as [Hl1 Hm1]; [split; reflexivity | exact HW1n | exact Hmeq |].
      rewrite (lossless_loc _ Hl1), Hm1. cbn [round_nearest_even]. lia.
  - rewrite shr_record_of_loc_m, loc_of_record_of_loc.
    split; [lia|]. split; [lia|].
    pose proof (round_nearest_even_le m l). destruct l; cbn [round_nearest_even] in *; lia.
Qed.

Lemma binary_round_aux_upper (m e : Z) (l : location) (W : Z) :
  0 <= m -> e <= 0 -> 0 <= W < 2 ^ 53 ->
  m + (match l with loc_Exact => 0 | _ => 1 end) <= W * 2 ^ (- e) ->
  F64.at_most (binary_round_aux F64.prec F64.emax false m e l) W.
Proof.
  intros Hm He HW Hub. unfold binary_round_aux.
  pose proof (shr_fexp_upper m e l W Hm He HW Hub) as (He1 & Hm1 & Hr1).
  destruct (shr_fexp F64.prec F64.emax m e l) as [mrs1 e1]. cbn [fst snd] in *.
  set (m2 := round_nearest_even (shr_m mrs1) (loc_of_shr_record mrs1)) in *.
  assert (Hm2 : 0 <= m2) by (pose proof (round_nearest_even_ge (shr_m mrs1) (loc_of_shr_record mrs1)); unfold m2; lia).
  assert (Hub2 : m2 + 0 <= W * 2 ^ (- e1)) by lia.
  pose proof (shr_fexp_upper m2 e1 loc_Exact W Hm2 He1 HW Hub2) as (He2 & Hm3 & Hr2).
  destruct (shr_fexp F64.prec F64.emax m2 e1 loc_Exact) as [mrs2 e2]. cbn [fst snd] in *.
  pose proof (round_nearest_even_ge (shr_m mrs2) (loc_of_shr_record mrs2)) as Hge.
  destruct (shr_m mrs2) as [|m3|m3]; cbn [F64.at_most]; try lia.
  destruct (Z.leb_spec e2 (F64.emax - F64.prec)) as [|Hgt];
    [|unfold F64.emax, F64.prec in Hgt; lia].
  cbn [F64.at_most]. split; lia.
Qed.

(** [float64(z)] is exact for [1 <= z < 2^53]. *)
Lemma of_int_exact (z : Z) :
  1 <= z < 2 ^ 53 ->
  exists m e, F64.of_int z = S754_finite false m e /\ e <= 0 /\ Zpos m = z * 2 ^ (- e).
Proof.
  intros Hz. pose proof (of_int_ge z Hz) as Hge.
  assert (Hup : F64.at_most (F64.of_int z) z).
  { unfold F64.of_int, binary_normalize. destruct z as [|p|p]; try lia.
    unfold binary_round.
    pose proof (digits2_pos_bounds p) as Hd.
    assert (Hdp : Zpos (digits2_pos p) <= 53)
      by (change (Zpos (digits2_pos p)) with (Zdigits2 (Zpos p)); apply Zdigits2_le; lia).
    rewrite fexp_eq. unfold shl_align.
    destruct (Z.max (Zpos (digits2_pos p) + 0 - 53) (-1074) - 0) as [|d|d] eqn:Ed.
    - apply binary_round_aux_upper; lia.
    - lia.
    - apply binary_round_aux_upper; try lia.
      rewrite iter_xO. replace (- Z.max (Zpos (digits2_pos p) + 0 - 53) (-1074)) with (Zpos d) by lia.
      lia. }
  destruct (F64.of_int z) as [s|s| |s m e]; try destruct s;
    cbn [F64.ge_int F64.at_most] in *; try tauto.
  destruct Hup as [He Hm]. exists m, e.
  split; [reflexivity|]. split; [exact He|].
  unfold F64.le_val in Hge.
  rewrite (Z.max_r 0 (- e)), (Z.max_l 0 e), Z.pow_0_r in Hge by lia. lia.
Qed.

(** The quotient of two positive floats, the first at most the second,
    is at most 1. *)
Lemma div_at_most_one (m1 m2 : positive) (e1 e2 : Z) :
  e1 <= 0 -> e2 <= 0 ->
  Zpos m1 * 2 ^ (- e2) <= Zpos m2 * 2 ^ (- e1) ->
  F64.at_most (F64.div (S754_finite false m1 e1) (S754_finite false m2 e2)) 1.
Proof.
  intros He1 He2 Hle. unfold F64.div, SFdiv, SFdiv_core_binary. cbn [xorb].
  set (D := Zdigits2 (Zpos m1) + e1 - (Zdigits2 (Zpos m2) + e2)).
  assert (HD : D <= 0).
  { unfold D. cbn [Zdigits2].
    pose proof (digits2_pos_bounds m1) as [H1 _]. pose proof (digits2_pos_bounds m2) as [_ H2].
    set (d1 := Zpos (digits2_pos m1)) in *. set (d2 := Zpos (digits2_pos m2)) in *.
    assert (0 < d1) by (unfold d1; lia). assert (0 < d2) by (unfold d2; lia).
    destruct (Z.le_gt_cases (d1 + e1 - (d2 + e2)) 0) as [|Hgt]; [assumption|exfalso].
    assert (Ha : 2 ^ (d1 - 1) * 2 ^ (- e2) <= Zpos m1 * 2 ^ (- e2))
      by (apply Z.mul_le_mono_nonneg_r; [apply Z.pow_nonneg; lia | exact H1]).
    assert (Hb : Zpos m2 * 2 ^ (- e1) < 2 ^ d2 * 2 ^ (- e1))
      by (apply Z.mul_lt_mono_pos_r; [apply Z.pow_pos_nonneg; lia | exact H2]).
    rewrite <- Z.pow_add_r in Ha, Hb by lia.
    assert (2 ^ (d2 + - e1) <= 2 ^ (d1 - 1 + - e2)) by (apply Z.pow_le_mono_r; lia). lia. }
  set (e' := Z.min (fexp F64.prec F64.emax D) (e1 - e2)).
  assert (He' : e' <= -53) by (unfold e'; rewrite fexp_eq; lia).
  assert (Hs : 0 <= e1 - e2 - e') by (unfold e'; lia).
  set (m' := match e1 - e2 - e' with
             | 0 => Zpos m1 | Zpos _ => Z.shiftl (Zpos m1) (e1 - e2 - e') | Zneg _ => 0 end).
  assert (Hm' : m' = Zpos m1 * 2 ^ (e1 - e2 - e')).
  { unfold m'. destruct (e1 - e2 - e') as [|s|s] eqn:Es; try lia.
    rewrite Z.shiftl_mul_pow2 by lia. reflexivity. }
  clearbody m'.
  pose proof (Z_div_mod m' (Zpos m2) ltac:(lia)) as Hdm.
  destruct (Z.div_eucl m' (Zpos m2)) as [q r]. destruct Hdm as [Hq Hr].
  assert (Hbound : m' <= Zpos m2 * 2 ^ (- e')).
  { rewrite Hm'.
    assert (Hp1 : 0 < 2 ^ (- e1)) by (apply Z.pow_pos_nonneg; lia).
    apply (Z.mul_le_mono_pos_r _ _ (2 ^ (- e1)) Hp1).
    rewrite <- !Z.mul_assoc, <- !Z.pow_add_r by lia.
    replace (e1 - e2 - e' + - e1) with (- e2 + - e') by lia.
    replace (- e' + - e1) with (- e1 + - e') by lia.
    rewrite !Z.pow_add_r by lia. rewrite !Z.mul_assoc.
    apply Z.mul_le_mono_nonneg_r; [apply Z.pow_nonneg; lia | exact Hle]. }
  assert (Hq0 : 0 <= q).
  { assert (0 <= m') by (rewrite Hm'; apply Z.mul_nonneg_nonneg; [lia | apply Z.pow_nonneg; lia]).
    nia. }
  assert (Hp2 : 0 < 2 ^ (- e')) by (apply Z.pow_pos_nonneg; lia).
  apply binary_round_aux_upper; try lia.
  rewrite Z.mul_1_l.
  unfold new_location, new_location_even, new_location_odd.
  assert (Hq1 : q <= 2 ^ (- e')) by nia.
  assert (Hq2 : r <> 0 -> q + 1 <= 2 ^ (- e')) by (intros Hr0; nia).
  destruct (Z.even (Zpos m2)); cbv beta;
    destruct (Z.eqb_spec r 0) as [Hr0|Hr0]; try lia; specialize (Hq2 Hr0); lia.
Qed.

(** The product of two floats that are at most [a] and [b]. *)
Lemma mul_at_most (x y : float64) (a b : Z) :
  F64.at_most x a -> F64.at_most y b -> 0 <= a -> 0 <= b -> a * b < 2 ^ 53 ->
  F64.at_most (F64.mul x y) (a * b).
Proof.
  intros Hx Hy Ha Hb Hab.
  destruct x as [sx|sx| |sx mx ex]; cbn [F64.at_most] in Hx; try tauto;
    destruct y as [sy|sy| |sy my ey]; cbn [F64.at_most] in Hy; try tauto.
  - cbn. nia.
  - destruct sy; [tauto|]. cbn. nia.
  - destruct sx; [tauto|]. cbn. nia.
  - destruct sx; [tauto|]. destruct sy; [tauto|].
    destruct Hx as [Hex Hmx], Hy as [Hey Hmy].
    unfold F64.mul, SFmul. cbn [xorb].
    apply binary_round_aux_upper; [lia | lia | split; [nia | exact Hab] |].
    rewrite Pos2Z.inj_mul, Z.add_0_r.
    replace (- (ex + ey)) with (- ex + - ey) by lia. rewrite Z.pow_add_r by lia.
    assert (0 < 2 ^ (- ex)) by (apply Z.pow_pos_nonneg; lia).
    assert (0 < 2 ^ (- ey)) by (apply Z.pow_pos_nonneg; lia).
    nia.
Qed.

(** A float that is at most an [int] converts to an [int] between 0 and
    that bound. *)
Lemma at_most_to_int (f : float64) (w : Z) :
  F64.at_most f w -> w <= Int64.max_int ->
  F64.convertible f = true /\ 0 <= F64.to_int f <= w.
Proof.
  intros Hf Hw. unfold F64.convertible, F64.to_int.
  destruct f as [s|s| |s m e]; cbn [F64.at_most] in Hf; try tauto.
  - cbn [F64.trunc]. change (Int64.in_range 0) with true. cbv iota.
    split; [reflexivity | lia].
  - destruct s; [tauto|]. destruct Hf as [He Hm]. cbn [F64.trunc cond_Zopp].
    assert (Hp : 0 < 2 ^ (- e)) by (apply Z.pow_pos_nonneg; lia).
    assert (Ht : 0 <= (if 0 <=? e then Zpos m * 2 ^ e else Zpos m / 2 ^ (- e)) <= w).
    { destruct (Z.leb_spec 0 e) as [H0|H0].
      - assert (e = 0) by lia. subst e. change (2 ^ 0) with 1. change (2 ^ (- 0)) with 1 in Hm. lia.
      - split; [apply Z.div_pos; lia|].
        apply Z.div_le_upper_bound; [lia|]. lia. }
    assert (Hr : Int64.in_range (if 0 <=? e then Zpos m * 2 ^ e else Zpos m / 2 ^ (- e)) = true).
    { apply in_range_spec. unfold Int64.min_int, Int64.max_int in *. lia. }
    rewrite Hr. split; [reflexivity | exact Ht].
Qed.

Lemma at_most_not_negative (f : float64) (w : Z) :
  F64.at_most f w -> F64.ltb f F64.zero = false.
Proof.
  destruct f as [s|s| |s m e]; try destruct s; cbn [F64.at_most]; intros Hf;
    try tauto; reflexivity.
Qed.

(** The ratio of a snapshot is at most 1 when [0 <= done <= total]. *)
Lemma ratio_at_most_one (d t : Z) :
  0 <= d <= t -> 0 < t < 2 ^ 53 ->
  F64.at_most (F64.div (F64.of_int d) (F64.of_int t)) 1.
Proof.
  intros Hd Ht.
  destruct (of_int_exact t ltac:(lia)) as (m2 & e2 & E2 & He2 & Hm2). rewrite E2.
  destruct (Z.eq_dec d 0) as [->|Hd0].
  - cbn. lia.
  - destruct (of_int_exact d ltac:(lia)) as (m1 & e1 & E1 & He1 & Hm1). rewrite E1.
    apply div_at_most_one; try assumption.
    rewrite Hm1, Hm2.
    assert (0 < 2 ^ (- e1)) by (apply Z.pow_pos_nonneg; lia).
    assert (0 < 2 ^ (- e2)) by (apply Z.pow_pos_nonneg; lia).
    nia.
Qed.

(** X22: for a tracker with [0 <= done <= total < 2^53] the product
    [Ratio * 100] converts to an [int] (the conversion is the one the
    language defines) and [PercentInt] lies between 0 and 100. *)
Theorem percent_within_bounds {R} (p : Progress.Progress R) (now : Time) :
  0 <= Progress.done p <= Progress.total p ->
  0 < Progress.total p < 2 ^ 53 ->
  let r := fst (Progress.Report p now) in
  F64.convertible (F64.mul (Ratio r) (F64.of_int 100)) = true /\
  0 <= PercentInt r <= 100.
Proof.
  intros Hd Ht. unfold Progress.Report.
  destruct (Z.eqb_spec (Progress.total p) 0) as [|_]; [lia|].
  cbn [fst Ratio PercentInt].
  pose proof (ratio_at_most_one _ _ Hd Ht) as Hr.
  destruct (of_int_exact 100 ltac:(lia)) as (m & e & E & He & Hm).
  assert (H100 : F64.at_most (F64.of_int 100) 100) by (rewrite E; cbn [F64.at_most]; split; lia).
  pose proof (mul_at_most _ _ 1 100 Hr H100 ltac:(lia) ltac:(lia) ltac:(lia)) as Hp.
  change (1 * 100) with 100 in Hp.
  apply at_most_to_int; [exact Hp | unfold Int64.max_int; lia].
Qed.

(** The bar of a snapshot of a tracker within its total. *)
Lemma snapshot_bar_fill {R} (p : Progress.Progress R) (now : Time)
      (r : TextReporter.TextReporter) :
  0 <= Progress.done p <= Progress.total p ->
  0 < Progress.total p < 2 ^ 53 ->
  2 < TextReporter.pbWidth r < 2 ^ 53 ->
  let w := TextReporter.pbWidth r - 2 in
  exists fill,
    0 <= fill <= w /\
    TextReporter.renderProgressBar r (fst (Progress.Report p now))
    = Some (TextReporter.spec_bar w fill).
Proof.
  intros Hd Ht Hw w.
  assert (Hratio : Ratio (fst (Progress.Report p now))
                   = F64.div (F64.of_int (Progress.done p)) (F64.of_int (Progress.total p))).
  { unfold Progress.Report. destruct (Z.eqb_spec (Progress.total p) 0); [lia | reflexivity]. }
  pose proof (ratio_at_most_one _ _ Hd Ht) as Hr. rewrite <- Hratio in Hr.
  destruct (of_int_exact w ltac:(unfold w; lia)) as (m & e & E & He & Hm).
  assert (Hwm : F64.at_most (F64.of_int w) w) by (rewrite E; cbn [F64.at_most]; split; lia).
  pose proof (mul_at_most _ _ 1 w Hr Hwm ltac:(lia) ltac:(unfold w; lia)
                          ltac:(unfold w; lia)) as Hp.
  rewrite Z.mul_1_l in Hp.
  destruct (at_most_to_int _ _ Hp ltac:(unfold w, Int64.max_int; lia)) as [Hc Hk].
  assert (Hrange : Int64.min_int + 2 <= TextReporter.pbWidth r <= Int64.max_int)
    by (unfold Int64.min_int, Int64.max_int; lia).
  pose proof (renderProgressBar_fill r (fst (Progress.Report p now)) Hrange) as Hbar.
  cbn zeta in Hbar. rewrite (at_most_not_negative _ _ Hr) in Hbar.
  fold w in Hbar. specialize (Hbar ltac:(unfold w; lia) ltac:(lia)).
  exists (F64.to_int (F64.mul (Ratio (fst (Progress.Report p now))) (F64.of_int w))).
  split; [exact Hk|]. rewrite Hbar. rewrite Z.min_l by lia. reflexivity.
Qed.

(** X23: for a tracker with [0 <= done <= total < 2^53] and a width
    between 3 and [2^53], the bar of a snapshot is built (no panic), has
    the configured number of bytes, and is filled with at most its inner
    width of [#]. *)
Theorem bar_of_snapshot {R} (p : Progress.Progress R) (now : Time)
        (r : TextReporter.TextReporter) :
  0 <= Progress.done p <= Progress.total p ->
  0 < Progress.total p < 2 ^ 53 ->
  2 < TextReporter.pbWidth r < 2 ^ 53 ->
  let w := TextReporter.pbWidth r - 2 in
  exists fill bar,
    0 <= fill <= w /\
    bar = TextReporter.spec_bar w fill /\
    TextReporter.renderProgressBar r (fst (Progress.Report p now)) = Some bar /\
    Strings.len bar = TextReporter.pbWidth r.
Proof.
  intros Hd Ht Hw w.
  destruct (snapshot_bar_fill p now r Hd Ht Hw) as (fill & Hf & Hbar).
  exists fill, (TextReporter.spec_bar w fill).
  split; [exact Hf|]. split; [reflexivity|]. split; [exact Hbar|].
  rewrite len_spec_bar by exact Hf. unfold w. lia.
Qed.



(** *** Rates and the ETA are not negative *)

Lemma add_signbit (x y : float64) :
  F64.signbit x = false -> F64.signbit y = false -> F64.signbit (F64.add x y) = false.
Proof.
  unfold F64.add, SFadd.
  destruct x as [sx|sx| |sx mx ex], y as [sy|sy| |sy my ey]; cbn [F64.signbit];
    intros Hx Hy; subst; auto.
  cbn [cond_Zopp]. unfold binary_normalize.
  destruct (shl_align mx ex (Z.min ex ey)) as [ax ?], (shl_align my ey (Z.min ex ey)) as [ay ?].
  cbn [fst]. change (Zpos ax + Zpos ay) with (Zpos (ax + ay)).
  unfold binary_round. destruct (shl_align _ _ _) as [mz ez].
  apply binary_round_aux_signbit_false.
Qed.

Lemma quot_nonneg (d m : Z) :
  0 <= d <= Int64.max_int -> 0 < m -> 0 <= Int64.quot d m /\ 0 <= Int64.rem d m.
Proof.
  intros Hd Hm. unfold Int64.quot, Int64.rem.
  assert (Hq : 0 <= Z.quot d m <= d).
  { split; [apply Z.quot_pos; lia|]. rewrite Z.quot_div_nonneg by lia.
    apply Z.div_le_upper_bound; [lia|]. nia. }
  rewrite wrap_in_range by (unfold Int64.min_int, Int64.max_int in *; lia).
  split; [lia|]. apply Z.rem_nonneg; lia.
Qed.

Lemma Seconds_signbit (d : Duration) :
  0 <= d <= Int64.max_int -> F64.signbit (Time.Seconds d) = false.
Proof.
  intros Hd. unfold Time.Seconds.
  destruct (quot_nonneg d Time.Second Hd ltac:(reflexivity)) as [Hq Hr].
  apply add_signbit; [|apply div_signbit]; apply of_int_signbit; lia.
Qed.

Lemma Minutes_signbit (d : Duration) :
  0 <= d <= Int64.max_int -> F64.signbit (Time.Minutes d) = false.
Proof.
  intros Hd. unfold Time.Minutes.
  destruct (quot_nonneg d Time.Minute Hd ltac:(reflexivity)) as [Hq Hr].
  apply add_signbit; [|apply div_signbit]; apply of_int_signbit; lia.
Qed.

(** X25: for a tracker with [0 <= done <= total] and an elapsed time
    that is not negative, the average rates per second and per minute
    are not negative, and the ETA, when the quotient it is computed from
    converts to an [int] whose seconds fit a [Duration], is not negative
    and is displayed as it is. *)
Theorem rates_and_eta_not_negative {R} (p : Progress.Progress R) (now : Time) :
  0 <= Progress.done p <= Progress.total p ->
  0 < Progress.total p <= Int64.max_int ->
  0 <= Time.Sub now (Progress.startedAt p) <= Int64.max_int ->
  let r := fst (Progress.Report p now) in
  let q := F64.div (F64.of_int (Int64.sub (Progress.total p) (Progress.done p)))
                   (RPSAvg r) in
  F64.signbit (RPSAvg r) = false /\
  F64.signbit (RPMAvg r) = false /\
  (F64.convertible q = true ->
   Int64.in_range (F64.to_int q * Time.Second) = true ->
   0 <= ETA r /\ TextReporter.displayedETA r = ETA r).
Proof.
  intros Hd Ht Hel. unfold Progress.Report.
  destruct (Z.eqb_spec (Progress.total p) 0) as [|_]; [lia|].
  cbn [fst RPSAvg RPMAvg ETA].
  set (rps := F64.div (F64.of_int (Progress.done p))
                      (Time.Seconds (Time.Sub now (Progress.startedAt p)))).
  assert (Hrps : F64.signbit rps = false)
    by (apply div_signbit; [apply of_int_signbit; lia | apply Seconds_signbit; exact Hel]).
  split; [exact Hrps|].
  split; [apply div_signbit; [apply of_int_signbit; lia | apply Minutes_signbit; exact Hel]|].
  cbn zeta. intros Hc Hk.
  set (q := F64.div (F64.of_int (Int64.sub (Progress.total p) (Progress.done p))) rps) in *.
  assert (Hsub : Int64.sub (Progress.total p) (Progress.done p)
                 = Progress.total p - Progress.done p)
    by (apply sub_in_range, in_range_spec; unfold Int64.min_int, Int64.max_int in *; lia).
  assert (Hq : F64.signbit q = false)
    by (apply div_signbit; [apply of_int_signbit; rewrite Hsub; lia | exact Hrps]).
  assert (Hk0 : 0 <= F64.to_int q)
    by (apply (trunc_nonneg_signbit q); [exact Hq | apply to_int_convertible, Hc]).
  assert (Heta : (if negb (F64.eqb rps F64.zero)
                  then Int64.mul (F64.to_int q) Time.Second else 0)
                 = (if negb (F64.eqb rps F64.zero) then F64.to_int q * Time.Second else 0)).
  { destruct (negb _); [|reflexivity]. unfold Int64.mul.
    apply wrap_in_range, in_range_spec, Hk. }
  assert (Hnn : 0 <= (if negb (F64.eqb rps F64.zero)
                      then F64.to_int q * Time.Second else 0))
    by (destruct (negb _); [unfold Time.Second, Time.Millisecond, Time.Microsecond,
                              Time.Nanosecond; lia | lia]).
  split; [rewrite Heta; exact Hnn|].
  unfold TextReporter.displayedETA. cbn [ETA]. rewrite Heta.
  match goal with |- context [Time.Round ?x Time.Second] =>
    assert (Hround : Time.Round x Time.Second = x)
      by (destruct (negb _); [apply Round_whole_seconds, Hk | reflexivity]);
    rewrite Hround; destruct (Z.leb_spec x 0); lia
  end.
Qed.

(** *** The further properties at sample inputs *)

Lemma sample_run_to_first_report :
  exec Scheduler.step (Sample.fresh, Scheduler.Idle)
       (Sample.run_start ++ [EvReport Sample.first_snapshot])%list
       (Sample.fresh_reported, Scheduler.Select).
Proof.
  eapply exec_step; [apply Scheduler.step_start|].
  eapply exec_step; [apply Scheduler.step_add|].
  eapply exec_step; [apply Scheduler.step_add|].
  eapply exec_step; [apply (Scheduler.step_first _ (Sample.after 0 10))|].
  apply exec_nil.
Qed.

Lemma sample_run :
  exec Scheduler.step (Sample.fresh, Scheduler.Idle)
       (Sample.run_start ++ EvReport Sample.first_snapshot :: Sample.run_stop)%list
       (Sample.fresh_finished, Scheduler.Stopped).
Proof.
  eapply exec_step; [apply Scheduler.step_start|].
  eapply exec_step; [apply Scheduler.step_add|].
  eapply exec_step; [apply Scheduler.step_add|].
  eapply exec_step; [apply (Scheduler.step_first _ (Sample.after 0 10))|].
  eapply exec_step; [apply Scheduler.step_cancel|].
  eapply exec_step; [apply Scheduler.step_finalize|].
  eapply exec_step; [apply Scheduler.step_close|].
  apply exec_nil.
Qed.

Lemma sample_run_of_Start :
  exec SchedulerStart.step (Sample.fresh_start, SchedulerStart.Idle)
       ([EvStart Sample.afternoon; EvAdd 3; EvAdd 4;
         EvReport Sample.start_snapshot] ++ EvCancel :: [EvAdd 1])%list
       (ProgressStart.Add Sample.start_reported 1, SchedulerStart.Stopped).
Proof.
  eapply exec_step; [apply SchedulerStart.step_start|].
  eapply exec_step; [apply SchedulerStart.step_add|].
  eapply exec_step; [apply SchedulerStart.step_add|].
  eapply exec_step; [apply (SchedulerStart.step_first _ (Sample.after 0 10))|].
  eapply exec_step; [apply SchedulerStart.step_cancel|].
  eapply exec_step; [apply SchedulerStart.step_add|].
  apply exec_nil.
Qed.

Lemma Add_order_independent_witness :
  let p := Sample.tracker tt 50 25 in
  let ops := [Calls.OpAdd 3; Calls.OpReport (Sample.after 1 0); Calls.OpAdd 4] in
  let ops' := [Calls.OpAdd 4; Calls.OpAdd 3; Calls.OpReport (Sample.after 1 0)] in
  Int64.in_range (Progress.done p) = true /\
  Permutation ops ops' /\
  Progress.done (Calls.run p ops) = 32 /\
  Progress.done (Calls.run p ops') = 32.
Proof.
  intros p ops ops'.
  assert (H1 : Int64.in_range (Progress.done p) = true) by reflexivity.
  assert (H2 : Permutation ops ops').
  { unfold ops, ops'. eapply perm_trans; [apply perm_skip, perm_swap | apply perm_swap]. }
  split; [exact H1|]. split; [exact H2|].
  destruct (Add_order_independent p ops ops' H1 H2) as [Ha Hb].
  split; [exact Ha | exact (eq_trans Hb Ha)].
Defined.

Lemma instant_rate_witness :
  let p := Sample.tracker tt 50 25 in
  let p1 := snd (Progress.Report p (Sample.after 1 0)) in
  let r2 := fst (Progress.Report (Calls.run p1 [Calls.OpAdd 3; Calls.OpAdd 4])
                                 (Sample.after 2 0)) in
  Progress.total p <> 0 /\
  Int64.in_range (Progress.done p) = true /\
  DT r2 = Time.Second /\
  RPSInst r2 = F64.of_int 7.
Proof.
  intros p p1 r2.
  assert (H1 : Progress.total p <> 0) by (vm_compute; discriminate).
  assert (H2 : Int64.in_range (Progress.done p) = true) by reflexivity.
  split; [exact H1|]. split; [exact H2|].
  destruct (instant_rate p (Sample.after 1 0) (Sample.after 2 0) [3; 4] H1 H2) as [Ha Hb].
  split; [exact Ha | exact Hb].
Defined.

Lemma report_when_complete_witness :
  let p := Sample.tracker tt 50 50 in
  let r := fst (Progress.Report p (Sample.after 1 0)) in
  0 < Progress.total p <= Int64.max_int /\
  Progress.done p = Progress.total p /\
  PercentInt r = 100 /\ Left r = 0 /\ ETA r = 0.
Proof.
  intros p r.
  assert (H1 : 0 < Progress.total p <= Int64.max_int) by (vm_compute; split; [reflexivity | discriminate]).
  assert (H2 : Progress.done p = Progress.total p) by reflexivity.
  split; [exact H1|]. split; [exact H2|].
  destruct (report_when_complete p (Sample.after 1 0) H1 H2) as (_ & _ & Hp & Hl & He).
  split; [exact Hp|]. split; [exact Hl|]. apply He. vm_compute. discriminate.
Defined.

Lemma report_before_progress_witness :
  let p := Sample.tracker tt 50 0 in
  let r := fst (Progress.Report p (Sample.after 1 0)) in
  0 < Progress.total p <= Int64.max_int /\
  Progress.done p = 0 /\
  PercentInt r = 0 /\ Left r = 50 /\ ETA r = 0.
Proof.
  intros p r.
  assert (H1 : 0 < Progress.total p <= Int64.max_int) by (vm_compute; split; [reflexivity | discriminate]).
  assert (H2 : Progress.done p = 0) by reflexivity.
  split; [exact H1|]. split; [exact H2|].
  destruct (report_before_progress p (Sample.after 1 0) H1 H2) as (_ & _ & Hp & Hl & He).
  split; [exact Hp|]. split; [exact Hl|]. apply He. vm_compute. discriminate.
Defined.

Lemma elapsed_from_monotonic_clock_witness :
  let p := Sample.tracker tt 50 25 in
  let r := fst (Progress.Report p (Sample.after 1 0)) in
  Progress.total p <> 0 /\
  Time.mono (Sample.after 1 0) = Some (5000 + 10 ^ 9) /\
  Time.mono (Progress.startedAt p) = Some 5000 /\
  Time.mono (Progress.lastReportedAt p) = Some 5000 /\
  Elapsed r = Time.Second /\ DT r = Time.Second.
Proof.
  intros p r.
  assert (H1 : Progress.total p <> 0) by (vm_compute; discriminate).
  assert (H2 : Time.mono (Sample.after 1 0) = Some (5000 + 10 ^ 9)) by reflexivity.
  assert (H3 : Time.mono (Progress.startedAt p) = Some 5000) by reflexivity.
  assert (H4 : Time.mono (Progress.lastReportedAt p) = Some 5000) by reflexivity.
  repeat (split; [assumption|]).
  destruct (elapsed_from_monotonic_clock p (Sample.after 1 0) _ _ _ H1 H2 H3 H4
              eq_refl eq_refl eq_refl ltac:(vm_compute; discriminate)
              ltac:(vm_compute; discriminate)) as (He & Hd & _).
  split; [exact He | exact Hd].
Defined.

Lemma first_report_witness :
  Progress.New 50 {| reports := 0; finalizes := 0 |} = Some Sample.fresh /\
  exec Scheduler.step (Sample.fresh, Scheduler.Idle)
       (EvStart Sample.afternoon :: map EvAdd [3; 4] ++ [EvReport Sample.first_snapshot])%list
       (Sample.fresh_reported, Scheduler.Select) /\
  Done Sample.first_snapshot = 7 /\
  DT Sample.first_snapshot = Elapsed Sample.first_snapshot /\
  RPSInst Sample.first_snapshot = RPSAvg Sample.first_snapshot.
Proof.
  assert (H1 : Progress.New 50 {| reports := 0; finalizes := 0 |} = Some Sample.fresh)
    by reflexivity.
  pose proof sample_run_to_first_report as H2.
  split; [exact H1|]. split; [exact H2|].
  destruct (first_report 50 _ _ Sample.afternoon [3; 4] _ _ H1 H2)
    as (_ & _ & Hd & Ht & Hr).
  split; [exact Hd|]. split; [exact Ht | exact Hr].
Defined.

Lemma report_in_run_witness :
  Progress.total Sample.fresh <> 0 /\
  Int64.in_range (Progress.done Sample.fresh) = true /\
  exec Scheduler.step (Sample.fresh, Scheduler.Idle)
       (Sample.run_start ++ EvReport Sample.first_snapshot :: Sample.run_stop)%list
       (Sample.fresh_finished, Scheduler.Stopped) /\
  Total Sample.first_snapshot = 50 /\
  Done Sample.first_snapshot = 7 /\
  StartedAt Sample.first_snapshot = Sample.afternoon.
Proof.
  assert (H1 : Progress.total Sample.fresh <> 0) by (vm_compute; discriminate).
  assert (H2 : Int64.in_range (Progress.done Sample.fresh) = true) by reflexivity.
  pose proof sample_run as H3.
  split; [exact H1|]. split; [exact H2|]. split; [exact H3|].
  destruct (report_in_run _ _ _ _ _ _ H1 H2 H3) as (Ht & Hd & Hs).
  split; [exact Ht|]. split; [exact Hd|].
  exact (Hs Sample.afternoon [] [EvAdd 3; EvAdd 4] eq_refl).
Defined.

Lemma scheduler_frame_witness :
  exec Scheduler.step (Sample.fresh, Scheduler.Idle)
       (Sample.run_start ++ EvReport Sample.first_snapshot :: Sample.run_stop)%list
       (Sample.fresh_finished, Scheduler.Stopped) /\
  Progress.total Sample.fresh_finished = 50 /\
  Progress.done Sample.fresh_finished = 7 /\
  Progress.reporter Sample.fresh_finished = {| reports := 1; finalizes := 1 |}.
Proof.
  pose proof sample_run as H1. split; [exact H1|].
  destruct (scheduler_frame _ _ _ H1) as (Ht & _ & Hr & Hd).
  split; [exact Ht|]. split; [exact (Hd eq_refl) | exact Hr].
Defined.

Lemma reports_while_running_witness :
  exec Scheduler.step (Sample.fresh, Scheduler.Idle)
       (Sample.run_start ++ EvReport Sample.first_snapshot :: Sample.run_stop)%list
       (Sample.fresh_finished, Scheduler.Stopped) /\
  (exists t, In (EvStart t) Sample.run_start) /\
  report_calls [EvFinalize; EvClose] = 0%nat.
Proof.
  pose proof sample_run as H1. split; [exact H1|].
  destruct (reports_while_running _ _ _ _ H1) as (Ha & _ & Hc).
  split.
  - exact (Ha Sample.run_start Sample.first_snapshot Sample.run_stop eq_refl).
  - exact (Hc (Sample.run_start ++ [EvReport Sample.first_snapshot])%list
              [EvFinalize; EvClose] eq_refl).
Defined.

Lemma finalize_after_report_witness :
  exec Scheduler.step (Sample.fresh, Scheduler.Idle)
       ((Sample.run_start ++ [EvReport Sample.first_snapshot; EvCancel])
          ++ EvFinalize :: [EvClose])%list
       (Sample.fresh_finished, Scheduler.Stopped) /\
  (1 <= report_calls (Sample.run_start ++ [EvReport Sample.first_snapshot; EvCancel]))%nat.
Proof.
  pose proof sample_run as H1.
  assert (H2 : exec Scheduler.step (Sample.fresh, Scheduler.Idle)
                 ((Sample.run_start ++ [EvReport Sample.first_snapshot; EvCancel])
                    ++ EvFinalize :: [EvClose])%list
                 (Sample.fresh_finished, Scheduler.Stopped)) by exact H1.
  split; [exact H2|].
  exact (proj1 (finalize_after_report _ _ _ _ _ H2)).
Defined.

Lemma Start_trace_witness :
  exec SchedulerStart.step (Sample.fresh_start, SchedulerStart.Idle)
       ([EvStart Sample.afternoon; EvAdd 3; EvAdd 4;
         EvReport Sample.start_snapshot] ++ EvCancel :: [EvAdd 1])%list
       (ProgressStart.Add Sample.start_reported 1, SchedulerStart.Stopped) /\
  (1 <= report_calls [EvStart Sample.afternoon; EvAdd 3; EvAdd 4;
                      EvReport Sample.start_snapshot])%nat /\
  ProgressStart.reporter (ProgressStart.Add Sample.start_reported 1)
  = {| reports := 1; finalizes := 0 |}.
Proof.
  pose proof sample_run_of_Start as H1. split; [exact H1|].
  destruct (Start_trace _ _ _ _ H1) as (_ & _ & Hc & _ & Hr).
  split; [exact (proj1 (Hc _ _ eq_refl)) | exact Hr].
Defined.

Lemma Report_first_call_witness :
  let r := fst (Sample.unused "{done}") in
  let w := snd (Sample.unused "{done}") in
  String.eqb (TextReporter.legendCompiled r) "" = true /\
  Int64.in_range (TextReporter.lastLegendLength r) = true /\
  TextReporter.Report Sample.snapshot (r, w) = Run.Ok tt (Sample.used_once "{done}") /\
  exists line,
    Fmt.Sprintf "%[5]d" (TextReporter.legendArgs Sample.snapshot "2023-12-02 01:01:22"
                           "2023-12-02 01:01:21"
                           "[#######################################---------------------------------------]")
    = Some line /\
    TextReporter.written (snd (Sample.used_once "{done}")) TextReporter.Stderr
    = line ++ TextReporter.padding 0 (Strings.len line).
Proof.
  intros r w.
  assert (H1 : String.eqb (TextReporter.legendCompiled r) "" = true) by reflexivity.
  assert (H2 : Int64.in_range (TextReporter.lastLegendLength r) = true) by reflexivity.
  assert (H3 : TextReporter.Report Sample.snapshot (r, w)
               = Run.Ok tt (Sample.used_once "{done}")) by (vm_compute; reflexivity).
  repeat (split; [assumption|]).
  destruct (Report_first_call Sample.snapshot r w _ H1 H2 H3)
    as (bar & now & started & line & Hbar & Hnow & Hst & Hline & _ & _ & Hw).
  exists line. split.
  - assert (Eb : Some bar = Some "[#######################################---------------------------------------]")
      by (rewrite <- Hbar; vm_compute; reflexivity).
    assert (En : Some now = Some "2023-12-02 01:01:22")
      by (rewrite <- Hnow; vm_compute; reflexivity).
    assert (Es : Some started = Some "2023-12-02 01:01:21")
      by (rewrite <- Hst; vm_compute; reflexivity).
    injection Eb as <-. injection En as <-. injection Es as <-. exact Hline.
  - exact (Hw TextReporter.Stderr).
Defined.

Lemma Report_overwrites_line_witness :
  let r := fst (Sample.used_once "{done}") in
  let w := snd (Sample.used_once "{done}") in
  String.eqb (TextReporter.legendCompiled r) "" = false /\
  Int64.in_range (TextReporter.lastLegendLength r) = true /\
  TextReporter.Report Sample.snapshot_5 (r, w) = Run.Ok tt (Sample.used_twice "{done}") /\
  TextReporter.written w TextReporter.Stderr = "25" /\
  TextReporter.written (snd (Sample.used_twice "{done}")) TextReporter.Stderr = "255 " /\
  exists line,
    TextReporter.written (snd (Sample.used_twice "{done}")) TextReporter.Stderr
    = "25" ++ line ++ TextReporter.padding 2 (Strings.len line) /\
    Strings.len (line ++ TextReporter.padding 2 (Strings.len line))
    = Z.max (Strings.len line) 2.
Proof.
  intros r w.
  assert (H1 : String.eqb (TextReporter.legendCompiled r) "" = false) by reflexivity.
  assert (H2 : Int64.in_range (TextReporter.lastLegendLength r) = true) by reflexivity.
  assert (H3 : TextReporter.Report Sample.snapshot_5 (r, w)
               = Run.Ok tt (Sample.used_twice "{done}")) by (vm_compute; reflexivity).
  repeat (split; [assumption|]).
  split; [reflexivity|]. split; [vm_compute; reflexivity|].
  destruct (Report_overwrites_line Sample.snapshot_5 r w _ H1 H2 H3)
    as (h & bw & bar & now & started & line & Hwr & Hl & _ & _ & _ & _ & _ & _ & Hw & Hlen).
  assert (Eh : Some h = Some 0%nat) by (rewrite <- Hwr; reflexivity).
  injection Eh as ->.
  assert (Ebw : Some bw = Some {| TextReporter.wr := TextReporter.Stderr;
                                  TextReporter.buf := "" |})
    by (rewrite <- Hl; reflexivity).
  injection Ebw as ->.
  exists line. split; [exact (Hw TextReporter.Stderr) | exact Hlen].
Defined.

Lemma Report_does_not_panic_witness :
  let r := fst (Sample.unused "{done}") in
  let w := snd (Sample.unused "{done}") in
  Int64.in_range (TextReporter.lastLegendLength r) = true /\
  Int64.min_int + 2 <= TextReporter.pbWidth r <= Int64.max_int /\
  F64.convertible
    (F64.mul (if F64.ltb (Ratio Sample.snapshot) F64.zero then F64.zero
              else Ratio Sample.snapshot)
             (F64.of_int (TextReporter.pbWidth r - 2))) = true /\
  String.eqb (TextReporter.legendCompiled r) "" = true /\
  TextReporter.Report Sample.snapshot (r, w) <> Run.Panic (r, w).
Proof.
  intros r w.
  assert (H1 : Int64.in_range (TextReporter.lastLegendLength r) = true) by reflexivity.
  assert (H2 : Int64.min_int + 2 <= TextReporter.pbWidth r <= Int64.max_int)
    by (vm_compute; split; discriminate).
  assert (H3 : F64.convertible
                 (F64.mul (if F64.ltb (Ratio Sample.snapshot) F64.zero then F64.zero
                           else Ratio Sample.snapshot)
                          (F64.of_int (TextReporter.pbWidth r - 2))) = true)
    by (vm_compute; reflexivity).
  assert (H4 : String.eqb (TextReporter.legendCompiled r) "" = true) by reflexivity.
  repeat (split; [assumption|]).
  apply (Report_does_not_panic Sample.snapshot r w H1 H2 (fun _ => H3)).
  intros Hc. rewrite H4 in Hc. discriminate.
Defined.

Lemma displayed_eta_is_clamped_eta_witness :
  let p := Sample.tracker tt 5 15 in
  let r := fst (Progress.Report p (Sample.after 3 0)) in
  Progress.total p <> 0 /\
  ETA r = -2 * Time.Second /\
  TextReporter.displayedETA r = Z.max 0 (ETA r).
Proof.
  intros p r.
  assert (H1 : Progress.total p <> 0) by (vm_compute; discriminate).
  split; [exact H1|].
  exact (displayed_eta_is_clamped_eta p (Sample.after 3 0) H1 eq_refl).
Defined.

Lemma progress_bar_width_witness :
  let r := TextReporter.WithProgressBarWidth TextReporter.NewTextReporter 10 in
  2 < TextReporter.pbWidth r <= Int64.max_int /\
  exists bar,
    TextReporter.renderProgressBar r (Sample.with_ratio Sample.half) = Some bar /\
    Strings.len bar = 10.
Proof.
  intros r.
  assert (H1 : 2 < TextReporter.pbWidth r <= Int64.max_int)
    by (vm_compute; split; [reflexivity | discriminate]).
  split; [exact H1|].
  exact (progress_bar_width r (Sample.with_ratio Sample.half) H1 eq_refl).
Defined.

Lemma Finalize_ends_the_line_witness :
  let r := fst (Sample.unused "{done}") in
  let w := snd (Sample.unused "{done}") in
  TextReporter.writer r = None /\
  TextReporter.Finalize (r, w) = Run.Panic (r, w) /\
  Int64.in_range (TextReporter.lastLegendLength r) = true /\
  TextReporter.Report Sample.snapshot (r, w) = Run.Ok tt (Sample.used_once "{done}") /\
  exists st'', TextReporter.Finalize (Sample.used_once "{done}") = Run.Ok tt st''.
Proof.
  intros r w.
  assert (H1 : TextReporter.writer r = None) by reflexivity.
  assert (H2 : Int64.in_range (TextReporter.lastLegendLength r) = true) by reflexivity.
  assert (H3 : TextReporter.Report Sample.snapshot (r, w)
               = Run.Ok tt (Sample.used_once "{done}")) by (vm_compute; reflexivity).
  destruct Finalize_ends_the_line as [Hp Hf].
  split; [exact H1|]. split; [exact (Hp r w H1)|]. split; [exact H2|]. split; [exact H3|].
  destruct (Hf Sample.snapshot r w _ H2 H3) as (o & st'' & Hfin & _).
  exists st''. exact Hfin.
Defined.

Lemma zero_total_guard_witness :
  Progress.New 0 tt = None /\
  NewTextWithLegend (-1) "{done}" = None /\
  Progress.New 50 {| reports := 0; finalizes := 0 |} = Some Sample.fresh /\
  Total (fst (Progress.Report (Calls.run Sample.fresh [Calls.OpAdd 3])
                              (Sample.after 1 0))) = 50.
Proof.
  destruct (zero_total_guard 0 tt "") as (Ha & _).
  destruct (zero_total_guard (-1) tt "{done}") as (_ & Hb & _).
  destruct (zero_total_guard 50 {| reports := 0; finalizes := 0 |} "") as (_ & _ & Hc & _).
  split; [apply Ha; lia|]. split; [apply Hb; lia|].
  assert (H1 : Progress.New 50 {| reports := 0; finalizes := 0 |} = Some Sample.fresh)
    by reflexivity.
  split; [exact H1|]. exact (proj2 (Hc _ [Calls.OpAdd 3] (Sample.after 1 0) H1)).
Defined.

Lemma percent_within_bounds_witness :
  let p := Sample.tracker tt 50 25 in
  let r := fst (Progress.Report p (Sample.after 1 0)) in
  0 <= Progress.done p <= Progress.total p /\
  0 < Progress.total p < 2 ^ 53 /\
  0 <= PercentInt r <= 100.
Proof.
  intros p r.
  assert (H1 : 0 <= Progress.done p <= Progress.total p)
    by (vm_compute; split; discriminate).
  assert (H2 : 0 < Progress.total p < 2 ^ 53) by (vm_compute; split; reflexivity).
  split; [exact H1|]. split; [exact H2|].
  exact (proj2 (percent_within_bounds p (Sample.after 1 0) H1 H2)).
Defined.

Lemma bar_of_snapshot_witness :
  let p := Sample.tracker tt 50 25 in
  let r := TextReporter.WithProgressBarWidth TextReporter.NewTextReporter 10 in
  0 <= Progress.done p <= Progress.total p /\
  0 < Progress.total p < 2 ^ 53 /\
  2 < TextReporter.pbWidth r < 2 ^ 53 /\
  exists bar,
    TextReporter.renderProgressBar r (fst (Progress.Report p (Sample.after 1 0)))
    = Some bar /\
    Strings.len bar = 10.
Proof.
  intros p r.
  assert (H1 : 0 <= Progress.done p <= Progress.total p)
    by (vm_compute; split; discriminate).
  assert (H2 : 0 < Progress.total p < 2 ^ 53) by (vm_compute; split; reflexivity).
  assert (H3 : 2 < TextReporter.pbWidth r < 2 ^ 53) by (vm_compute; split; reflexivity).
  split; [exact H1|]. split; [exact H2|]. split; [exact H3|].
  destruct (bar_of_snapshot p (Sample.after 1 0) r H1 H2 H3)
    as (fill & bar & _ & _ & Hbar & Hlen).
  exists bar. split; [exact Hbar | exact Hlen].
Defined.


Lemma rates_and_eta_not_negative_witness :
  let p := Sample.tracker tt 50 25 in
  let r := fst (Progress.Report p (Sample.after 1 0)) in
  0 <= Progress.done p <= Progress.total p /\
  0 < Progress.total p <= Int64.max_int /\
  0 <= Time.Sub (Sample.after 1 0) (Progress.startedAt p) <= Int64.max_int /\
  ETA r = Time.Second /\
  TextReporter.displayedETA r = ETA r.
Proof.
  intros p r.
  assert (H1 : 0 <= Progress.done p <= Progress.total p)
    by (vm_compute; split; discriminate).
  assert (H2 : 0 < Progress.total p <= Int64.max_int)
    by (vm_compute; split; [reflexivity | discriminate]).
  assert (H3 : 0 <= Time.Sub (Sample.after 1 0) (Progress.startedAt p) <= Int64.max_int)
    by (vm_compute; split; discriminate).
  repeat (split; [assumption|]).
  split; [reflexivity|].
  exact (proj2 (proj2 (proj2 (rates_and_eta_not_negative p (Sample.after 1 0) H1 H2 H3))
                      eq_refl eq_refl)).
Defined.
